(** * Template resolution and rendering pipeline: a shallow embedding

    This development embeds the core of the resume template engine
    (escaper, LaTeX renderers, DOCX generator, template manager, the
    /generate pipeline, the date validators and the catalog endpoints)
    as executable Rocq definitions and settles the properties the
    specification states about them.

    Conventions of the embedding:
    - Python [str] is [string]; the model is exact on ASCII text. Where
      the code converts case, it does what the interpreter's
      [str.capitalize] does, which is part of the environment
      ([str_capitalize]); where it counts and classifies characters
      (the date validators), a [str] is the list of its code points.
    - A data tree (the JSON-like value handed to the renderers) is
      [pyval]; dictionaries are association lists in insertion order.
    - Exceptions are values of [exn]; a fallible computation returns
      [result].
    - Code that touches the process state (the class-level catalog
      cache, the scratch files) threads a [World] explicitly. *)

From Stdlib Require Import Ascii String ZArith List Bool Lia.
From stdpp Require Import base option list strings gmap pretty.

Local Open Scope stdpp_scope.

(** ** Python string primitives *)

Module PyStr.

(** The line feed character and the two quote characters, which cannot
    be written inside a literal. *)
Definition nl : string := String "010" EmptyString.
Definition squote : ascii := "039"%char.
Definition dquote : ascii := "034"%char.

(** [s.startswith(p)] *)
Fixpoint startswith (s p : string) {struct p} : bool :=
  match p with
  | EmptyString => true
  | String a p' =>
      match s with
      | EmptyString => false
      | String b s' => if Ascii.eqb a b then startswith s' p' else false
      end
  end.

(** [s[n:]] *)
Fixpoint drop_str (n : nat) (s : string) : string :=
  match n, s with
  | O, _ => s
  | S k, EmptyString => EmptyString
  | S k, String _ s' => drop_str k s'
  end.

(** [s.endswith(p)] *)
Definition endswith (s p : string) : bool :=
  if Nat.leb (String.length p) (String.length s)
  then String.eqb (drop_str (String.length s - String.length p) s) p
  else false.

(** [sub in s] for strings *)
Fixpoint str_contains (sub s : string) : bool :=
  if startswith s sub then true
  else match s with
       | EmptyString => false
       | String _ s' => str_contains sub s'
       end.

(** [sep.join(parts)] for a list of strings *)
Fixpoint join (sep : string) (parts : list string) : string :=
  match parts with
  | [] => EmptyString
  | [p] => p
  | p :: rest => p +:+ sep +:+ join sep rest
  end.

(** [s.replace(old, new)]: left-to-right, non-overlapping occurrences.
    [skip] counts the characters of a matched occurrence that are still
    to be dropped. *)
Fixpoint replace_go (old new : string) (skip : nat) (s : string) : string :=
  match s with
  | EmptyString => EmptyString
  | String c rest =>
      match skip with
      | S k => replace_go old new k rest
      | O =>
          if startswith s old
          then new +:+ replace_go old new (String.length old - 1) rest
          else String c (replace_go old new 0 rest)
      end
  end.

Fixpoint interleave (new s : string) : string :=
  match s with
  | EmptyString => new
  | String c rest => new +:+ String c (interleave new rest)
  end.

Definition replace (s old new : string) : string :=
  match old with
  | EmptyString => interleave new s
  | _ => replace_go old new 0 s
  end.

(** [s.isascii()]: no character above 127. *)
Fixpoint is_ascii (s : string) : bool :=
  match s with
  | EmptyString => true
  | String c s' => Nat.ltb (nat_of_ascii c) 128 && is_ascii s'
  end.

(** Case conversion of ASCII letters. *)
Definition upper_char (c : ascii) : ascii :=
  let n := nat_of_ascii c in
  if Nat.leb 97 n && Nat.leb n 122 then ascii_of_nat (n - 32) else c.

Definition lower_char (c : ascii) : ascii :=
  let n := nat_of_ascii c in
  if Nat.leb 65 n && Nat.leb n 90 then ascii_of_nat (n + 32) else c.

Fixpoint lower (s : string) : string :=
  match s with
  | EmptyString => EmptyString
  | String c s' => String (lower_char c) (lower s')
  end.

(** [s.capitalize()] on ASCII text: first character upper-cased, the
    rest lower-cased. On other text [str.capitalize] follows the Unicode
    case mappings; the code is given the interpreter's function (see
    [str_capitalize] below), and this one says what it does on ASCII
    text. *)
Definition capitalize (s : string) : string :=
  match s with
  | EmptyString => EmptyString
  | String c s' => String (upper_char c) (lower s')
  end.

(** [s.split(sep)] for a one-character separator. [cur] is the piece
    being read, in reverse. *)
Fixpoint rev_str (acc s : string) : string :=
  match s with
  | EmptyString => acc
  | String c s' => rev_str (String c acc) s'
  end.

Fixpoint split_go (sep : ascii) (cur : string) (s : string) : list string :=
  match s with
  | EmptyString => [rev_str EmptyString cur]
  | String c s' =>
      if Ascii.eqb c sep
      then rev_str EmptyString cur :: split_go sep EmptyString s'
      else split_go sep (String c cur) s'
  end.

Definition split (s : string) (sep : ascii) : list string :=
  split_go sep EmptyString s.

(** The characters of a string, as one-character strings: what
    iterating over a [str] yields. *)
Fixpoint chars_of (s : string) : list string :=
  match s with
  | EmptyString => []
  | String c s' => String c EmptyString :: chars_of s'
  end.

(** [c in s] for a character. *)
Fixpoint has_char (c : ascii) (s : string) : bool :=
  match s with
  | EmptyString => false
  | String d s' => Ascii.eqb c d || has_char c s'
  end.

(** [repr(s)] for ASCII text: single quotes unless the text has a single
    quote and no double quote; backslash, the quote in use, line feed,
    carriage return and tab are escaped. Other control characters are
    left as they are. *)
Fixpoint repr_body (q : ascii) (s : string) : string :=
  match s with
  | EmptyString => EmptyString
  | String c s' =>
      (if Ascii.eqb c "\"%char then "\\"
       else if Ascii.eqb c q then String "\"%char (String q EmptyString)
       else if Ascii.eqb c "010"%char then "\n"
       else if Ascii.eqb c "013"%char then "\r"
       else if Ascii.eqb c "009"%char then "\t"
       else String c EmptyString) +:+ repr_body q s'
  end.

Definition repr (s : string) : string :=
  let q := if has_char squote s && negb (has_char dquote s)
           then dquote else squote in
  String q (repr_body q s) +:+ String q EmptyString.

End PyStr.

(** ** Exceptions and results *)

Inductive exn : Type :=
  | ValueError (msg : string)
  | TypeError (msg : string)
  | AttributeError (msg : string)
  | NameError (msg : string)
  | RuntimeError (msg : string)
  | OSError (msg : string)
  | FileNotFoundError (msg : string)
  | ImportError (msg : string)
  | HTTPException (status_code : nat) (detail : string).

(** [str(e)] *)
Definition exn_str (e : exn) : string :=
  match e with
  | ValueError m | TypeError m | AttributeError m | NameError m
  | RuntimeError m | OSError m | FileNotFoundError m | ImportError m => m
  | HTTPException _ d => d
  end.

(** [isinstance(e, ValueError)] *)
Definition is_ValueError (e : exn) : bool :=
  match e with ValueError _ => true | _ => false end.

Inductive result (A : Type) : Type :=
  | Ok (a : A)
  | Raise (e : exn).
Arguments Ok {A} a.
Arguments Raise {A} e.

Global Instance result_ret : MRet result := fun A a => Ok a.
Global Instance result_bind : MBind result := fun A B f m =>
  match m with
  | Ok a => f a
  | Raise e => Raise e
  end.

(** A [for] loop that builds a list, stopping at the first exception. *)
Fixpoint mapM {A B : Type} (f : A -> result B) (l : list A) : result (list B) :=
  match l with
  | [] => Ok []
  | a :: l' => b ← f a; bs ← mapM f l'; Ok (b :: bs)
  end.

(** ** Data trees *)

Local Set Warnings "-register-all".

Inductive pyval : Type :=
  | PNone
  | PBool (b : bool)
  | PInt (z : Z)
  | PStr (s : string)
  | PList (l : list pyval)
  | PDict (d : list (string * pyval)).

Module Py.

Definition type_name (v : pyval) : string :=
  match v with
  | PNone => "NoneType"
  | PBool _ => "bool"
  | PInt _ => "int"
  | PStr _ => "str"
  | PList _ => "list"
  | PDict _ => "dict"
  end.

(** Lookup in a dictionary held as an association list. *)
Fixpoint dict_get {V : Type} (k : string) (d : list (string * V)) : option V :=
  match d with
  | [] => None
  | (k', v) :: d' => if String.eqb k k' then Some v else dict_get k d'
  end.

Definition dict_keys {V : Type} (d : list (string * V)) : list string :=
  map fst d.

(** [k in d] *)
Definition dict_contains {V : Type} (k : string) (d : list (string * V)) : bool :=
  match dict_get k d with Some _ => true | None => false end.

(** [d[k] = v]: an existing key keeps its position. *)
Fixpoint dict_set {V : Type} (k : string) (v : V) (d : list (string * V))
  : list (string * V) :=
  match d with
  | [] => [(k, v)]
  | (k', v') :: d' =>
      if String.eqb k k' then (k, v) :: d' else (k', v') :: dict_set k v d'
  end.

(** [x in l] for a list of strings *)
Definition list_contains (x : string) (l : list string) : bool :=
  existsb (String.eqb x) l.

(** [v.get(k, default)] *)
Definition get (v : pyval) (k : string) (default : pyval) : result pyval :=
  match v with
  | PDict d => Ok (match dict_get k d with Some x => x | None => default end)
  | _ => Raise (AttributeError
                  ("'" +:+ type_name v +:+ "' object has no attribute 'get'"))
  end.

(** Truth value, as tested by [if v:]. *)
Definition truthy (v : pyval) : bool :=
  match v with
  | PNone => false
  | PBool b => b
  | PInt z => negb (Z.eqb z 0)
  | PStr s => negb (String.eqb s "")
  | PList l => match l with [] => false | _ => true end
  | PDict d => match d with [] => false | _ => true end
  end.

(** [for x in v]: the items the loop sees. *)
Definition iter (v : pyval) : result (list pyval) :=
  match v with
  | PList l => Ok l
  | PStr s => Ok (map PStr (PyStr.chars_of s))
  | PDict d => Ok (map PStr (dict_keys d))
  | _ => Raise (TypeError ("'" +:+ type_name v +:+ "' object is not iterable"))
  end.

(** [k in v] for a string [k], as in [if "personalInfo" not in self.data]. *)
Definition contains_key (k : string) (v : pyval) : result bool :=
  match v with
  | PDict d => Ok (dict_contains k d)
  | PStr s => Ok (PyStr.str_contains k s)
  | PList l =>
      Ok (existsb (fun x => match x with PStr s => String.eqb s k | _ => false end) l)
  | _ => Raise (TypeError
                  ("argument of type '" +:+ type_name v +:+ "' is not iterable"))
  end.

(** [repr(v)] and [str(v)] (also what an f-string field produces). *)
Fixpoint repr (v : pyval) : string :=
  match v with
  | PNone => "None"
  | PBool true => "True"
  | PBool false => "False"
  | PInt z => pretty z
  | PStr s => PyStr.repr s
  | PList l => "[" +:+ PyStr.join ", " (map repr l) +:+ "]"
  | PDict d =>
      "{" +:+ PyStr.join ", "
                (map (fun kv => PyStr.repr (fst kv) +:+ ": " +:+ repr (snd kv)) d)
          +:+ "}"
  end.

Definition str (v : pyval) : string :=
  match v with
  | PStr s => s
  | _ => repr v
  end.

(** [sep.join(v)]: every item must be a string. *)
Fixpoint join_items (i : nat) (l : list pyval) : result (list string) :=
  match l with
  | [] => Ok []
  | PStr s :: l' => ss ← join_items (S i) l'; Ok (s :: ss)
  | x :: _ =>
      Raise (TypeError ("sequence item " +:+ pretty i +:+
                        ": expected str instance, " +:+ type_name x +:+ " found"))
  end.

Definition join (sep : string) (v : pyval) : result string :=
  match v with
  | PNone | PBool _ | PInt _ => Raise (TypeError "can only join an iterable")
  | _ => items ← iter v; ss ← join_items 0 items; Ok (PyStr.join sep ss)
  end.

End Py.

(** ** Escaper

    [_escape_latex_special_chars] and
    [_escape_latex_special_chars_recursive] are the same in
    [MinimalistResumeHelper] and [TwocolumnResumeHelper]. *)

Module Escaper.

(** The dictionary [chars], in its insertion order, which is the order
    the loop visits it. *)
Definition chars : list (string * string) :=
  [ ("&", "\&"); ("%", "\%"); ("$", "\$"); ("#", "\#"); ("_", "\_");
    ("{", "\{"); ("}", "\}"); ("~", "\textasciitilde{}");
    ("^", "\textasciicircum{}"); ("\", "\textbackslash{}");
    ("<", "\textless{}"); (">", "\textgreater{}") ].

(** The loop [for char, escaped_char in chars.items(): text =
    text.replace(char, escaped_char)] on a string. *)
Definition escape_loop (table : list (string * string)) (text : string) : string :=
  fold_left (fun t ce => PyStr.replace t (fst ce) (snd ce)) table text.

Definition escape_str (text : string) : string := escape_loop chars text.

Definition _escape_latex_special_chars (text : pyval) : pyval :=
  match text with
  | PStr s => PStr (escape_str s)
  | _ => text
  end.

Fixpoint _escape_latex_special_chars_recursive (data : pyval) : pyval :=
  match data with
  | PStr s => _escape_latex_special_chars (PStr s)
  | PDict d =>
      PDict (map (fun kv => (fst kv, _escape_latex_special_chars_recursive (snd kv))) d)
  | PList l => PList (map _escape_latex_special_chars_recursive l)
  | _ => data
  end.

(** *** Reading the output back

    The characters the escaper is about, and the markup each one is
    meant to become. A position of the output holds a raw special
    character when, reading left to right and taking each escape
    sequence as one unit, a special character is met outside every
    escape sequence. *)
Definition special_chars : list ascii :=
  [ "&"; "%"; "$"; "#"; "_"; "{"; "}"; "~"; "^"; "\"; "<"; ">" ]%char.

Definition is_special (c : ascii) : bool :=
  existsb (Ascii.eqb c) special_chars.

Definition escape_sequences : list string := map snd chars.

Fixpoint raw_scan (skip : nat) (s : string) : bool :=
  match s with
  | EmptyString => false
  | String c rest =>
      match skip with
      | S k => raw_scan k rest
      | O =>
          match find (PyStr.startswith s) escape_sequences with
          | Some tok => raw_scan (String.length tok - 1) rest
          | None => if is_special c then true else raw_scan 0 rest
          end
      end
  end.

Definition has_raw_special (s : string) : bool := raw_scan 0 s.

(** [s] contains one of the special characters. *)
Fixpoint contains_special (s : string) : bool :=
  match s with
  | EmptyString => false
  | String c rest => is_special c || contains_special rest
  end.

(** The escaping the specification describes: every character of the
    text is replaced, once, by its own escape sequence. Used only to
    compare with [escape_str]. *)
Definition escape_one (c : ascii) : string :=
  match Py.dict_get (String c EmptyString) chars with
  | Some e => e
  | None => String c EmptyString
  end.

Fixpoint escape_single_pass (s : string) : string :=
  match s with
  | EmptyString => EmptyString
  | String c rest => escape_one c +:+ escape_single_pass rest
  end.

(** Every key of the table is one character long. *)
Definition one_char_keys (table : list (string * string)) : Prop :=
  Forall (fun ce => exists c, fst ce = String c "") table.

(** The nine characters whose turn comes before the backslash's. *)
Definition before_backslash (c : ascii) : bool :=
  existsb (Ascii.eqb c) ["&"; "%"; "$"; "#"; "_"; "{"; "}"; "~"; "^"]%char.

Fixpoint contains_before_backslash (s : string) : bool :=
  match s with
  | EmptyString => false
  | String c rest => before_backslash c || contains_before_backslash rest
  end.

End Escaper.

(** ** The LaTeX renderers: body generation *)

(** The state a helper object keeps after [__init__]. *)
Record helper : Type := mk_helper {
  data : pyval;
  template_path : string;
  latex_template_string : string
}.

(** [f"{a} -- {b}"] and the other pieces the f-strings are made of. *)
Definition braces (v : pyval) : string := "{" +:+ Py.str v +:+ "}".

(** What [__init__] does, shared by the two helper classes: escape the
    tree, read the skeleton ([template_file] is the outcome of opening
    and reading it), then validate. *)
Definition helper_init (tpath : string) (template_file : result string)
    (raw : pyval) : result helper :=
  let d := Escaper._escape_latex_special_chars_recursive raw in
  match template_file with
  | Raise e =>
      Raise (OSError ("Error reading template file " +:+ tpath +:+ ": "
                      +:+ exn_str e))
  | Ok tpl =>
      present ← Py.contains_key "personalInfo" d;
      if negb present
      then Raise (ValueError "Missing required section: personalInfo")
      else Ok (mk_helper d tpath tpl)
  end.

(** The last loop of [generate_latex_content]. *)
Definition populate (template : string) (replacements : list (string * string))
  : string :=
  fold_left
    (fun populated pc =>
       PyStr.replace populated (fst pc)
         (if negb (String.eqb (snd pc) "") then snd pc else ""))
    replacements template.

Module Minimalist.

(** [shutil] is imported only under [if __name__ == '__main__']. *)
Definition shutil_bound (run_as_main : bool) : bool := run_as_main.

Definition _generate_personal_info (self : helper) : result string :=
  pi ← Py.get (data self) "personalInfo" (PDict []);
  name ← Py.get pi "name" (PStr "Your Name");
  location ← Py.get pi "location" (PStr "");
  phone ← Py.get pi "phone" (PStr "");
  email ← Py.get pi "email" (PStr "");
  website ← Py.get pi "website" (PStr "");
  website_display ← Py.get pi "website_display" website;
  website_url ← Py.get pi "website" (PStr "");
  Ok ("\personalinfo" +:+ braces name +:+ braces location +:+ braces phone
      +:+ braces email +:+ braces website_url).

Definition _generate_summary (self : helper) : result string :=
  summary_text ← Py.get (data self) "professional_summary" (PStr "");
  if negb (Py.truthy summary_text) then Ok ""
  else Ok ("\summary" +:+ braces summary_text).

(** One [\item] line of the experience entry: the detail goes through
    [_escape_latex_special_chars] once more. *)
Definition item_line (detail : pyval) : string :=
  "            \item " +:+ Py.str (Escaper._escape_latex_special_chars detail).

Definition details_latex_of (details_list : pyval) : result string :=
  if Py.truthy details_list
  then items ← Py.iter details_list;
       Ok (PyStr.join PyStr.nl (map item_line items))
  else Ok "".

(** The body of the loop over [experiences]. *)
Definition experience_entry (exp : pyval) : result string :=
  company ← Py.get exp "company" (PStr "");
  title ← Py.get exp "title" (PStr "");
  startDate ← Py.get exp "startDate" (PStr "");
  endDate ← Py.get exp "endDate" (PStr "Present");
  let dates := Py.str startDate +:+ " -- " +:+ Py.str endDate in
  location ← Py.get exp "location" (PStr "");
  details_list ← Py.get exp "details" (PList []);
  details_latex ← details_latex_of details_list;
  Ok ("\experienceentry" +:+ braces company +:+ braces title
      +:+ "{" +:+ dates +:+ "}" +:+ braces location
      +:+ "{" +:+ PyStr.nl +:+ details_latex +:+ PyStr.nl +:+ "        }").

Definition _generate_experience_section (self : helper) : result string :=
  experiences ← Py.get (data self) "experience" (PList []);
  if negb (Py.truthy experiences) then Ok ""
  else
    exps ← Py.iter experiences;
    entries ← mapM experience_entry exps;
    Ok (PyStr.join PyStr.nl ("\section*{Experience}" :: entries)).

Definition education_entry (edu : pyval) : result string :=
  degree ← Py.get edu "degree" (PStr "");
  institution ← Py.get edu "institution" (PStr "");
  graduationYear ← Py.get edu "graduationYear" (PStr "");
  dates ← Py.get edu "date" graduationYear;
  details ← Py.get edu "details" (PList []);
  details_latex ←
    match details with
    | PList (_ :: _) => Py.join " " details
    | PStr s => Ok s
    | _ => Ok ""
    end;
  Ok ("\educationentry" +:+ braces degree +:+ braces institution
      +:+ braces dates +:+ "{" +:+ details_latex +:+ "}").

Definition _generate_education_section (self : helper) : result string :=
  educations ← Py.get (data self) "education" (PList []);
  if negb (Py.truthy educations) then Ok ""
  else
    edus ← Py.iter educations;
    entries ← mapM education_entry edus;
    Ok (PyStr.join PyStr.nl ("\section*{Education}" :: entries)).

Definition skills_category (kv : string * pyval) : result string :=
  joined ← Py.join ", " (snd kv);
  Ok ("\textbf{" +:+ fst kv +:+ ":} " +:+ joined).

Definition _generate_skills_section (self : helper) : result string :=
  skills_data ← Py.get (data self) "technologies_and_skills" PNone;
  if negb (Py.truthy skills_data) then Ok ""
  else
    match skills_data with
    | PList _ =>
        joined ← Py.join ", " skills_data;
        Ok ("\skills{" +:+ joined +:+ "}")
    | PDict d =>
        skills_list ← mapM skills_category d;
        Ok ("\skills{" +:+ PyStr.join "; " skills_list +:+ "}")
    | _ => Ok ("\skills{" +:+ PyStr.join ", " [] +:+ "}")
    end.

Definition project_entry (proj : pyval) : result string :=
  name ← Py.get proj "name" (PStr "");
  techs ← Py.get proj "technologies" (PList []);
  technologies ← Py.join ", " techs;
  description ← Py.get proj "description" (PStr "");
  Ok ("\projectentry" +:+ braces name +:+ "{" +:+ technologies +:+ "}"
      +:+ braces description).

Definition _generate_projects_section (self : helper) : result string :=
  projects ← Py.get (data self) "projects" (PList []);
  if negb (Py.truthy projects) then Ok ""
  else
    projs ← Py.iter projects;
    entries ← mapM project_entry projs;
    Ok (PyStr.join PyStr.nl ("\section*{Projects}" :: entries)).

Definition _generate_publications_section (self : helper) : result string := Ok "".
Definition _generate_certifications_section (self : helper) : result string := Ok "".

Definition generate_latex_content (self : helper) : result string :=
  personal ← _generate_personal_info self;
  summary ← _generate_summary self;
  experience ← _generate_experience_section self;
  education ← _generate_education_section self;
  skills ← _generate_skills_section self;
  projects ← _generate_projects_section self;
  publications ← _generate_publications_section self;
  certifications ← _generate_certifications_section self;
  Ok (populate (latex_template_string self)
        [ ("\newcommand{\personalinfosection}{}", personal);
          ("\newcommand{\summarysection}{}", summary);
          ("\newcommand{\experiencesection}{}", experience);
          ("\newcommand{\educationsection}{}", education);
          ("\newcommand{\skillssection}{}", skills);
          ("\newcommand{\projectssection}{}", projects);
          ("\newcommand{\publicationssection}{}", publications);
          ("\newcommand{\certificationssection}{}", certifications) ]).

End Minimalist.

Module Twocolumn.

(** [import shutil] is at the top of the module. *)
Definition shutil_bound (run_as_main : bool) : bool := true.

Definition _generate_name_header (self : helper) : result string :=
  pi ← Py.get (data self) "personalInfo" (PDict []);
  name ← Py.get pi "name" (PStr "Your Name");
  Ok ("\nameheader" +:+ braces name).

(** [', '.join(map(self._escape_latex_special_chars, skill_items))] *)
Definition skills_category (kv : string * pyval) : result string :=
  items ← Py.iter (snd kv);
  joined ← Py.join ", " (PList (map Escaper._escape_latex_special_chars items));
  Ok ("\textbf{" +:+ Escaper.escape_str (fst kv) +:+ "}: " +:+ joined).

Definition education_entry_left (edu : pyval) : result string :=
  degree ← Py.get edu "degree" (PStr "");
  institution ← Py.get edu "institution" (PStr "");
  graduationYear ← Py.get edu "graduationYear" (PStr "");
  dates ← Py.get edu "date" graduationYear;
  Ok ("\educationentryleft" +:+ braces degree +:+ braces institution
      +:+ braces dates).

Definition _generate_left_column_content (self : helper) : result string :=
  pi ← Py.get (data self) "personalInfo" (PDict []);
  email ← Py.get pi "email" (PStr "");
  phone ← Py.get pi "phone" (PStr "");
  linkedin_url ← Py.get pi "linkedin" (PStr "");
  website_url ← Py.get pi "website" (PStr "");
  let contact := "\contactinfo" +:+ braces email +:+ braces phone
                 +:+ braces linkedin_url +:+ braces website_url in
  skills_data ← Py.get (data self) "technologies_and_skills" PNone;
  skills ←
    (if Py.truthy skills_data then
       skills_latex ←
         match skills_data with
         | PList _ => Py.join ", " skills_data
         | PDict d =>
             temp_skills_list ← mapM skills_category d;
             Ok (PyStr.join "\newline " temp_skills_list)
         | _ => Ok ""
         end;
       if negb (String.eqb skills_latex "")
       then Ok ["\skillslist{" +:+ skills_latex +:+ "}"]
       else Ok []
     else Ok []);
  educations ← Py.get (data self) "education" (PList []);
  education ←
    (if Py.truthy educations then
       edus ← Py.iter educations;
       edu_items_latex ← mapM education_entry_left edus;
       Ok ["\educationlistleft{" +:+ PyStr.nl
           +:+ PyStr.join PyStr.nl edu_items_latex +:+ PyStr.nl +:+ "}"]
     else Ok []);
  Ok (PyStr.join PyStr.nl (contact :: skills ++ education)).

(** One [\item] line of the experience entry: the detail is inserted as
    it is (the source notes it as already escaped). *)
Definition item_line (detail : pyval) : string :=
  "            \item " +:+ Py.str detail.

Definition details_latex_of (details_list : pyval) : result string :=
  items ← Py.iter details_list;
  Ok (PyStr.join PyStr.nl (map item_line items)).

Definition experience_entry (exp : pyval) : result string :=
  title ← Py.get exp "title" (PStr "");
  company ← Py.get exp "company" (PStr "");
  startDate ← Py.get exp "startDate" (PStr "");
  endDate ← Py.get exp "endDate" (PStr "Present");
  let dates := Py.str startDate +:+ " -- " +:+ Py.str endDate in
  location ← Py.get exp "location" (PStr "");
  details_list ← Py.get exp "details" (PList []);
  details_latex ← details_latex_of details_list;
  Ok ("\experienceentryright" +:+ braces title +:+ braces company
      +:+ "{" +:+ dates +:+ "}" +:+ braces location
      +:+ "{" +:+ PyStr.nl +:+ details_latex +:+ PyStr.nl +:+ "        }").

Definition project_entry (proj : pyval) : result string :=
  name ← Py.get proj "name" (PStr "");
  techs ← Py.get proj "technologies" (PList []);
  technologies ← Py.join ", " techs;
  description ← Py.get proj "description" (PStr "");
  Ok ("\projectsentryright" +:+ braces name +:+ "{" +:+ technologies +:+ "}"
      +:+ braces description).

Definition _generate_right_column_content (self : helper) : result string :=
  summary_text ← Py.get (data self) "professional_summary" (PStr "");
  let summary :=
    if Py.truthy summary_text
    then ["\summarysectioncontent" +:+ braces summary_text] else [] in
  experiences ← Py.get (data self) "experience" (PList []);
  experience ←
    (if Py.truthy experiences then
       exps ← Py.iter experiences;
       entries ← mapM experience_entry exps;
       Ok ("\section*{Experience}" :: entries)
     else Ok []);
  projects ← Py.get (data self) "projects" (PList []);
  project ←
    (if Py.truthy projects then
       projs ← Py.iter projects;
       entries ← mapM project_entry projs;
       Ok ("\section*{Projects}" :: entries)
     else Ok []);
  Ok (PyStr.join (PyStr.nl +:+ PyStr.nl) (summary ++ experience ++ project)).

Definition generate_latex_content (self : helper) : result string :=
  name ← _generate_name_header self;
  left ← _generate_left_column_content self;
  right ← _generate_right_column_content self;
  Ok (populate (latex_template_string self)
        [ ("\newcommand{\nameplaceholder}{}", name);
          ("\newcommand{\leftcolumncontent}{}", left);
          ("\newcommand{\rightcolumncontent}{}", right) ]).

End Twocolumn.


(** ** Process state and the operating system

    The world holds the one piece of shared interpreter state (the class
    attribute [TemplateManager._cached_templates]) and the part of the
    file system the code writes to. Scratch files are a flat map from
    path to content; directories are tracked for [os.makedirs] and
    [tempfile.TemporaryDirectory]. The template tree, which the code
    only reads, is a separate [Store] below; every read of it is
    appended to [fs_log]. [tempfile] hands out names from a counter. *)

Definition catalog : Type := list (string * list string).

Inductive fs_event : Type :=
  | EvExists (path : string)
  | EvIsdir (path : string)
  | EvListdir (path : string).

Record World : Type := mk_world {
  cached_templates : option catalog;
  fs_log : list fs_event;
  files : gmap string string;
  dirs : gset string;
  next_tmp : nat
}.

Definition set_cache (c : option catalog) (w : World) : World :=
  mk_world c (fs_log w) (files w) (dirs w) (next_tmp w).
Definition log_event (e : fs_event) (w : World) : World :=
  mk_world (cached_templates w) (fs_log w ++ [e]) (files w) (dirs w) (next_tmp w).
Definition set_files (f : gmap string string) (w : World) : World :=
  mk_world (cached_templates w) (fs_log w) f (dirs w) (next_tmp w).
Definition set_dirs (d : gset string) (w : World) : World :=
  mk_world (cached_templates w) (fs_log w) (files w) d (next_tmp w).
Definition bump_tmp (w : World) : World :=
  mk_world (cached_templates w) (fs_log w) (files w) (dirs w) (S (next_tmp w)).

(** The events a computation adds to the log come after those that
    were there. *)
Definition extends_log (w w' : World) : Prop :=
  exists l, fs_log w' = fs_log w ++ l.

(** [w'] differs from [w] by more log entries at most. *)
Definition same_state (w w' : World) : Prop :=
  cached_templates w' = cached_templates w
  /\ files w' = files w /\ dirs w' = dirs w /\ next_tmp w' = next_tmp w
  /\ extends_log w w'.

(** [w'] has the scratch area of [w]: same files, same directories,
    same name supply. *)
Definition same_scratch (w w' : World) : Prop :=
  files w' = files w /\ dirs w' = dirs w /\ next_tmp w' = next_tmp w.

(** Computations that may raise and that change the world. The world is
    returned in both cases: what was done before a raise stays done. *)
Definition M (A : Type) : Type := World -> result A * World.

Definition retM {A : Type} (a : A) : M A := fun w => (Ok a, w).
Definition raiseM {A : Type} (e : exn) : M A := fun w => (Raise e, w).
Definition bindM {A B : Type} (m : M A) (k : A -> M B) : M B :=
  fun w => match m w with
           | (Ok a, w') => k a w'
           | (Raise e, w') => (Raise e, w')
           end.
Definition liftM {A : Type} (r : result A) : M A := fun w => (r, w).
Definition modifyM (f : World -> World) : M unit := fun w => (Ok tt, f w).
Definition readM {A : Type} (f : World -> A) : M A := fun w => (Ok (f w), w).

Notation "x <- m ;; k" := (bindM m (fun x => k))
  (at level 200, m at level 99, k at level 200, right associativity,
   format "'[v' x  <-  m  ;; '/' k ']'").
Notation "m ;;; k" := (bindM m (fun _ => k))
  (at level 200, k at level 200, right associativity,
   format "'[v' m  ;;; '/' k ']'").

(** [try: m  except Exception as e: h e] *)
Definition try_except {A : Type} (m : M A) (h : exn -> M A) : M A :=
  fun w => match m w with
           | (Ok a, w') => (Ok a, w')
           | (Raise e, w') => h e w'
           end.

(** [try: m  finally: f], as a [with] block leaves it. *)
Definition finallyM {A : Type} (m : M A) (f : World -> World) : M A :=
  fun w => let '(r, w') := m w in (r, f w').

Module OS.

(** [os.path.join(a, b)] on POSIX paths. *)
Definition path_join (a b : string) : string :=
  if PyStr.startswith b "/" then b
  else if String.eqb a "" || PyStr.endswith a "/" then a +:+ b
  else a +:+ "/" +:+ b.

Definition path_join_all (a : string) (bs : list string) : string :=
  fold_left path_join bs a.

(** [os.path.dirname(p)]: the part before the last slash, without its
    trailing slashes unless it is made of slashes only. *)
Fixpoint strip_trailing_rev (r : string) : string :=
  match r with
  | String "/" r' => strip_trailing_rev r'
  | _ => r
  end.

Fixpoint drop_to_slash_rev (r : string) : string :=
  match r with
  | EmptyString => EmptyString
  | String "/" _ => r
  | String _ r' => drop_to_slash_rev r'
  end.

Definition dirname (p : string) : string :=
  let head_rev := drop_to_slash_rev (PyStr.rev_str "" p) in
  match strip_trailing_rev head_rev with
  | EmptyString => PyStr.rev_str "" head_rev
  | stripped => PyStr.rev_str "" stripped
  end.

(** [os.path.exists] on the scratch area. *)
Definition exists_ (p : string) (w : World) : bool :=
  bool_decide (is_Some (files w !! p)) || bool_decide (p ∈ dirs w).

Definition makedirs (p : string) : M unit :=
  modifyM (fun w => set_dirs ({[p]} ∪ dirs w) w).

(** [open(p, 'w').write(content)] *)
Definition write_file (p content : string) : M unit :=
  modifyM (fun w => set_files (<[p := content]> (files w)) w).

(** The content of [p] if it exists, as read by
    [if os.path.exists(p): ... f.read()], else the empty string. *)
Definition read_if_exists (p : string) (w : World) : string :=
  default "" (files w !! p).

(** [os.remove(p)] *)
Definition remove (p : string) : M unit :=
  fun w => match files w !! p with
           | Some _ => (Ok tt, set_files (delete p (files w)) w)
           | None =>
               (Raise (FileNotFoundError
                         ("[Errno 2] No such file or directory: " +:+ PyStr.repr p)), w)
           end.

(** [shutil.move(src, dst)] onto a file path. *)
Definition move (src dst : string) : M unit :=
  fun w => match files w !! src with
           | Some content =>
               (Ok tt, set_files (<[dst := content]> (delete src (files w))) w)
           | None =>
               (Raise (FileNotFoundError
                         ("[Errno 2] No such file or directory: " +:+ PyStr.repr src)), w)
           end.

Definition tmp_name (n : nat) (suffix : string) : string :=
  "/tmp/tmp" +:+ pretty n +:+ suffix.

(** [with tempfile.NamedTemporaryFile(suffix=..., delete=False) as f:
    name = f.name]: the file is created, empty, and stays. *)
Definition NamedTemporaryFile (suffix : string) : M string :=
  fun w =>
    let name := tmp_name (next_tmp w) suffix in
    (Ok name, bump_tmp (set_files (<[name := ""]> (files w)) w)).

Definition mkdtemp : M string :=
  fun w =>
    let name := tmp_name (next_tmp w) "" in
    (Ok name, bump_tmp (set_dirs ({[name]} ∪ dirs w) w)).

(** Leaving [with tempfile.TemporaryDirectory()]: the directory and all
    that is under it are removed. *)
Definition under (d p : string) : bool := PyStr.startswith p (d +:+ "/").

Definition rmtree (d : string) (w : World) : World :=
  set_dirs (filter (fun p => p ≠ d ∧ under d p = false) (dirs w))
    (set_files (filter (fun kv => under d (fst kv) = false) (files w)) w).

(** [with tempfile.TemporaryDirectory() as tmpdir: body tmpdir] *)
Definition TemporaryDirectory {A : Type} (body : string -> M A) : M A :=
  tmpdir <- mkdtemp ;; finallyM (body tmpdir) (rmtree tmpdir).

End OS.

(** ** PDF export

    The typesetting compiler is an external process: given the command
    line and the scratch files, it ends in some way and leaves the files
    in some state. *)

Inductive run_status : Type :=
  | Exited (returncode : Z) (stdout stderr : string)
  | TimedOut
  | SpawnFailed (e : exn).

Definition Compiler : Type :=
  list string -> gmap string string -> run_status * gmap string string.

(** What [subprocess.run(cmd, check=True, capture_output=True, text=True,
    timeout=30)] raises. *)
Inductive proc_exn : Type :=
  | CalledProcessError (cmd : list string) (returncode : Z) (stdout stderr : string)
  | TimeoutExpired (cmd : list string) (timeout : Z)
  | OtherError (e : exn).

Definition subprocess_run (cc : Compiler) (cmd : list string) (timeout : Z)
  : World -> option proc_exn * World :=
  fun w =>
    let '(st, fs') := cc cmd (files w) in
    let w' := set_files fs' w in
    match st with
    | Exited rc out err =>
        if Z.eqb rc 0 then (None, w')
        else (Some (CalledProcessError cmd rc out err), w')
    | TimedOut => (Some (TimeoutExpired cmd timeout), w')
    | SpawnFailed e => (Some (OtherError e), w')
    end.

(** The [try] block with the two passes: the second pass runs only if
    the first one raised nothing. *)
Definition two_passes (cc : Compiler) (cmd : list string)
  : World -> option proc_exn * World :=
  fun w =>
    match subprocess_run cc cmd 30 w with
    | (Some e, w1) => (Some e, w1)
    | (None, w1) => subprocess_run cc cmd 30 w1
    end.

Definition compilation_failed_message (cmd : list string) (returncode : Z)
    (stdout stderr log_path error_log : string) : string :=
  "PDF compilation failed with pdflatex." +:+ PyStr.nl
  +:+ "Command: " +:+ PyStr.join " " cmd +:+ PyStr.nl
  +:+ "Return Code: " +:+ pretty returncode +:+ PyStr.nl
  +:+ "Stdout: " +:+ stdout +:+ PyStr.nl
  +:+ "Stderr: " +:+ stderr +:+ PyStr.nl
  +:+ "LaTeX Log (if available from " +:+ log_path +:+ "):" +:+ PyStr.nl
  +:+ error_log.

Definition timed_out_message (timeout : Z) : string :=
  "PDF compilation timed out after " +:+ pretty timeout +:+ " seconds.".

Definition pdf_not_found_message (generated_pdf_path error_log : string) : string :=
  "PDF output file not found at " +:+ generated_pdf_path
  +:+ " after compilation. "
  +:+ "Check LaTeX logs for errors. Log content (if available):" +:+ PyStr.nl
  +:+ error_log.

(** The command line of both passes. *)
Definition compile_cmd (tmpdir : string) : list string :=
  [ "pdflatex"; "-interaction=nonstopmode";
    "-output-directory=" +:+ tmpdir; OS.path_join tmpdir "resume.tex" ].

(** What follows the two passes: the two [except] clauses, then the
    check for the PDF and the move. [raised] is what the [try] block
    raised, if anything. *)
Definition after_passes (shutil_bound : bool) (output_path tmpdir : string)
    (raised : option proc_exn) : M unit :=
  fun w1 =>
    match raised with
    | Some (CalledProcessError cmd rc out err) =>
        let log_path := OS.path_join tmpdir "resume.log" in
        let error_log := OS.read_if_exists log_path w1 in
        (Raise (RuntimeError
                  (compilation_failed_message cmd rc out err log_path error_log)),
         w1)
    | Some (TimeoutExpired _ timeout) =>
        (Raise (RuntimeError (timed_out_message timeout)), w1)
    | Some (OtherError e) => (Raise e, w1)
    | None =>
        let generated_pdf_path := OS.path_join tmpdir "resume.pdf" in
        if OS.exists_ generated_pdf_path w1 then
          if shutil_bound
          then OS.move generated_pdf_path output_path w1
          else (Raise (NameError "name 'shutil' is not defined"), w1)
        else
          let log_path := OS.path_join tmpdir "resume.log" in
          let error_log := OS.read_if_exists log_path w1 in
          (Raise (FileNotFoundError
                    (pdf_not_found_message generated_pdf_path error_log)),
           w1)
    end.

(** The body of the [with tempfile.TemporaryDirectory() as tmpdir] block. *)
Definition compile_in (shutil_bound : bool) (cc : Compiler)
    (latex_content output_path tmpdir : string) : M unit :=
  OS.write_file (OS.path_join tmpdir "resume.tex") latex_content ;;;
  fun w =>
    let '(raised, w1) := two_passes cc (compile_cmd tmpdir) w in
    after_passes shutil_bound output_path tmpdir raised w1.

(** The output directory is made if it is named and missing. *)
Definition ensure_output_dir (output_path : string) : M unit :=
  fun w =>
    let output_dir := OS.dirname output_path in
    if negb (String.eqb output_dir "") && negb (OS.exists_ output_dir w)
    then OS.makedirs output_dir w else (Ok tt, w).

(** [export_to_pdf(self, output_path)], the same text in both helper
    classes; [latex_content] is what [self.generate_latex_content()]
    gave. *)
Definition export_to_pdf_body (shutil_bound : bool) (cc : Compiler)
    (latex_content : result string) (output_path : string) : M string :=
  latex <- liftM latex_content ;;
  ensure_output_dir output_path ;;;
  OS.TemporaryDirectory (compile_in shutil_bound cc latex output_path) ;;;
  retM output_path.

(** The scratch directory an export started in [w] gets, and the world
    in which its first compiler pass starts. *)
Definition export_tmpdir (w : World) : string := OS.tmp_name (next_tmp w) "".

Definition export_start (latex output_path : string) (w : World) : World :=
  let w0 := snd (ensure_output_dir output_path w) in
  let w1 := snd (OS.mkdtemp w0) in
  snd (OS.write_file (OS.path_join (export_tmpdir w) "resume.tex") latex w1).

Definition Minimalist_export_to_pdf (run_as_main : bool) (cc : Compiler)
    (self : helper) (output_path : string) : M string :=
  export_to_pdf_body (Minimalist.shutil_bound run_as_main) cc
    (Minimalist.generate_latex_content self) output_path.

Definition Twocolumn_export_to_pdf (run_as_main : bool) (cc : Compiler)
    (self : helper) (output_path : string) : M string :=
  export_to_pdf_body (Twocolumn.shutil_bound run_as_main) cc
    (Twocolumn.generate_latex_content self) output_path.

(** ** DOCX generator

    The document-building library is opaque: a document is the sequence
    of calls made on it. A call that sets a property applies to the
    paragraph or run created last. *)

Inductive docx_call : Type :=
  | set_normal_font (name : string) (pt : nat)
  | add_heading (text : pyval) (level : nat)
  | add_paragraph (text : pyval) (style : option string)
  | add_run (text : pyval)
  | set_bold
  | set_italic
  | set_font_size (pt : nat)
  | set_alignment_center
  | set_space_after (pt : nat).

Module Docx.

Definition ListBullet : option string := Some "ListBullet".

(** [document.add_paragraph()] *)
Definition blank : docx_call := add_paragraph (PStr "") None.

(** The items of [if v.get(k): l.append(v.get(k))] over a list of keys. *)
Fixpoint truthy_fields (v : pyval) (keys : list string) : result (list pyval) :=
  match keys with
  | [] => Ok []
  | k :: ks =>
      x ← Py.get v k PNone;
      rest ← truthy_fields v ks;
      Ok (if Py.truthy x then x :: rest else rest)
  end.

(** The bullet paragraphs of a [details] value: one per item of a list,
    one for a single string, none otherwise. *)
Definition detail_bullets (details : pyval) : list docx_call :=
  match details with
  | PList l => map (fun detail => add_paragraph (PStr (Py.str detail)) ListBullet) l
  | PStr s => [add_paragraph (PStr s) ListBullet]
  | _ => []
  end.

Definition _format_experience_item (exp : pyval) : result (list docx_call) :=
  company ← Py.get exp "company" (PStr "N/A Company");
  title ← Py.get exp "title" (PStr "N/A Title");
  dates ← truthy_fields exp ["startDate"; "endDate"];
  dates_text ←
    (if Py.truthy (PList dates)
     then joined ← Py.join " – " (PList dates); Ok (" (" +:+ joined +:+ ")")
     else Ok "");
  let title_dates := Py.str title +:+ dates_text in
  location ← Py.get exp "location" PNone;
  details ← Py.get exp "details" (PList []);
  Ok ([add_heading company 2; add_paragraph (PStr title_dates) None]
      ++ (if Py.truthy location
          then [add_run (PStr (" | " +:+ Py.str location)); set_italic] else [])
      ++ detail_bullets details
      ++ [blank]).

Definition _format_education_item (edu : pyval) : result (list docx_call) :=
  institution ← Py.get edu "institution" (PStr "N/A Institution");
  degree ← Py.get edu "degree" (PStr "N/A Degree");
  field ← Py.get edu "field" PNone;
  degree_field ←
    (if Py.truthy field then
       match degree with
       | PStr d => Ok (PStr (d +:+ " in " +:+ Py.str field))
       | PList l =>
           Ok (PList (l ++ map PStr (PyStr.chars_of (" in " +:+ Py.str field))))
       | _ => Raise (TypeError ("unsupported operand type(s) for +=: '"
                                +:+ Py.type_name degree +:+ "' and 'str'"))
       end
     else Ok degree);
  date ← Py.get edu "date" PNone;
  graduationYear ← Py.get edu "graduationYear" PNone;
  graduationYear_or_empty ← Py.get edu "graduationYear" (PStr "");
  date_str ← Py.get edu "date" graduationYear_or_empty;
  details ← Py.get edu "details" (PList []);
  Ok ([add_heading institution 2; blank; add_run degree_field; set_bold]
      ++ (if Py.truthy date || Py.truthy graduationYear
          then [add_run (PStr (" (" +:+ Py.str date_str +:+ ")"))] else [])
      ++ detail_bullets details
      ++ [blank]).

Definition _format_project_item (proj : pyval) : result (list docx_call) :=
  name ← Py.get proj "name" (PStr "N/A Project Name");
  technologies ← Py.get proj "technologies" PNone;
  tech ←
    match technologies with
    | PList (_ :: _) =>
        joined ← Py.join ", " technologies;
        Ok [blank; add_run (PStr "Technologies: "); set_italic;
            add_run (PStr joined)]
    | _ => Ok []
    end;
  description ← Py.get proj "description" PNone;
  achievements ← Py.get proj "achievements" (PList []);
  details ← Py.get proj "details" achievements;
  Ok ([add_heading name 2] ++ tech
      ++ (if Py.truthy description
          then [add_paragraph (PStr (Py.str description)) None] else [])
      ++ detail_bullets details
      ++ [blank]).

Definition _add_optional_section (title : string) (content_list : pyval)
    (item_formatter_func : pyval -> result (list docx_call))
  : result (list docx_call) :=
  if Py.truthy content_list then
    items ← Py.iter content_list;
    formatted ← mapM item_formatter_func items;
    Ok ([add_heading (PStr title) 1] ++ concat formatted ++ [blank])
  else Ok [].

Definition skills_category (kv : string * pyval) : docx_call :=
  match snd kv with
  | PList l =>
      add_paragraph
        (PStr (fst kv +:+ ": " +:+ PyStr.join ", " (map Py.str l))) None
  | other => add_paragraph (PStr (fst kv +:+ ": " +:+ Py.str other)) None
  end.

(** An entry of the publications or certifications section. *)
Definition titled_entry (title_key default_title url_label : string)
    (details_keys : list string) (item : pyval) : result (list docx_call) :=
  title ← Py.get item title_key (PStr default_title);
  details ← truthy_fields item details_keys;
  details_run ←
    (if Py.truthy (PList details)
     then joined ← Py.join ", " (PList details);
          Ok [add_run (PStr (" (" +:+ joined +:+ ")"))]
     else Ok []);
  url ← Py.get item "url" PNone;
  Ok ([blank; add_run title; set_bold] ++ details_run
      ++ (if Py.truthy url
          then [add_run (PStr (url_label +:+ Py.str url)); set_italic] else [])).

Definition titled_section (heading : string) (items : pyval)
    (entry : pyval -> result (list docx_call)) : result (list docx_call) :=
  if Py.truthy items then
    its ← Py.iter items;
    formatted ← mapM entry its;
    Ok ([add_heading (PStr heading) 1] ++ concat formatted ++ [blank])
  else Ok [].

(** The calls [generate_resume_docx] makes before [document.save]. *)
Definition build_document (resume_data_dict : pyval) : result (list docx_call) :=
  pi ← Py.get resume_data_dict "personalInfo" (PDict []);
  name ← Py.get pi "name" PNone;
  contact_lines ←
    truthy_fields pi ["email"; "phone"; "location"; "website"; "linkedin"];
  contact ←
    (if Py.truthy (PList contact_lines)
     then joined ← Py.join " | " (PList contact_lines);
          Ok [add_paragraph (PStr joined) None; set_alignment_center;
              set_space_after 18]
     else Ok []);
  summary ← Py.get resume_data_dict "professional_summary" PNone;
  experience_data ← Py.get resume_data_dict "experience" (PList []);
  experience ← _add_optional_section "Experience" experience_data
                  _format_experience_item;
  education_data ← Py.get resume_data_dict "education" (PList []);
  education ← _add_optional_section "Education" education_data
                 _format_education_item;
  projects_data ← Py.get resume_data_dict "projects" (PList []);
  projects ← _add_optional_section "Projects" projects_data
                _format_project_item;
  skills_data ← Py.get resume_data_dict "technologies_and_skills" PNone;
  let skills :=
    if Py.truthy skills_data then
      [add_heading (PStr "Skills") 1]
      ++ match skills_data with
         | PList l =>
             map (fun skill_item =>
                    add_paragraph (PStr (Py.str skill_item)) ListBullet) l
         | PDict d => map skills_category d
         | _ => []
         end
      ++ [blank]
    else [] in
  pubs ← Py.get resume_data_dict "articles_and_publications" (PList []);
  publications ←
    titled_section "Articles & Publications" pubs
      (titled_entry "title" "N/A Title" " - Available at: " ["publisher"; "date"]);
  certs ← Py.get resume_data_dict "certifications" (PList []);
  certifications ←
    titled_section "Certifications" certs
      (titled_entry "name" "N/A Certification" " - Verify at: " ["issuer"; "date"]);
  Ok ([set_normal_font "Calibri" 11]
      ++ (if Py.truthy name
          then [blank; set_alignment_center; add_run name; set_font_size 24;
                set_bold]
          else [])
      ++ contact
      ++ (if Py.truthy summary
          then [add_heading (PStr "Professional Summary") 1;
                add_paragraph (PStr (Py.str summary)) None; blank]
          else [])
      ++ experience ++ education ++ projects ++ skills
      ++ publications ++ certifications).

(** [document.save(output_path)] is the library's: given the document,
    the path and the files that are there, it ends well or raises, and
    in both cases it may have written files, which it returns with their
    content. It removes none. *)
Definition Saver : Type :=
  list docx_call -> string -> gmap string string
  -> result unit * gmap string string.

Definition save (sv : Saver) (document : list docx_call) (output_path : string)
  : M unit :=
  fun w =>
    let '(r, written) := sv document output_path (files w) in
    (r, set_files (written ∪ files w) w).

Definition generate_resume_docx (sv : Saver) (resume_data_dict : pyval)
    (output_path : string) : M string :=
  document <- liftM (build_document resume_data_dict) ;;
  try_except (save sv document output_path)
    (fun e => raiseM (OSError ("Error saving DOCX document to " +:+ output_path
                               +:+ ": " +:+ exn_str e))) ;;;
  retM output_path.

End Docx.

(** ** Template manager *)

(** What a dynamically loaded helper class does when it is called with
    the data, and what the object it returns does on [export_to_pdf].
    Both may do anything to the world. *)
Record pyinstance : Type := mk_instance {
  inst_export_to_pdf : string -> M string
}.

Record pyclass : Type := mk_class {
  cls_name : string;
  cls_call : pyval -> M pyinstance
}.

(** A loaded module: its public and private attributes by name. *)
Definition pymodule : Type := list (string * pyclass).

(** What the code only reads: the template tree, the module loader and
    the case mapping of the interpreter. [listdir] raises on a path that
    is not a directory; [import_module] stands for
    [spec_from_file_location], [module_from_spec] and [exec_module] on
    the given module name and path; [str_capitalize] is
    [str.capitalize], which follows the Unicode case mappings. *)
Record Store : Type := mk_store {
  path_exists : string -> bool;
  path_isdir : string -> bool;
  listdir : string -> result (list string);
  import_module : string -> string -> result pymodule;
  str_capitalize : string -> string
}.

(** A parameter documented as [str] may be given a member of a string
    enumeration (a class that derives from [str] and [Enum]), as the
    endpoints do with the document type. Such a member is its value as a
    dictionary key, as a path component, in a test and under the [str]
    methods; what an f-string writes for it is another matter and
    depends on the interpreter. A plain string is written as itself. *)
Record pystr : Type := mk_pystr {
  str_value : string;
  str_written : string
}.

Definition plain (s : string) : pystr := mk_pystr s s.
Coercion plain : string >-> pystr.

Module TemplateManager.

Record t : Type := mk {
  templates_dir : string;
  available_templates : catalog
}.

(** [get_available_templates] returns the whole dictionary or the list
    of one category. *)
Inductive templates : Type :=
  | AllTemplates (c : catalog)
  | CategoryTemplates (names : list string).

Definition logged_exists (st : Store) (p : string) : M bool :=
  modifyM (log_event (EvExists p)) ;;; retM (path_exists st p).
Definition logged_isdir (st : Store) (p : string) : M bool :=
  modifyM (log_event (EvIsdir p)) ;;; retM (path_isdir st p).
Definition logged_listdir (st : Store) (p : string) : M (list string) :=
  modifyM (log_event (EvListdir p)) ;;; liftM (listdir st p).

(** [templates[category].append(template_name)] *)
Definition dict_append (category template_name : string) (c : catalog) : catalog :=
  match Py.dict_get category c with
  | Some names => Py.dict_set category (names ++ [template_name]) c
  | None => c
  end.

(** The inner loop of [_discover_templates], over the entries of one
    category directory. *)
Fixpoint scan_templates (st : Store) (category category_path : string)
    (names : list string) (acc : catalog) : M catalog :=
  match names with
  | [] => retM acc
  | template_name :: rest =>
      let template_path := OS.path_join category_path template_name in
      is_dir <- logged_isdir st template_path ;;
      if negb is_dir || PyStr.startswith template_name "__"
      then scan_templates st category category_path rest acc
      else
        let helper_path := OS.path_join template_path "helper.py" in
        entries <- logged_listdir st template_path ;;
        let tex_files := filter (fun f => PyStr.endswith f ".tex" = true) entries in
        has_helper <- logged_exists st helper_path ;;
        if has_helper && match tex_files with [] => false | _ => true end
        then scan_templates st category category_path rest
               (dict_append category template_name acc)
        else scan_templates st category category_path rest acc
  end.

(** The outer loop, over the entries of the templates directory. *)
Fixpoint scan_categories (st : Store) (dir : string) (categories : list string)
    (acc : catalog) : M catalog :=
  match categories with
  | [] => retM acc
  | category :: rest =>
      let category_path := OS.path_join dir category in
      is_dir <- logged_isdir st category_path ;;
      if negb is_dir || PyStr.startswith category "__"
      then scan_categories st dir rest acc
      else
        let acc1 := Py.dict_set category [] acc in
        names <- logged_listdir st category_path ;;
        acc2 <- scan_templates st category category_path names acc1 ;;
        scan_categories st dir rest acc2
  end.

Definition _discover_templates (st : Store) (dir : string) : M catalog :=
  fun w =>
    match cached_templates w with
    | Some c => (Ok c, w)
    | None =>
        (found <- logged_exists st dir ;;
         if negb found
         then raiseM (FileNotFoundError ("Templates directory not found: " +:+ dir))
         else
           categories <- logged_listdir st dir ;;
           discovered <- scan_categories st dir categories [] ;;
           modifyM (set_cache (Some discovered)) ;;;
           retM discovered) w
    end.

(** [get_available_templates(self, category=None)]; [if category:] is
    false for [None] and for the empty string. *)
Definition get_available_templates (st : Store) (dir : string)
    (category : option pystr) : M templates :=
  discovered_templates <- _discover_templates st dir ;;
  match category with
  | Some cat =>
      if negb (String.eqb (str_value cat) "") then
        match Py.dict_get (str_value cat) discovered_templates with
        | None => raiseM (ValueError ("Category not found: " +:+ str_written cat))
        | Some names => retM (CategoryTemplates names)
        end
      else retM (AllTemplates discovered_templates)
  | None => retM (AllTemplates discovered_templates)
  end.

(** [TemplateManager(templates_dir)] *)
Definition __init__ (st : Store) (dir : string) : M t :=
  r <- get_available_templates st dir None ;;
  match r with
  | AllTemplates c => retM (mk dir c)
  | CategoryTemplates _ => retM (mk dir [])
  end.

(** ['CoverLetter'] from ['cover_letter']. *)
Definition category_camel_case (capitalize : string -> string)
    (category : string) : string :=
  if PyStr.str_contains "_" category
  then PyStr.join "" (map capitalize (PyStr.split category "_"))
  else capitalize category.

Definition expected_class_name (capitalize : string -> string)
    (category template_name : string) : string :=
  capitalize template_name +:+ category_camel_case capitalize category
  +:+ "Helper".

(** [sorted] on names, as [dir(module)] lists them. *)
Fixpoint insert_sorted (x : string) (l : list string) : list string :=
  match l with
  | [] => [x]
  | y :: l' => if String.leb x y then x :: l else y :: insert_sorted x l'
  end.

Definition sorted_names (l : list string) : list string :=
  fold_right insert_sorted [] l.

(** [[name for name in dir(module) if not name.startswith('_')]] *)
Definition module_attributes (m : pymodule) : list string :=
  filter (fun name => PyStr.startswith name "_" = false)
         (sorted_names (Py.dict_keys m)).

Definition helper_not_found_message (expected helper_path : string)
    (attrs : list string) : string :=
  "Helper class '" +:+ expected +:+ "' not found in module " +:+ helper_path
  +:+ ". " +:+ "Ensure the class is defined in the helper file and matches this naming convention. "
  +:+ "Available attributes in module: " +:+ Py.repr (PList (map PStr attrs)).

(** [os.path.join(self.templates_dir, category, template_name, "helper.py")] *)
Definition helper_path_of (self : t) (category template_name : string) : string :=
  OS.path_join_all (templates_dir self) [category; template_name; "helper.py"].

Definition load_template (st : Store) (self : t) (category : pystr)
    (template_name : string) : M pyclass :=
  r <- get_available_templates st (templates_dir self) None ;;
  let current_available_templates :=
    match r with AllTemplates c => c | CategoryTemplates _ => [] end in
  match Py.dict_get (str_value category) current_available_templates with
  | None => raiseM (ValueError ("Category not found: " +:+ str_written category))
  | Some names =>
      if negb (Py.list_contains template_name names)
      then raiseM (ValueError ("Template not found: " +:+ template_name))
      else
        let helper_path :=
          helper_path_of self (str_value category) template_name in
        module <- liftM (import_module st
                           (str_written category +:+ "_" +:+ template_name)
                           helper_path) ;;
        let expected :=
          expected_class_name (str_capitalize st) (str_value category)
            template_name in
        match Py.dict_get expected module with
        | Some template_class => retM template_class
        | None =>
            raiseM (ValueError (helper_not_found_message expected helper_path
                                  (module_attributes module)))
        end
  end.

Definition create_template (st : Store) (self : t)
    (category : pystr) (template_name : string) (data : pyval) : M pyinstance :=
  template_class <- load_template st self category template_name ;;
  cls_call template_class data.

Definition generate_pdf (st : Store) (self : t) (category : pystr)
    (template_name : string) (data : pyval) (output_path : option string)
  : M string :=
  template <- create_template st self category template_name data ;;
  let path := match output_path with
              | Some p => p
              | None => str_written category +:+ "_" +:+ template_name +:+ ".pdf"
              end in
  inst_export_to_pdf template path ;;;
  retM path.

(** A later call of [get_available_templates]: by an instance with its
    own directory, for a category or for all, at a time when the
    template tree may have changed. *)
Record call : Type := mk_call {
  call_store : Store;
  call_dir : string;
  call_category : option pystr
}.

Fixpoint run_calls (calls : list call) (w : World)
  : list (result templates) * World :=
  match calls with
  | [] => ([], w)
  | c :: rest =>
      let '(r, w1) :=
        get_available_templates (call_store c) (call_dir c) (call_category c) w in
      let '(rs, w2) := run_calls rest w1 in
      (r :: rs, w2)
  end.

(** What a call for [category] returns when it is answered from the
    catalog [c]. *)
Definition answer_from (c : catalog) (category : option pystr)
  : result templates :=
  match category with
  | Some cat =>
      if negb (String.eqb (str_value cat) "") then
        match Py.dict_get (str_value cat) c with
        | None => Raise (ValueError ("Category not found: " +:+ str_written cat))
        | Some names => Ok (CategoryTemplates names)
        end
      else Ok (AllTemplates c)
  | None => Ok (AllTemplates c)
  end.

(** [TemplateManager._cached_templates = None] *)
Definition reset_cache : M unit := modifyM (set_cache None).

End TemplateManager.

(** ** The /generate pipeline *)

Module App.

Inductive DocumentType : Type := RESUME | COVER_LETTER.
Inductive OutputFormat : Type := PDF | DOCX.

(** The value of the string enumeration, which is also how the member
    behaves as a dictionary key and as a path component. *)
Definition value (d : DocumentType) : string :=
  match d with RESUME => "resume" | COVER_LETTER => "cover_letter" end.

Definition member_name (d : DocumentType) : string :=
  match d with RESUME => "RESUME" | COVER_LETTER => "COVER_LETTER" end.

(** The interpreter the application runs on, as far as the code can
    tell one from another: [Python310] stands for the versions up to
    3.10, [Python311] for 3.11 and the later ones. *)
Inductive python : Type := Python310 | Python311.

(** What an f-string writes for a member of [DocumentType]. Up to
    Python 3.10 the format of a member of an enumeration mixed with
    [str] is that of its value; from 3.11 on it is [str(member)], the
    class name and the member name. *)
Definition written (py : python) (d : DocumentType) : string :=
  match py with
  | Python310 => value d
  | Python311 => "DocumentType." +:+ member_name d
  end.

(** The member where a [str] is expected. *)
Definition as_str (py : python) (d : DocumentType) : pystr :=
  mk_pystr (value d) (written py d).

(** A validated request; [data] is [request.data.dict(exclude_unset=True)]. *)
Record DocumentRequest : Type := mk_request {
  document_type : DocumentType;
  template : string;
  format : OutputFormat;
  data : pyval;
  clean_up : bool
}.

(** The [FileResponse], with the removal task that was scheduled. *)
Record Response : Type := mk_response {
  path : string;
  media_type : string;
  filename : string;
  background_remove : option string
}.

Definition person_name_of (d : pyval) : string :=
  match d with
  | PDict top =>
      match Py.dict_get "personalInfo" top with
      | Some (PDict pi) =>
          match Py.dict_get "name" pi with
          | Some (PStr name) =>
              if negb (String.eqb name "") then PyStr.replace name " " "_"
              else "output"
          | _ => "output"
          end
      | _ => "output"
      end
  | _ => "output"
  end.

(** The two 404 errors; both write the enumeration member in an
    f-string. *)
Definition type_not_supported (py : python) (suffix : string) (d : DocumentType)
    (c : catalog) : exn :=
  HTTPException 404
    ("Document type '" +:+ written py d +:+ "' not supported" +:+ suffix
     +:+ ". Available types: " +:+ Py.repr (PList (map PStr (Py.dict_keys c)))).

Definition template_not_found (py : python) (name : string) (d : DocumentType)
    (names : list string) : exn :=
  HTTPException 404
    ("Template '" +:+ name +:+ "' not found for " +:+ written py d
     +:+ ". Available templates: " +:+ Py.repr (PList (map PStr names))).

(** The two membership checks, which the PDF branch repeats. *)
Definition check_catalog (py : python) (suffix : string)
    (request : DocumentRequest) (available_templates : catalog) : M unit :=
  match Py.dict_get (value (document_type request)) available_templates with
  | None =>
      raiseM (type_not_supported py suffix (document_type request)
                available_templates)
  | Some names =>
      if negb (Py.list_contains (template request) names)
      then raiseM (template_not_found py (template request)
                     (document_type request) names)
      else retM tt
  end.

(** The handler of the inner [try]: remove the scratch file if it is
    there, then raise the 500 error. *)
Definition cleanup_and_raise {A : Type} (label output_path : string) (e : exn)
  : M A :=
  (fun w => if OS.exists_ output_path w then OS.remove output_path w
            else (Ok tt, w)) ;;;
  raiseM (HTTPException 500 (label +:+ exn_str e)).

(** The body of the inner [try] of the PDF branch. *)
Definition render_pdf (py : python) (st : Store)
    (template_manager : TemplateManager.t)
    (request : DocumentRequest) (output_path : string) : M unit :=
  template_instance <-
    TemplateManager.create_template st template_manager
      (as_str py (document_type request)) (template request) (data request) ;;
  inst_export_to_pdf template_instance output_path ;;;
  retM tt.

(** The body of the inner [try] of the DOCX branch. *)
Definition render_docx (sv : Docx.Saver) (request : DocumentRequest)
    (output_path : string) : M unit :=
  Docx.generate_resume_docx sv (data request) output_path ;;;
  retM tt.

Definition docx_media_type : string :=
  "application/vnd.openxmlformats-officedocument.wordprocessingml.document".

(** The PDF branch: the repeated checks, the scratch file, the inner
    [try]. It gives the path, the file name and the media type. *)
Definition pdf_branch (py : python) (st : Store)
    (template_manager : TemplateManager.t)
    (request : DocumentRequest) (available_templates : catalog)
    (person_name : string) : M (string * string * string) :=
  check_catalog py " for PDF" request available_templates ;;;
  output_path <- OS.NamedTemporaryFile ".pdf" ;;
  try_except (render_pdf py st template_manager request output_path)
    (cleanup_and_raise "PDF Generation Error: " output_path) ;;;
  retM (output_path,
        value (document_type request) +:+ "_" +:+ person_name +:+ ".pdf",
        "application/pdf").

(** The DOCX branch: cover letters are turned down before anything is
    allocated. *)
Definition docx_branch (sv : Docx.Saver) (request : DocumentRequest)
    (person_name : string) : M (string * string * string) :=
  match document_type request with
  | COVER_LETTER =>
      raiseM (HTTPException 400
                "DOCX format is currently only supported for resumes.")
  | RESUME =>
      output_path <- OS.NamedTemporaryFile ".docx" ;;
      try_except (render_docx sv request output_path)
        (cleanup_and_raise "DOCX Generation Error: " output_path) ;;;
      retM (output_path, "resume_" +:+ person_name +:+ ".docx", docx_media_type)
  end.

(** The outer [try] from the point where the catalog is known. *)
Definition generate_with_catalog (py : python) (st : Store) (sv : Docx.Saver)
    (request : DocumentRequest) (template_manager : TemplateManager.t)
    (available_templates : catalog) : M Response :=
  check_catalog py "" request available_templates ;;;
  let person_name := person_name_of (data request) in
  out <-
    match format request with
    | PDF =>
        pdf_branch py st template_manager request available_templates
          person_name
    | DOCX => docx_branch sv request person_name
    end ;;
  let '(output_path, name, media) := out in
  retM (mk_response output_path media name
          (if clean_up request then Some output_path else None)).

(** The body of the outer [try]. *)
Definition generate_document_body (py : python) (st : Store) (sv : Docx.Saver)
    (request : DocumentRequest) : M Response :=
  template_manager <- TemplateManager.__init__ st "templates" ;;
  r <- TemplateManager.get_available_templates st
         (TemplateManager.templates_dir template_manager) None ;;
  let available_templates :=
    match r with
    | TemplateManager.AllTemplates c => c
    | TemplateManager.CategoryTemplates _ => []
    end in
  generate_with_catalog py st sv request template_manager available_templates.

(** The outer [except] clauses: every exception leaves as an
    [HTTPException]. *)
Definition to_http (e : exn) : exn :=
  match e with
  | ValueError msg => HTTPException 400 msg
  | HTTPException _ _ => e
  | _ => HTTPException 500 (exn_str e)
  end.

(** The three [except] clauses of the outer [try]. *)
Definition generate_document (py : python) (st : Store) (sv : Docx.Saver)
    (request : DocumentRequest) : M Response :=
  try_except (generate_document_body py st sv request)
    (fun e => raiseM (to_http e)).

(** The path [tempfile] hands out for this request if it gets that far:
    nothing before the allocation draws from the name supply. *)
Definition scratch_path (request : DocumentRequest) (w : World) : string :=
  OS.tmp_name (next_tmp w)
    (match format request with PDF => ".pdf" | DOCX => ".docx" end).

End App.

(** ** The two helper classes as loaded by the template manager

    Loaded through [import_module], a helper module does not run as
    [__main__]. [template_file] is the outcome of reading the skeleton
    that lies next to the helper. *)

Definition MinimalistResumeHelper (cc : Compiler) (tpath : string)
    (template_file : result string) : pyclass :=
  mk_class "MinimalistResumeHelper"
    (fun raw =>
       self <- liftM (helper_init tpath template_file raw) ;;
       retM (mk_instance (Minimalist_export_to_pdf false cc self))).

Definition TwocolumnResumeHelper (cc : Compiler) (tpath : string)
    (template_file : result string) : pyclass :=
  mk_class "TwocolumnResumeHelper"
    (fun raw =>
       self <- liftM (helper_init tpath template_file raw) ;;
       retM (mk_instance (Twocolumn_export_to_pdf false cc self))).

(** ** Concrete environments used in the examples *)

Module Fixtures.

(** A template tree given as a table from path to its entries ([None]
    for a plain file), and the modules found at helper paths; all names
    are ASCII, so the case mapping is the ASCII one. *)
Definition tree_store (tree : list (string * option (list string)))
    (modules : list (string * pymodule)) : Store :=
  mk_store
    (fun p => Py.dict_contains p tree)
    (fun p => match Py.dict_get p tree with Some (Some _) => true | _ => false end)
    (fun p => match Py.dict_get p tree with
              | Some (Some entries) => Ok entries
              | Some None =>
                  Raise (OSError ("[Errno 20] Not a directory: " +:+ PyStr.repr p))
              | None =>
                  Raise (FileNotFoundError
                           ("[Errno 2] No such file or directory: " +:+ PyStr.repr p))
              end)
    (fun _ p => match Py.dict_get p modules with
                | Some m => Ok m
                | None =>
                    Raise (FileNotFoundError
                             ("[Errno 2] No such file or directory: " +:+ PyStr.repr p))
                end)
    PyStr.capitalize.

(** A fresh process: nothing cached, nothing scratched yet. *)
Definition empty_world : World := mk_world None [] ∅ {["/tmp"]} 0.

(** A class whose objects export by writing a fixed text. *)
Definition writing_class (name : string) : pyclass :=
  mk_class name
    (fun _ => retM (mk_instance
                      (fun p => OS.write_file p "PDF" ;;; retM p))).

(** A class whose objects write half of the output and then raise. *)
Definition failing_class (name : string) : pyclass :=
  mk_class name
    (fun _ => retM (mk_instance
                      (fun p => OS.write_file p "%PDF-partial" ;;;
                                raiseM (RuntimeError "boom")))).

(** The tree the test suite of the repository builds, less the entry
    without a helper file: a well-named helper, a helper whose class
    does not follow the convention, and a cover letter. *)
Definition test_tree : list (string * option (list string)) :=
  [ ("test_templates_dir", Some ["resume"; "cover_letter"]);
    ("test_templates_dir/resume", Some ["goodone"; "badhelpername"]);
    ("test_templates_dir/resume/goodone", Some ["helper.py"; "template.tex"]);
    ("test_templates_dir/resume/goodone/helper.py", None);
    ("test_templates_dir/resume/goodone/template.tex", None);
    ("test_templates_dir/resume/badhelpername", Some ["helper.py"; "template.tex"]);
    ("test_templates_dir/resume/badhelpername/helper.py", None);
    ("test_templates_dir/resume/badhelpername/template.tex", None);
    ("test_templates_dir/cover_letter", Some ["clgood"]);
    ("test_templates_dir/cover_letter/clgood", Some ["helper.py"; "template.tex"]);
    ("test_templates_dir/cover_letter/clgood/helper.py", None);
    ("test_templates_dir/cover_letter/clgood/template.tex", None) ].

Definition test_modules : list (string * pymodule) :=
  [ ("test_templates_dir/resume/goodone/helper.py",
     [("GoodoneResumeHelper", writing_class "GoodoneResumeHelper")]);
    ("test_templates_dir/resume/badhelpername/helper.py",
     [("BadNameResume", writing_class "BadNameResume")]);
    ("test_templates_dir/cover_letter/clgood/helper.py",
     [("ClgoodCoverLetterHelper", writing_class "ClgoodCoverLetterHelper")]) ].

Definition test_store : Store := tree_store test_tree test_modules.

Definition test_manager : TemplateManager.t :=
  TemplateManager.mk "test_templates_dir"
    [("resume", ["goodone"; "badhelpername"]); ("cover_letter", ["clgood"])].

(** A cover letter template whose class is named with the suffix
    "Renderer". *)
Definition renderer_tree : list (string * option (list string)) :=
  [ ("templates", Some ["cover_letter"]);
    ("templates/cover_letter", Some ["classic"]);
    ("templates/cover_letter/classic", Some ["helper.py"; "classic.tex"]);
    ("templates/cover_letter/classic/helper.py", None);
    ("templates/cover_letter/classic/classic.tex", None) ].

Definition renderer_store : Store :=
  tree_store renderer_tree
    [ ("templates/cover_letter/classic/helper.py",
       [("ClassicCoverLetterRenderer", writing_class "ClassicCoverLetterRenderer");
        ("_private", writing_class "_private");
        ("os", writing_class "os")]) ].

Definition renderer_manager : TemplateManager.t :=
  TemplateManager.mk "templates" [("cover_letter", ["classic"])].

(** Later calls: from the same directory, from a directory that does not
    exist, through another template tree, for one category. *)
Definition later_calls : list TemplateManager.call :=
  [ TemplateManager.mk_call test_store "test_templates_dir" None;
    TemplateManager.mk_call test_store "no/such/dir" None;
    TemplateManager.mk_call renderer_store "templates" (Some (plain "resume"));
    TemplateManager.mk_call renderer_store "templates"
      (Some (App.as_str App.Python311 App.COVER_LETTER)) ].

Definition test_catalog : catalog :=
  [("resume", ["goodone"; "badhelpername"]); ("cover_letter", ["clgood"])].

(** The tree the application sees: the two resume templates of the
    repository, and a variant whose export fails. *)
Definition app_tree : list (string * option (list string)) :=
  [ ("templates", Some ["resume"; "__pycache__"; "template_manager.py"]);
    ("templates/template_manager.py", None);
    ("templates/__pycache__", Some []);
    ("templates/resume", Some ["minimalist"; "twocolumn"; "broken"]);
    ("templates/resume/minimalist", Some ["helper.py"; "template.tex"]);
    ("templates/resume/minimalist/helper.py", None);
    ("templates/resume/minimalist/template.tex", None);
    ("templates/resume/twocolumn", Some ["helper.py"; "template.tex"]);
    ("templates/resume/twocolumn/helper.py", None);
    ("templates/resume/twocolumn/template.tex", None);
    ("templates/resume/broken", Some ["helper.py"; "template.tex"]);
    ("templates/resume/broken/helper.py", None);
    ("templates/resume/broken/template.tex", None) ].

(** A compiler that writes a log and a PDF and exits with 0. *)
Definition good_compiler : Compiler :=
  fun cmd fs =>
    match cmd with
    | [_; _; _; tex] =>
        let d := OS.dirname tex in
        (Exited 0 "" "",
         <[OS.path_join d "resume.pdf" := "%PDF"]>
           (<[OS.path_join d "resume.log" := "ok"]> fs))
    | _ => (SpawnFailed (OSError "bad command"), fs)
    end.


(** A compiler that writes a log and exits with 1. *)
Definition bad_compiler : Compiler :=
  fun cmd fs =>
    match cmd with
    | [_; _; _; tex] =>
        (Exited 1 "out" "err",
         <[OS.path_join (OS.dirname tex) "resume.log" := "! Undefined control sequence."]> fs)
    | _ => (SpawnFailed (OSError "bad command"), fs)
    end.

(** A compiler that exits with 0 and writes only a log. *)
Definition silent_compiler : Compiler :=
  fun cmd fs =>
    match cmd with
    | [_; _; _; tex] =>
        (Exited 0 "" "",
         <[OS.path_join (OS.dirname tex) "resume.log" := "no pages of output"]> fs)
    | _ => (SpawnFailed (OSError "bad command"), fs)
    end.

Definition skeleton : string :=
  "\newcommand{\experiencesection}{}|\newcommand{\rightcolumncontent}{}".

Definition app_modules : list (string * pymodule) :=
  [ ("templates/resume/minimalist/helper.py",
     [("MinimalistResumeHelper",
       MinimalistResumeHelper good_compiler
         "templates/resume/minimalist/template.tex" (Ok skeleton))]);
    ("templates/resume/twocolumn/helper.py",
     [("TwocolumnResumeHelper",
       TwocolumnResumeHelper good_compiler
         "templates/resume/twocolumn/template.tex" (Ok skeleton))]);
    ("templates/resume/broken/helper.py",
     [("BrokenResumeHelper", failing_class "BrokenResumeHelper")]) ].

Definition app_store : Store := tree_store app_tree app_modules.

(** The application's tree with a cover letter template as well. *)
Definition letters_tree : list (string * option (list string)) :=
  [ ("templates", Some ["resume"; "cover_letter"]);
    ("templates/resume", Some []);
    ("templates/cover_letter", Some ["classic"]);
    ("templates/cover_letter/classic", Some ["helper.py"; "template.tex"]);
    ("templates/cover_letter/classic/helper.py", None);
    ("templates/cover_letter/classic/template.tex", None) ].

Definition letters_store : Store := tree_store letters_tree app_modules.

Definition good_saver : Docx.Saver :=
  fun _ output_path _ => (Ok tt, {[output_path := "PK"]}).
Definition failing_saver : Docx.Saver :=
  fun _ output_path _ =>
    (Raise (OSError "Simulated save error"), {[output_path := "PK-partial"]}).

(** A resume with one experience entry, whose one detail holds an
    ampersand. *)
Definition jane_experience : list (string * pyval) :=
  [ ("title", PStr "Engineer"); ("company", PStr "Acme");
    ("startDate", PStr "2020-01"); ("endDate", PStr "Present");
    ("details", PList [PStr "Built X & Y"]) ].

Definition jane : pyval :=
  PDict [ ("personalInfo",
           PDict [("name", PStr "Jane Roe"); ("email", PStr "jane@example.com")]);
          ("experience", PList [PDict jane_experience]) ].

(** A resume whose one experience entry has a single string where a
    list of details is expected. *)
Definition string_details_entry : pyval :=
  PDict [ ("title", PStr "Engineer"); ("company", PStr "Acme");
          ("startDate", PStr "2020-01"); ("endDate", PStr "Present");
          ("details", PStr "ab") ].

Definition string_details : pyval :=
  PDict [ ("personalInfo",
           PDict [("name", PStr "Jane Roe"); ("email", PStr "jane@example.com")]);
          ("experience", PList [string_details_entry]) ].


Definition minimalist_of (raw : pyval) : result helper :=
  helper_init "templates/resume/minimalist/template.tex" (Ok skeleton) raw.

Definition twocolumn_of (raw : pyval) : result helper :=
  helper_init "templates/resume/twocolumn/template.tex" (Ok skeleton) raw.

Definition cover_letter_docx : App.DocumentRequest :=
  App.mk_request App.COVER_LETTER "classic" App.DOCX jane true.

Definition broken_pdf : App.DocumentRequest :=
  App.mk_request App.RESUME "broken" App.PDF jane true.

Definition resume_docx : App.DocumentRequest :=
  App.mk_request App.RESUME "twocolumn" App.DOCX jane true.

End Fixtures.

(** ** Date validation of the request models

    The validators count the characters of the text and sort them into
    classes, so in this part a [str] is the list of its code points. *)

Module Dates.

Definition text : Type := list N.

(** The text of an ASCII literal. *)
Fixpoint lit (s : string) : text :=
  match s with
  | EmptyString => []
  | String c s' => N_of_ascii c :: lit s'
  end.

Inductive digit : Type := D0 | D1 | D2 | D3 | D4 | D5 | D6 | D7 | D8 | D9.

Definition digit_value (d : digit) : nat :=
  match d with
  | D0 => 0 | D1 => 1 | D2 => 2 | D3 => 3 | D4 => 4
  | D5 => 5 | D6 => 6 | D7 => 7 | D8 => 8 | D9 => 9
  end.

(** The character database of the interpreter, as far as the code uses
    it: the value of a code point that is a decimal digit (category Nd,
    the digits of every script), and nothing for any other code point.
    In a pattern [\d] matches exactly the code points that have a value,
    and [int] reads a digit by it. *)
Definition Unicode : Type := N -> option digit.

(** A character of the pattern, and a class [lo-hi] of it; both name
    ASCII characters. *)
Definition is_char (a : ascii) (c : N) : bool := N.eqb c (N_of_ascii a).

Definition between (lo hi : ascii) (c : N) : bool :=
  N.leb (N_of_ascii lo) c && N.leb c (N_of_ascii hi).

(** The value of an ASCII digit. *)
Definition ascii_digit_value (c : N) : nat := N.to_nat (c - N_of_ascii "0").

(** The directive [%Y]: four digits. *)
Definition parse_year (u : Unicode) (s : text) : option (nat * text) :=
  match s with
  | a :: b :: c :: d :: rest =>
      match u a, u b, u c, u d with
      | Some da, Some db, Some dc, Some dd =>
          Some (1000 * digit_value da + 100 * digit_value db
                + 10 * digit_value dc + digit_value dd, rest)
      | _, _, _, _ => None
      end
  | _ => None
  end.

(** The literal hyphen of the format. *)
Definition dash (s : text) : option text :=
  match s with
  | c :: rest => if is_char "-" c then Some rest else None
  | [] => None
  end.

(** The directive [%m]: the alternatives 1[0-2], 0[1-9], [1-9], in the
    order they are tried; each gives the month and what is left. *)
Definition month_alternatives (s : text) : list (nat * text) :=
  match s with
  | a :: rest =>
      match rest with
      | b :: rest' =>
          (if is_char "1" a && between "0" "2" b
           then [(10 + ascii_digit_value b, rest')] else [])
          ++ (if is_char "0" a && between "1" "9" b
              then [(ascii_digit_value b, rest')] else [])
      | [] => []
      end
      ++ (if between "1" "9" a then [(ascii_digit_value a, rest)] else [])
  | [] => []
  end.

(** The directive [%d]: the alternatives 3[0-1], [1-2]\d, 0[1-9], [1-9]
    and a blank followed by [1-9]. *)
Definition day_alternatives (u : Unicode) (s : text) : list (nat * text) :=
  match s with
  | a :: rest =>
      match rest with
      | b :: rest' =>
          (if is_char "3" a && between "0" "1" b
           then [(30 + ascii_digit_value b, rest')] else [])
          ++ (if between "1" "2" a
              then match u b with
                   | Some db => [(10 * ascii_digit_value a + digit_value db, rest')]
                   | None => []
                   end
              else [])
          ++ (if is_char "0" a && between "1" "9" b
              then [(ascii_digit_value b, rest')] else [])
      | [] => []
      end
      ++ (if between "1" "9" a then [(ascii_digit_value a, rest)] else [])
      ++ match rest with
         | b :: rest' =>
             if is_char " " a && between "1" "9" b
             then [(ascii_digit_value b, rest')] else []
         | [] => []
         end
  | [] => []
  end.

Definition is_leap (y : nat) : bool :=
  Nat.eqb (y mod 4) 0 && (negb (Nat.eqb (y mod 100) 0) || Nat.eqb (y mod 400) 0).

Definition days_in_month (y m : nat) : nat :=
  match m with
  | 2 => if is_leap y then 29 else 28
  | 4 | 6 | 9 | 11 => 30
  | _ => 31
  end.

(** The ways the body of [check_date_format] raises. Each is a
    [ValueError], and the [except] clause replaces its message, which
    is therefore left out. *)
Inductive failure : Type :=
  | does_not_match
  | unconverted (rest : text)
  | year_out_of_range (y : nat)
  | day_out_of_range
  | wrong_length.

Inductive attempt (A : Type) : Type :=
  | Done (a : A)
  | Fails (f : failure).
Arguments Done {A} a.
Arguments Fails {A} f.

(** The date object is built last: the year starts at 1 and the day
    must exist in the month. *)
Definition make_date (y m d : nat) : attempt unit :=
  if Nat.eqb y 0 then Fails (year_out_of_range y)
  else if Nat.leb 1 d && Nat.leb d (days_in_month y m) then Done tt
  else Fails day_out_of_range.

(** [datetime.strptime(data, "%Y-%m")]: the first match of the pattern
    at the start of the text, which must then be the whole text. *)
Definition strptime_ym (u : Unicode) (data : text) : attempt unit :=
  match parse_year u data with
  | Some (y, r0) =>
      match dash r0 with
      | Some r1 =>
          match month_alternatives r1 with
          | (m, r2) :: _ =>
              match r2 with
              | [] => make_date y m 1
              | _ => Fails (unconverted r2)
              end
          | [] => Fails does_not_match
          end
      | None => Fails does_not_match
      end
  | None => Fails does_not_match
  end.

(** The first month alternative after which a hyphen and a day can be
    read. *)
Fixpoint first_month_day (u : Unicode) (alts : list (nat * text))
  : option (nat * nat * text) :=
  match alts with
  | [] => None
  | (m, r2) :: more =>
      match dash r2 with
      | Some r3 =>
          match day_alternatives u r3 with
          | (d, r4) :: _ => Some (m, d, r4)
          | [] => first_month_day u more
          end
      | None => first_month_day u more
      end
  end.

(** [datetime.strptime(data, "%Y-%m-%d")] *)
Definition strptime_ymd (u : Unicode) (data : text) : attempt unit :=
  match parse_year u data with
  | Some (y, r0) =>
      match dash r0 with
      | Some r1 =>
          match first_month_day u (month_alternatives r1) with
          | Some (m, d, r4) =>
              match r4 with
              | [] => make_date y m d
              | _ => Fails (unconverted r4)
              end
          | None => Fails does_not_match
          end
      | None => Fails does_not_match
      end
  | None => Fails does_not_match
  end.

(** The body of the [try] of [check_date_format]; [len] counts code
    points. *)
Definition check_date_format_body (u : Unicode) (date_str : text)
  : attempt text :=
  match (if Nat.eqb (length date_str) 7 then strptime_ym u date_str
         else if Nat.eqb (length date_str) 10 then strptime_ymd u date_str
         else Fails wrong_length) with
  | Done _ => Done date_str
  | Fails f => Fails f
  end.

(** What a validator gives: the value it returns, or the message of the
    [ValueError] it raises. *)
Inductive validated : Type :=
  | Accepted (value : text)
  | Rejected (message : text).

Definition invalid_date_format (date_str : text) : text :=
  lit "Invalid date format: " ++ date_str ++ lit ". Use YYYY-MM or YYYY-MM-DD".

(** [check_date_format], with its [except ValueError] clause. *)
Definition check_date_format (u : Unicode) (date_str : text) : validated :=
  match check_date_format_body u date_str with
  | Done d => Accepted d
  | Fails _ => Rejected (invalid_date_format date_str)
  end.

(** The validators of [ExperienceItem]. *)
Definition validate_start_date (u : Unicode) (value : text) : validated :=
  check_date_format u value.

Definition validate_end_date (u : Unicode) (value : text) : validated :=
  if bool_decide (value = lit "Present") then Accepted value
  else check_date_format u value.

(** A database with the digits of two scripts: the ASCII digits and the
    fullwidth digits, U+FF10 to U+FF19. *)
Definition digit_of_nat (n : nat) : option digit :=
  match n with
  | 0 => Some D0 | 1 => Some D1 | 2 => Some D2 | 3 => Some D3 | 4 => Some D4
  | 5 => Some D5 | 6 => Some D6 | 7 => Some D7 | 8 => Some D8 | 9 => Some D9
  | _ => None
  end.

Definition two_scripts : Unicode :=
  fun c =>
    if N.leb 48 c && N.leb c 57 then digit_of_nat (N.to_nat (c - 48))
    else if N.leb 65296 c && N.leb c 65305
         then digit_of_nat (N.to_nat (c - 65296))
         else None.

(** The text "2022-01" with its year in fullwidth digits. *)
Definition fullwidth_2022_01 : text :=
  [65298; 65296; 65298; 65298; 45; 48; 49]%N.

End Dates.

(** ** The catalog endpoints *)

Module Endpoints.

(** [GET /templates] *)
Definition list_templates (st : Store) : M catalog :=
  try_except
    (template_manager <- TemplateManager.__init__ st "templates" ;;
     r <- TemplateManager.get_available_templates st
            (TemplateManager.templates_dir template_manager) None ;;
     retM (match r with
           | TemplateManager.AllTemplates c => c
           | TemplateManager.CategoryTemplates _ => []
           end))
    (fun e => raiseM (HTTPException 500 (exn_str e))).

(** [GET /templates/{document_type}]: the enumeration member itself is
    handed to [get_available_templates]. *)
Definition list_templates_by_type (py : App.python) (st : Store)
    (document_type : App.DocumentType) : M (list string) :=
  try_except
    (template_manager <- TemplateManager.__init__ st "templates" ;;
     r <- TemplateManager.get_available_templates st
            (TemplateManager.templates_dir template_manager)
            (Some (App.as_str py document_type)) ;;
     retM (match r with
           | TemplateManager.CategoryTemplates names => names
           | TemplateManager.AllTemplates _ => []
           end))
    (fun e =>
       if is_ValueError e then raiseM (HTTPException 404 (exn_str e))
       else raiseM (HTTPException 500 (exn_str e))).

Record template_info : Type := mk_info {
  info_name : string;
  info_document_type : App.DocumentType;
  preview_url : option string;
  description : string
}.

(** The loop over the preview extensions, which stops at the first file
    that exists. *)
Fixpoint find_preview (st : Store) (template_dir url_base : string)
    (exts : list string) : M (option string) :=
  match exts with
  | [] => retM None
  | ext :: more =>
      found <- TemplateManager.logged_exists st
                 (OS.path_join template_dir ("preview" +:+ ext)) ;;
      if found then retM (Some (url_base +:+ "/preview" +:+ ext))
      else find_preview st template_dir url_base more
  end.

(** [GET /template-info/{document_type}/{template_name}]. The member is
    its value in the path and under [replace], and is written by the
    f-strings of the two 404 errors and of the preview address. *)
Definition get_template_info (py : App.python) (st : Store)
    (document_type : App.DocumentType) (template_name : string)
  : M template_info :=
  try_except
    (template_manager <- TemplateManager.__init__ st "templates" ;;
     r <- TemplateManager.get_available_templates st
            (TemplateManager.templates_dir template_manager) None ;;
     let available_templates :=
       match r with
       | TemplateManager.AllTemplates c => c
       | TemplateManager.CategoryTemplates _ => []
       end in
     match Py.dict_get (App.value document_type) available_templates with
     | None =>
         raiseM (HTTPException 404
                   ("Document type '" +:+ App.written py document_type
                    +:+ "' not found"))
     | Some names =>
         if negb (Py.list_contains template_name names)
         then raiseM (HTTPException 404
                        ("Template '" +:+ template_name +:+ "' not found"))
         else
           let template_dir :=
             OS.path_join_all "templates"
               [App.value document_type; template_name] in
           preview <- find_preview st template_dir
                        ("/templates/" +:+ App.written py document_type +:+ "/"
                         +:+ template_name)
                        [".png"; ".jpg"; ".jpeg"] ;;
           retM (mk_info template_name document_type preview
                   (str_capitalize st template_name +:+ " template for "
                    +:+ PyStr.replace (App.value document_type) "_" " "))
     end)
    (fun e =>
       match e with
       | HTTPException _ _ => raiseM e
       | _ => raiseM (HTTPException 500 (exn_str e))
       end).

End Endpoints.

(** ** Notions used to state the properties *)

(** Two trees of the same shape: the same constructors, lists of the
    same length, dictionaries with the same keys in the same order, and
    equal leaves where the leaf is not a string. *)
Inductive same_shape : pyval -> pyval -> Prop :=
  | shape_none : same_shape PNone PNone
  | shape_bool b : same_shape (PBool b) (PBool b)
  | shape_int z : same_shape (PInt z) (PInt z)
  | shape_str s s' : same_shape (PStr s) (PStr s')
  | shape_list l l' :
      Forall2 same_shape l l' -> same_shape (PList l) (PList l')
  | shape_dict d d' :
      Forall2 (fun kv kv' => fst kv = fst kv' /\ same_shape (snd kv) (snd kv')) d d' ->
      same_shape (PDict d) (PDict d').

(** No string leaf of the tree has a special character. *)
Inductive plain_tree : pyval -> Prop :=
  | plain_none : plain_tree PNone
  | plain_bool b : plain_tree (PBool b)
  | plain_int z : plain_tree (PInt z)
  | plain_str s : Escaper.contains_special s = false -> plain_tree (PStr s)
  | plain_list l : Forall plain_tree l -> plain_tree (PList l)
  | plain_dict d : Forall (fun kv => plain_tree (snd kv)) d -> plain_tree (PDict d).

(** A template directory that the scan lists: not a reserved name, a
    directory, with a helper file and at least one skeleton. *)
Definition qualifies (st : Store) (category_path template_name : string) : Prop :=
  let template_path := OS.path_join category_path template_name in
  PyStr.startswith template_name "__" = false
  /\ path_isdir st template_path = true
  /\ path_exists st (OS.path_join template_path "helper.py") = true
  /\ exists entries f,
       listdir st template_path = Ok entries
       /\ In f entries /\ PyStr.endswith f ".tex" = true.

(** A catalog all of whose entries come from a category directory of
    [dir] and hold qualifying templates only. *)
Definition sound_catalog (st : Store) (dir : string) (c : catalog) : Prop :=
  forall category names,
    Py.dict_get category c = Some names ->
    PyStr.startswith category "__" = false
    /\ path_isdir st (OS.path_join dir category) = true
    /\ forall name, In name names ->
                    qualifies st (OS.path_join dir category) name.

(** On ASCII text the interpreter's [capitalize] upper-cases the first
    letter and lower-cases the others. *)
Definition capitalize_on_ascii (st : Store) : Prop :=
  forall s, PyStr.is_ascii s = true -> str_capitalize st s = PyStr.capitalize s.

(** The value under [k] is missing or false as a condition. *)
Definition falsy_at (k : string) (d : list (string * pyval)) : Prop :=
  forall v, Py.dict_get k d = Some v -> Py.truthy v = false.

Definition truthy_at (k : string) (d : list (string * pyval)) : bool :=
  match Py.dict_get k d with Some v => Py.truthy v | None => false end.

(** The dictionary without the key [k]. *)
Definition dict_remove (k : string) (d : list (string * pyval))
  : list (string * pyval) :=
  List.filter (fun kv => negb (String.eqb (fst kv) k)) d.

(** The helper with another tree. *)
Definition with_data (self : helper) (d : pyval) : helper :=
  mk_helper d (template_path self) (latex_template_string self).

(** The titles of the level-one headings of a document, in order. *)
Definition level_one_headings (doc : list docx_call) : list pyval :=
  omap (fun c => match c with add_heading t 1 => Some t | _ => None end) doc.

(** The sections of the DOCX resume that have a heading: the key read
    and the title written. *)
Definition docx_sections : list (string * string) :=
  [ ("professional_summary", "Professional Summary");
    ("experience", "Experience");
    ("education", "Education");
    ("projects", "Projects");
    ("technologies_and_skills", "Skills");
    ("articles_and_publications", "Articles & Publications");
    ("certifications", "Certifications") ].

(** * Properties *)

(** ** Strings *)

Section StringFacts.

Lemma append_cons (c : ascii) (a b : string) :
  String c a +:+ b = String c (a +:+ b).
Proof. reflexivity. Qed.

Lemma append_nil_l (s : string) : "" +:+ s = s.
Proof. reflexivity. Qed.

Lemma append_nil_r (s : string) : s +:+ "" = s.
Proof.
  induction s as [|c s IH]; [reflexivity | now rewrite append_cons, IH].
Qed.

Lemma append_assoc (a b c : string) : (a +:+ b) +:+ c = a +:+ (b +:+ c).
Proof.
  induction a as [|x a IH]; [reflexivity | now rewrite !append_cons, IH].
Qed.


Lemma startswith_nil (s : string) : PyStr.startswith s "" = true.
Proof. reflexivity. Qed.

(** Replacing a one-character key works character by character. *)
Lemma replace_char_cons (c a : ascii) (new s : string) :
  PyStr.replace (String a s) (String c "") new
  = (if Ascii.eqb c a then new else String a "")
    +:+ PyStr.replace s (String c "") new.
Proof.
  unfold PyStr.replace. cbn [PyStr.replace_go PyStr.startswith String.length].
  destruct (Ascii.eqb c a); reflexivity.
Qed.

Lemma replace_char_nil (c : ascii) (new : string) :
  PyStr.replace "" (String c "") new = "".
Proof. reflexivity. Qed.

Lemma replace_char_app (c : ascii) (new x y : string) :
  PyStr.replace (x +:+ y) (String c "") new
  = PyStr.replace x (String c "") new +:+ PyStr.replace y (String c "") new.
Proof.
  induction x as [|a x IH].
  - reflexivity.
  - change (String a x +:+ y) with (String a (x +:+ y)).
    rewrite !replace_char_cons, IH, append_assoc. reflexivity.
Qed.

Example startswith_dunder : PyStr.startswith "__pycache__" "__" = true.
Proof. reflexivity. Qed.

Example endswith_tex : PyStr.endswith "template.tex" ".tex" = true.
Proof. reflexivity. Qed.

Example replace_overlap : PyStr.replace "aaa" "aa" "b" = "ba".
Proof. reflexivity. Qed.

Example replace_empty_old : PyStr.replace "ab" "" "-" = "-a-b-".
Proof. reflexivity. Qed.

Example split_cover_letter : PyStr.split "cover_letter" "_" = ["cover"; "letter"].
Proof. reflexivity. Qed.

Example split_double : PyStr.split "a__b" "_" = ["a"; ""; "b"].
Proof. reflexivity. Qed.

Example capitalize_mixed : PyStr.capitalize "coverLetter" = "Coverletter".
Proof. reflexivity. Qed.

Example repr_plain : PyStr.repr "BadNameResume" = "'BadNameResume'".
Proof. reflexivity. Qed.

Example dirname_of_scratch_tex : OS.dirname "/tmp/tmp0/resume.tex" = "/tmp/tmp0".
Proof. reflexivity. Qed.

Example dirname_of_bare_name : OS.dirname "resume.pdf" = "".
Proof. reflexivity. Qed.

End StringFacts.

(** ** Escaper *)

Section EscaperFacts.

Import Escaper.

Lemma chars_one_char_keys : one_char_keys chars.
Proof. unfold one_char_keys, chars. repeat constructor; cbn; eauto. Qed.

(** The loop distributes over concatenation: since every key is one
    character, the escaper acts on each character of the text on its
    own. *)
Lemma escape_loop_app (table : list (string * string)) :
  one_char_keys table ->
  forall x y, escape_loop table (x +:+ y)
              = escape_loop table x +:+ escape_loop table y.
Proof.
  unfold escape_loop.
  induction 1 as [|[k v] table [c Hk] _ IH]; intros x y; cbn [fold_left].
  - reflexivity.
  - cbn in Hk. subst k. cbn [fst snd].
    rewrite replace_char_app. apply IH.
Qed.

Lemma escape_str_cons (a : ascii) (s : string) :
  escape_str (String a s) = escape_str (String a "") +:+ escape_str s.
Proof.
  change (String a s) with (String a "" +:+ s).
  apply (escape_loop_app chars chars_one_char_keys).
Qed.

Lemma escape_str_nil : escape_str "" = "".
Proof. reflexivity. Qed.

Lemma is_special_cases (a : ascii) :
  is_special a = true -> In a special_chars.
Proof.
  unfold is_special. intros H.
  apply existsb_exists in H as (c & Hin & Heq).
  apply Ascii.eqb_eq in Heq. now subst.
Qed.

Lemma is_special_false (a : ascii) :
  is_special a = false ->
  forall c, In c special_chars -> Ascii.eqb c a = false.
Proof.
  intros H c Hin.
  destruct (Ascii.eqb c a) eqn:E; [| reflexivity].
  apply Ascii.eqb_eq in E. subst c.
  assert (is_special a = true) as Ht; [| congruence].
  apply existsb_exists. exists a. split; [assumption | apply Ascii.eqb_refl].
Qed.

Ltac each_special H :=
  apply is_special_cases in H; cbn [In special_chars] in H;
  repeat (destruct H as [<- | H]); [.. | contradiction].

(** A character outside the table goes through the loop unchanged. *)
Lemma escape_loop_untouched (table : list (string * string)) (a : ascii) :
  Forall (fun ce => exists c, fst ce = String c "" /\ Ascii.eqb c a = false) table ->
  escape_loop table (String a "") = String a "".
Proof.
  unfold escape_loop.
  induction 1 as [|[k v] table (c & Hk & Hc) _ IH]; [reflexivity |].
  cbn in Hk. subst k. cbn [fold_left fst snd].
  rewrite replace_char_cons, Hc, replace_char_nil. exact IH.
Qed.

Lemma escape_str_plain_char (a : ascii) :
  is_special a = false -> escape_str (String a "") = String a "".
Proof.
  intros H. apply escape_loop_untouched.
  pose proof (is_special_false a H) as Hne.
  unfold chars.
  repeat (constructor;
          [eexists; split; [reflexivity | apply Hne; cbn; tauto] |]).
  constructor.
Qed.

Lemma escape_one_plain_char (a : ascii) :
  is_special a = false -> escape_one a = String a "".
Proof.
  intros H. pose proof (is_special_false a H) as Hne.
  unfold escape_one, chars. cbn [Py.dict_get String.eqb].
  repeat (rewrite Ascii.eqb_sym, Hne by (cbn; tauto)).
  reflexivity.
Qed.

(** A plain character is read as itself. *)
Lemma scan_plain_char (a : ascii) (rest : string) :
  is_special a = false -> raw_scan 0 (String a rest) = raw_scan 0 rest.
Proof.
  intros H.
  assert (Ascii.eqb "\" a = false) as Hb
    by (apply (is_special_false a H); cbn; tauto).
  cbn [raw_scan escape_sequences chars map snd find PyStr.startswith].
  rewrite Hb, H. reflexivity.
Qed.

Lemma before_backslash_special (a : ascii) :
  before_backslash a = true -> is_special a = true.
Proof.
  unfold before_backslash, is_special. intros H.
  apply existsb_exists in H as (c & Hin & Heq).
  apply existsb_exists. exists c. split; [| assumption].
  cbn in Hin |- *. tauto.
Qed.

(** Reading back what the source's loop makes of one character: a raw
    special character shows exactly for the nine characters that are
    replaced before the backslash is. *)
Lemma scan_escaped_char (a : ascii) (rest : string) :
  raw_scan 0 (escape_str (String a "") +:+ rest)
  = before_backslash a || raw_scan 0 rest.
Proof.
  destruct (is_special a) eqn:H.
  - each_special H; vm_compute; reflexivity.
  - rewrite (escape_str_plain_char a H), append_cons, append_nil_l.
    rewrite (scan_plain_char a rest H).
    destruct (before_backslash a) eqn:Hb; [| reflexivity].
    apply before_backslash_special in Hb. congruence.
Qed.

(** Reading back what the one-pass escaping makes of one character:
    never a raw special character. *)
Lemma scan_escape_one (a : ascii) (rest : string) :
  raw_scan 0 (escape_one a +:+ rest) = raw_scan 0 rest.
Proof.
  destruct (is_special a) eqn:H.
  - each_special H; vm_compute; reflexivity.
  - rewrite (escape_one_plain_char a H), append_cons, append_nil_l.
    apply (scan_plain_char a rest H).
Qed.




(** A complete account of when the output of the source's escaper
    holds a raw special character. *)
Theorem escape_str_raw_iff (s : string) :
  has_raw_special (escape_str s) = contains_before_backslash s.
Proof.
  unfold has_raw_special.
  induction s as [|a s IH]; [reflexivity |].
  rewrite escape_str_cons, scan_escaped_char, IH. reflexivity.
Qed.

(** The escaping the specification describes leaves no raw special
    character, whatever the text. *)
Theorem escape_single_pass_clean (s : string) :
  has_raw_special (escape_single_pass s) = false.
Proof.
  unfold has_raw_special.
  induction s as [|a s IH]; [reflexivity |].
  cbn [escape_single_pass]. now rewrite scan_escape_one.
Qed.





End EscaperFacts.

Section EscaperTree.

Import Escaper.

Lemma escape_recursive_str (s : string) :
  _escape_latex_special_chars_recursive (PStr s) = PStr (escape_str s).
Proof. reflexivity. Qed.

Lemma escape_recursive_list (l : list pyval) :
  _escape_latex_special_chars_recursive (PList l)
  = PList (map _escape_latex_special_chars_recursive l).
Proof. reflexivity. Qed.

Lemma escape_recursive_dict (d : list (string * pyval)) :
  _escape_latex_special_chars_recursive (PDict d)
  = PDict (map (fun kv => (fst kv, _escape_latex_special_chars_recursive (snd kv))) d).
Proof. reflexivity. Qed.


Lemma dict_get_escaped (k : string) (d : list (string * pyval)) :
  Py.dict_get k
    (map (fun kv => (fst kv, _escape_latex_special_chars_recursive (snd kv))) d)
  = option_map _escape_latex_special_chars_recursive (Py.dict_get k d).
Proof.
  induction d as [|[k' v] d IH]; [reflexivity |].
  cbn [map Py.dict_get fst snd]. destruct (String.eqb k k'); [reflexivity | exact IH].
Qed.

(** The shape of the tree is kept: lists keep their length and order,
    dictionaries their keys and order, and what is not a string, a list
    or a dictionary is returned as it is. *)
Lemma escape_recursive_keys (d : list (string * pyval)) :
  match _escape_latex_special_chars_recursive (PDict d) with
  | PDict d' => Py.dict_keys d' = Py.dict_keys d
  | _ => False
  end.
Proof.
  rewrite escape_recursive_dict. unfold Py.dict_keys.
  rewrite map_map. reflexivity.
Qed.

End EscaperTree.

(** C1 (the code departs from it): a string leaf holding a special
    character should come out of the escaper with no raw instance of
    that character. At the leaf "R&D" the escaper first writes the
    ampersand as backslash-ampersand and then, when the backslash's turn
    comes, rewrites that very backslash, so the ampersand ends up raw,
    after the group that closes the backslash command. The one-pass
    escaping the specification describes leaves no raw character on the
    same leaf. *)
Theorem C1_escaper_leaves_raw_ampersand :
  Escaper._escape_latex_special_chars_recursive
    (PDict [("company", PStr "R&D")])
  = PDict [("company", PStr "R\textbackslash{}&D")]
  /\ Escaper.has_raw_special "R\textbackslash{}&D" = true
  /\ Escaper.escape_single_pass "R&D" = "R\&D"
  /\ Escaper.has_raw_special (Escaper.escape_single_pass "R&D") = false.
Proof. repeat split; vm_compute; reflexivity. Qed.

Section RendererFacts.

Import Escaper.









End RendererFacts.



(** The same on a whole resume, from construction to the section text. *)
Example jane_minimalist_experience :
  (h ← Fixtures.minimalist_of Fixtures.jane;
   Minimalist._generate_experience_section h)
  = Ok ("\section*{Experience}" +:+ PyStr.nl
        +:+ "\experienceentry{Acme}{Engineer}{2020-01 -- Present}{}{" +:+ PyStr.nl
        +:+ "            \item Built X \textbackslash{}textbackslash\textbackslash{}{\textbackslash{}}\textbackslash{}& Y"
        +:+ PyStr.nl +:+ "        }").
Proof. vm_compute. reflexivity. Qed.

Example jane_twocolumn_experience :
  (h ← Fixtures.twocolumn_of Fixtures.jane;
   Twocolumn._generate_right_column_content h)
  = Ok ("\section*{Experience}" +:+ PyStr.nl +:+ PyStr.nl
        +:+ "\experienceentryright{Engineer}{Acme}{2020-01 -- Present}{}{" +:+ PyStr.nl
        +:+ "            \item Built X \textbackslash{}& Y"
        +:+ PyStr.nl +:+ "        }").
Proof. vm_compute. reflexivity. Qed.

(** ** A single string in place of the list of details *)

(** The DOCX generator writes one bullet for a single string. *)
Lemma docx_string_details_one_bullet (s : string) :
  Docx.detail_bullets (PStr s) = [add_paragraph (PStr s) Docx.ListBullet].
Proof. reflexivity. Qed.

(** The minimalist renderer writes one [\item] line per character. *)
Lemma minimalist_string_details (c : ascii) (s : string) :
  Minimalist.details_latex_of (PStr (String c s))
  = Ok (PyStr.join PyStr.nl
          (map (fun ch => "            \item " +:+ Escaper.escape_str ch)
               (PyStr.chars_of (String c s)))).
Proof.
  unfold Minimalist.details_latex_of.
  cbn [Py.truthy String.eqb negb Py.iter mbind result_bind].
  do 2 f_equal. rewrite map_map. reflexivity.
Qed.

(** So does the twocolumn renderer. *)
Lemma twocolumn_string_details (s : string) :
  Twocolumn.details_latex_of (PStr s)
  = Ok (PyStr.join PyStr.nl
          (map (fun ch => "            \item " +:+ ch) (PyStr.chars_of s))).
Proof.
  unfold Twocolumn.details_latex_of.
  cbn [Py.iter mbind result_bind].
  do 2 f_equal. rewrite map_map. reflexivity.
Qed.

Lemma chars_of_length (s : string) :
  length (PyStr.chars_of s) = String.length s.
Proof. induction s as [|c s IH]; cbn; [reflexivity | now rewrite IH]. Qed.

(** C8 (the code departs from it): a [details] field that is a single
    string should be treated as a list of one item by every renderer.
    The DOCX generator does so. The two LaTeX renderers iterate over the
    string itself: for the details "ab" each of them writes two [\item]
    lines, one for "a" and one for "b". None of them raises. *)
Theorem C8_latex_renderers_split_string_details :
  (h ← Fixtures.minimalist_of Fixtures.string_details;
   Minimalist._generate_experience_section h)
  = Ok ("\section*{Experience}" +:+ PyStr.nl
        +:+ "\experienceentry{Acme}{Engineer}{2020-01 -- Present}{}{" +:+ PyStr.nl
        +:+ "            \item a" +:+ PyStr.nl
        +:+ "            \item b" +:+ PyStr.nl
        +:+ "        }")
  /\ (h ← Fixtures.twocolumn_of Fixtures.string_details;
      Twocolumn._generate_right_column_content h)
     = Ok ("\section*{Experience}" +:+ PyStr.nl +:+ PyStr.nl
           +:+ "\experienceentryright{Engineer}{Acme}{2020-01 -- Present}{}{"
           +:+ PyStr.nl
           +:+ "            \item a" +:+ PyStr.nl
           +:+ "            \item b" +:+ PyStr.nl
           +:+ "        }")
  /\ Docx._format_experience_item Fixtures.string_details_entry
     = Ok [ add_heading (PStr "Acme") 2;
            add_paragraph (PStr "Engineer (2020-01 – Present)") None;
            add_paragraph (PStr "ab") Docx.ListBullet;
            Docx.blank ].
Proof. repeat split; vm_compute; reflexivity. Qed.

(** ** Template manager: the catalog cache *)

Section CacheFacts.

Import TemplateManager.

Lemma discover_cached (st : Store) (dir : string) (w : World) (c : catalog) :
  cached_templates w = Some c ->
  _discover_templates st dir w = (Ok c, w).
Proof. intros H. unfold _discover_templates. now rewrite H. Qed.

Lemma get_cached (st : Store) (dir : string) (category : option pystr)
    (w : World) (c : catalog) :
  cached_templates w = Some c ->
  get_available_templates st dir category w = (answer_from c category, w).
Proof.
  intros H. unfold get_available_templates, bindM.
  rewrite (discover_cached st dir w c H). unfold answer_from.
  destruct category as [cat|]; [| reflexivity].
  destruct (negb (String.eqb (str_value cat) "")); [| reflexivity].
  destruct (Py.dict_get (str_value cat) c); reflexivity.
Qed.

Lemma extends_log_refl (w : World) : extends_log w w.
Proof. exists []. now rewrite app_nil_r. Qed.

Lemma extends_log_trans (w1 w2 w3 : World) :
  extends_log w1 w2 -> extends_log w2 w3 -> extends_log w1 w3.
Proof.
  intros [l1 H1] [l2 H2]. exists (l1 ++ l2).
  rewrite H2, H1. now rewrite app_assoc.
Qed.

Lemma extends_log_event (e : fs_event) (w : World) :
  extends_log w (log_event e w).
Proof. now exists [e]. Qed.

Lemma same_state_refl (w : World) : same_state w w.
Proof. unfold same_state. auto using extends_log_refl. Qed.

Lemma same_state_trans (w1 w2 w3 : World) :
  same_state w1 w2 -> same_state w2 w3 -> same_state w1 w3.
Proof.
  unfold same_state. intros (A1 & B1 & C1 & D1 & E1) (A2 & B2 & C2 & D2 & E2).
  repeat split; try congruence. eauto using extends_log_trans.
Qed.

Lemma same_state_event (e : fs_event) (w : World) :
  same_state w (log_event e w).
Proof. unfold same_state. cbn. auto using extends_log_event. Qed.

Lemma bind_logged_isdir {A : Type} (st : Store) (p : string)
    (k : bool -> M A) (w : World) :
  bindM (logged_isdir st p) k w
  = k (path_isdir st p) (log_event (EvIsdir p) w).
Proof. reflexivity. Qed.

Lemma bind_logged_exists {A : Type} (st : Store) (p : string)
    (k : bool -> M A) (w : World) :
  bindM (logged_exists st p) k w
  = k (path_exists st p) (log_event (EvExists p) w).
Proof. reflexivity. Qed.

Lemma bind_logged_listdir {A : Type} (st : Store) (p : string)
    (k : list string -> M A) (w : World) :
  bindM (logged_listdir st p) k w
  = match listdir st p with
    | Ok entries => k entries (log_event (EvListdir p) w)
    | Raise e => (Raise e, log_event (EvListdir p) w)
    end.
Proof.
  unfold bindM, logged_listdir, modifyM, liftM.
  destruct (listdir st p); reflexivity.
Qed.

Lemma scan_templates_state (st : Store) (category category_path : string)
    (names : list string) :
  forall acc w r w',
    scan_templates st category category_path names acc w = (r, w') ->
    same_state w w'.
Proof.
  induction names as [|n names IH]; intros acc w r w' H.
  - injection H as _ <-. apply same_state_refl.
  - cbn [scan_templates] in H. rewrite bind_logged_isdir in H.
    set (w1 := log_event _ w) in H.
    assert (same_state w w1) as S1 by apply same_state_event.
    destruct (negb _ || _) in H.
    + eapply same_state_trans; [exact S1 | eapply IH; exact H].
    + rewrite bind_logged_listdir in H.
      set (w2 := log_event _ w1) in H.
      assert (same_state w w2) as S2
        by (eapply same_state_trans; [exact S1 | apply same_state_event]).
      destruct (listdir st _) as [entries | e] in H.
      * rewrite bind_logged_exists in H.
        set (w3 := log_event _ w2) in H.
        assert (same_state w w3) as S3
          by (eapply same_state_trans; [exact S2 | apply same_state_event]).
        destruct (_ && _) in H;
          (eapply same_state_trans; [exact S3 | eapply IH; exact H]).
      * injection H as _ <-. exact S2.
Qed.

Lemma scan_categories_state (st : Store) (dir : string) (cats : list string) :
  forall acc w r w',
    scan_categories st dir cats acc w = (r, w') ->
    same_state w w'.
Proof.
  induction cats as [|cat cats IH]; intros acc w r w' H.
  - injection H as _ <-. apply same_state_refl.
  - cbn [scan_categories] in H. rewrite bind_logged_isdir in H.
    set (w1 := log_event _ w) in H.
    assert (same_state w w1) as S1 by apply same_state_event.
    destruct (negb _ || _) in H.
    + eapply same_state_trans; [exact S1 | eapply IH; exact H].
    + rewrite bind_logged_listdir in H.
      set (w2 := log_event _ w1) in H.
      assert (same_state w w2) as S2
        by (eapply same_state_trans; [exact S1 | apply same_state_event]).
      destruct (listdir st _) as [names | e] in H.
      * unfold bindM at 1 in H.
        destruct (scan_templates _ _ _ _ _ w2) as [[acc2 | e] w3] eqn:Hs;
          pose proof (scan_templates_state _ _ _ _ _ _ _ _ Hs) as S3.
        -- eapply same_state_trans; [| eapply IH; exact H].
           eapply same_state_trans; [exact S2 | exact S3].
        -- injection H as _ <-.
           eapply same_state_trans; [exact S2 | exact S3].
      * injection H as _ <-. exact S2.
Qed.

End CacheFacts.

Section CatalogCache.

Import TemplateManager.

(** A scan that ends well fills the cache with what it returns; it
    starts by checking and listing the templates directory, and changes
    nothing else. *)
Lemma discover_scans (st : Store) (dir : string) (w w1 : World) (c : catalog) :
  cached_templates w = None ->
  _discover_templates st dir w = (Ok c, w1) ->
  cached_templates w1 = Some c
  /\ (exists rest,
        fs_log w1 = fs_log w ++ EvExists dir :: EvListdir dir :: rest)
  /\ files w1 = files w /\ dirs w1 = dirs w /\ next_tmp w1 = next_tmp w.
Proof.
  intros Hc H. unfold _discover_templates in H. rewrite Hc in H.
  rewrite bind_logged_exists in H.
  destruct (negb (path_exists st dir)); [discriminate H |].
  rewrite bind_logged_listdir in H.
  destruct (listdir st dir) as [cats | e]; [| discriminate H].
  unfold bindM at 1 in H.
  destruct (scan_categories st dir cats [] _) as [[found | e] w2] eqn:Hs;
    [| discriminate H].
  apply scan_categories_state in Hs as (_ & Hf & Hd & Hn & rest & Hl).
  cbn in H. injection H as <- <-. cbn.
  repeat split; try assumption.
  exists rest. rewrite Hl. cbn. rewrite <- !app_assoc. reflexivity.
Qed.

Lemma discover_fills_cache (st : Store) (dir : string) (w w1 : World)
    (c : catalog) :
  _discover_templates st dir w = (Ok c, w1) -> cached_templates w1 = Some c.
Proof.
  intros H. destruct (cached_templates w) as [c0|] eqn:Hc.
  - rewrite (discover_cached st dir w c0 Hc) in H. congruence.
  - now apply (discover_scans st dir w w1 c Hc).
Qed.

Lemma get_fills_cache (st : Store) (dir : string) (category : option pystr)
    (w w1 : World) (r : templates) :
  get_available_templates st dir category w = (Ok r, w1) ->
  exists c, cached_templates w1 = Some c /\ answer_from c category = Ok r.
Proof.
  intros H. unfold get_available_templates, bindM in H.
  destruct (_discover_templates st dir w) as [[c | e] w2] eqn:Hd;
    [| discriminate H].
  apply discover_fills_cache in Hd.
  exists c. unfold answer_from.
  destruct category as [cat|].
  - destruct (negb (String.eqb (str_value cat) "")).
    + destruct (Py.dict_get (str_value cat) c); [| discriminate H].
      injection H as <- <-. auto.
    + injection H as <- <-. auto.
  - injection H as <- <-. auto.
Qed.

(** Once the cache is filled, any run of calls is answered from it and
    leaves the world, log included, as it was. *)
Lemma run_calls_cached (calls : list call) (w : World) (c : catalog) :
  cached_templates w = Some c ->
  run_calls calls w
  = (map (fun k => answer_from c (call_category k)) calls, w).
Proof.
  intros H. induction calls as [|k calls IH]; [reflexivity |].
  cbn [run_calls map]. rewrite (get_cached _ _ _ w c H), IH. reflexivity.
Qed.

(** On an empty cache a call that ends well has scanned. *)
Lemma get_scans (st : Store) (dir : string) (category : option pystr)
    (w w1 : World) (r : templates) :
  cached_templates w = None ->
  get_available_templates st dir category w = (Ok r, w1) ->
  exists rest, fs_log w1 = fs_log w ++ EvExists dir :: EvListdir dir :: rest.
Proof.
  intros Hnone H.
  unfold get_available_templates, bindM in H.
  destruct (_discover_templates st dir w) as [[c | e] w2] eqn:Hd;
    [| discriminate H].
  assert (w2 = w1) as ->.
  { destruct category as [cat|].
    - destruct (negb (String.eqb (str_value cat) "")).
      + destruct (Py.dict_get (str_value cat) c); [| discriminate H].
        now injection H.
      + now injection H.
    - now injection H. }
  now apply (discover_scans st dir w w1 c Hnone).
Qed.

End CatalogCache.

(** C2: after the first call of [get_available_templates] that ends
    well, the catalog is cached; every later call, by the same or by a
    newly made instance, with whatever directory and whatever the
    template tree has become, is answered from that same catalog and
    leaves the world unchanged, so the storage log gets no new entry.
    If the cache was empty before the first call, that call did scan:
    it logged the check and the listing of its templates directory.
    Resetting the cache is the only way to a new scan. *)
Theorem C2_catalog_scanned_once
    (st0 : Store) (dir0 : string) (cat0 : option pystr) (w0 w1 : World)
    (r0 : TemplateManager.templates) (calls : list TemplateManager.call) :
  TemplateManager.get_available_templates st0 dir0 cat0 w0 = (Ok r0, w1) ->
  exists c,
    cached_templates w1 = Some c
    /\ TemplateManager.answer_from c cat0 = Ok r0
    /\ TemplateManager.run_calls calls w1
       = (map (fun k => TemplateManager.answer_from c
                          (TemplateManager.call_category k)) calls, w1)
    /\ (cached_templates w0 = None ->
        exists rest,
          fs_log w1 = fs_log w0 ++ EvExists dir0 :: EvListdir dir0 :: rest).
Proof.
  intros H.
  destruct (get_fills_cache _ _ _ _ _ _ H) as (c & Hc & Ha).
  exists c. repeat split; try assumption.
  - now apply run_calls_cached.
  - intros Hnone. now apply (get_scans st0 dir0 cat0 w0 w1 r0).
Qed.

Lemma C2_witness :
  TemplateManager.get_available_templates Fixtures.test_store
    "test_templates_dir" None Fixtures.empty_world
  = (Ok (TemplateManager.AllTemplates Fixtures.test_catalog),
     snd (TemplateManager.get_available_templates Fixtures.test_store
            "test_templates_dir" None Fixtures.empty_world))
  /\ exists c,
       cached_templates
         (snd (TemplateManager.get_available_templates Fixtures.test_store
                 "test_templates_dir" None Fixtures.empty_world)) = Some c
       /\ TemplateManager.run_calls Fixtures.later_calls
            (snd (TemplateManager.get_available_templates Fixtures.test_store
                    "test_templates_dir" None Fixtures.empty_world))
          = (map (fun k => TemplateManager.answer_from c
                             (TemplateManager.call_category k))
               Fixtures.later_calls,
             snd (TemplateManager.get_available_templates Fixtures.test_store
                    "test_templates_dir" None Fixtures.empty_world)).
Proof.
  assert (TemplateManager.get_available_templates Fixtures.test_store
            "test_templates_dir" None Fixtures.empty_world
          = (Ok (TemplateManager.AllTemplates Fixtures.test_catalog),
             snd (TemplateManager.get_available_templates Fixtures.test_store
                    "test_templates_dir" None Fixtures.empty_world))) as H
    by (vm_compute; reflexivity).
  split; [exact H |].
  destruct (C2_catalog_scanned_once _ _ _ _ _ _ Fixtures.later_calls H)
    as (c & Hc & _ & Hrun & _).
  exists c. split; [exact Hc | exact Hrun].
Defined.

(** After a reset the next call scans again. *)
Lemma reset_allows_rescan (st : Store) (dir : string) (w w1 w2 : World)
    (r : TemplateManager.templates) :
  TemplateManager.reset_cache w = (Ok tt, w1) ->
  TemplateManager.get_available_templates st dir None w1 = (Ok r, w2) ->
  exists rest, fs_log w2 = fs_log w ++ EvExists dir :: EvListdir dir :: rest.
Proof.
  intros Hr H. unfold TemplateManager.reset_cache, modifyM in Hr.
  injection Hr as <-.
  exact (get_scans st dir None (set_cache None w) w2 r eq_refl H).
Qed.

(** C9: the cache belongs to the class, not to the instance. Once an
    instance has been made, which fills the cache, making another with
    any other directory, on any template tree, gives an instance that
    holds the very same catalog, and leaves the world unchanged: the
    new directory is neither checked nor listed. *)
Theorem C9_cache_ignores_templates_dir
    (st1 st2 : Store) (dir1 dir2 : string) (w0 w1 : World)
    (tm1 : TemplateManager.t) :
  TemplateManager.__init__ st1 dir1 w0 = (Ok tm1, w1) ->
  TemplateManager.__init__ st2 dir2 w1
  = (Ok (TemplateManager.mk dir2 (TemplateManager.available_templates tm1)), w1).
Proof.
  intros H. unfold TemplateManager.__init__, bindM in H |- *.
  destruct (TemplateManager.get_available_templates st1 dir1 None w0)
    as [[r | e] w'] eqn:Hg; [| discriminate H].
  destruct (get_fills_cache _ _ _ _ _ _ Hg) as (c & Hc & Ha).
  cbn in Ha. injection Ha as <-.
  cbn in H. injection H as <- <-.
  rewrite (get_cached st2 dir2 None w' c Hc). reflexivity.
Qed.

Lemma C9_witness :
  path_exists Fixtures.test_store "no/such/dir" = false
  /\ TemplateManager.__init__ Fixtures.test_store "no/such/dir"
       (snd (TemplateManager.__init__ Fixtures.test_store "test_templates_dir"
               Fixtures.empty_world))
     = (Ok (TemplateManager.mk "no/such/dir" Fixtures.test_catalog),
        snd (TemplateManager.__init__ Fixtures.test_store "test_templates_dir"
               Fixtures.empty_world)).
Proof.
  split; [reflexivity |].
  apply (C9_cache_ignores_templates_dir Fixtures.test_store Fixtures.test_store
           "test_templates_dir" "no/such/dir" Fixtures.empty_world _
           (TemplateManager.mk "test_templates_dir" Fixtures.test_catalog)).
  vm_compute. reflexivity.
Defined.

(** With an empty cache the same directory is checked, and the
    constructor raises. *)
Example init_missing_dir_uncached :
  TemplateManager.__init__ Fixtures.test_store "no/such/dir" Fixtures.empty_world
  = (Raise (FileNotFoundError "Templates directory not found: no/such/dir"),
     log_event (EvExists "no/such/dir") Fixtures.empty_world).
Proof. vm_compute. reflexivity. Qed.

(** ** Template manager: loading and binding *)

Section Loading.

Import TemplateManager.

(** What [load_template] does once the catalog is known. *)
Lemma load_template_unfold (st : Store) (self : t) (category : pystr)
    (template_name : string) (w w1 : World) (c : catalog) :
  get_available_templates st (templates_dir self) None w
  = (Ok (AllTemplates c), w1) ->
  load_template st self category template_name w
  = (match Py.dict_get (str_value category) c with
     | None => Raise (ValueError ("Category not found: " +:+ str_written category))
     | Some names =>
         if negb (Py.list_contains template_name names)
         then Raise (ValueError ("Template not found: " +:+ template_name))
         else
           match import_module st
                   (str_written category +:+ "_" +:+ template_name)
                   (helper_path_of self (str_value category) template_name) with
           | Raise e => Raise e
           | Ok module =>
               match Py.dict_get
                       (expected_class_name (str_capitalize st)
                          (str_value category) template_name)
                       module with
               | Some template_class => Ok template_class
               | None =>
                   Raise (ValueError
                            (helper_not_found_message
                               (expected_class_name (str_capitalize st)
                                  (str_value category) template_name)
                               (helper_path_of self (str_value category)
                                  template_name)
                               (module_attributes module)))
               end
           end
     end, w1).
Proof.
  intros H. unfold load_template, bindM. rewrite H.
  destruct (Py.dict_get (str_value category) c) as [names|]; [| reflexivity].
  destruct (negb (Py.list_contains template_name names)); [reflexivity |].
  unfold liftM.
  destruct (import_module st _ _) as [module | e]; [| reflexivity].
  destruct (Py.dict_get _ module); reflexivity.
Qed.

Lemma insert_sorted_In (x y : string) (l : list string) :
  In y (insert_sorted x l) <-> y = x \/ In y l.
Proof.
  induction l as [|z l IH]; cbn.
  - intuition.
  - destruct (String.leb x z); cbn; [intuition | rewrite IH; intuition].
Qed.

Lemma sorted_names_In (y : string) (l : list string) :
  In y (sorted_names l) <-> In y l.
Proof.
  induction l as [|x l IH]; cbn; [reflexivity |].
  rewrite insert_sorted_In, IH. intuition.
Qed.

(** Every public name of the module is among the reported attributes. *)
Lemma module_attributes_complete (m : pymodule) (n : string) :
  In n (Py.dict_keys m) -> PyStr.startswith n "_" = false ->
  In n (module_attributes m).
Proof.
  intros Hin Hpub. unfold module_attributes.
  apply list_elem_of_In, list_elem_of_filter. split; [exact Hpub |].
  apply list_elem_of_In, sorted_names_In, Hin.
Qed.

End Loading.

(** C3, as the code has it: for a category of the catalog,
    [load_template] raises the template-not-found error for every name
    that is not in the category's entry. For a name in the entry it
    returns a class exactly when the helper module loads and has an
    attribute of the expected name; otherwise it fails, with the error
    of the module's loading when the module does not load, and with the
    binding error when the module has no attribute of that name. *)
Theorem C3_load_template_by_membership
    (st : Store) (self : TemplateManager.t) (category template_name : string)
    (w w1 : World) (c : catalog) (names : list string) :
  TemplateManager.get_available_templates st
    (TemplateManager.templates_dir self) None w
  = (Ok (TemplateManager.AllTemplates c), w1) ->
  Py.dict_get category c = Some names ->
  let helper_path :=
    TemplateManager.helper_path_of self category template_name in
  let expected :=
    TemplateManager.expected_class_name (str_capitalize st) category
      template_name in
  let loaded :=
    import_module st (category +:+ "_" +:+ template_name) helper_path in
  (Py.list_contains template_name names = false ->
   TemplateManager.load_template st self category template_name w
   = (Raise (ValueError ("Template not found: " +:+ template_name)), w1))
  /\ (Py.list_contains template_name names = true ->
      (forall cls,
          fst (TemplateManager.load_template st self category template_name w)
          = Ok cls
          <-> exists module,
                loaded = Ok module /\ Py.dict_get expected module = Some cls)
      /\ (forall e,
             loaded = Raise e ->
             TemplateManager.load_template st self category template_name w
             = (Raise e, w1))
      /\ (forall module,
             loaded = Ok module ->
             Py.dict_get expected module = None ->
             TemplateManager.load_template st self category template_name w
             = (Raise (ValueError
                         (TemplateManager.helper_not_found_message expected
                            helper_path
                            (TemplateManager.module_attributes module))),
                w1))).
Proof.
  intros H Hcat helper_path expected loaded.
  rewrite (load_template_unfold st self category template_name w w1 c H).
  cbn [str_value str_written plain]. rewrite Hcat.
  fold helper_path expected loaded.
  split; intros Hin; rewrite Hin; cbn [negb fst]; [reflexivity |].
  split; [| split].
  - intros cls. destruct loaded as [module | e].
    + destruct (Py.dict_get expected module) as [cls'|] eqn:Hget.
      * split.
        -- intros [= <-]. eauto.
        -- intros (m & [= <-] & Hm). congruence.
      * split; [discriminate |].
        intros (m & [= <-] & Hm). congruence.
    + split; [discriminate |]. intros (m & Hm & _). discriminate Hm.
  - intros e ->. reflexivity.
  - intros module -> ->. reflexivity.
Qed.

Lemma C3_witness :
  Py.list_contains "nosuchtemplate" ["goodone"; "badhelpername"] = false
  /\ TemplateManager.load_template Fixtures.test_store Fixtures.test_manager
       "resume" "nosuchtemplate" Fixtures.empty_world
     = (Raise (ValueError "Template not found: nosuchtemplate"),
        snd (TemplateManager.get_available_templates Fixtures.test_store
               "test_templates_dir" None Fixtures.empty_world)).
Proof.
  split; [reflexivity |].
  refine (proj1 (C3_load_template_by_membership Fixtures.test_store
                   Fixtures.test_manager "resume" "nosuchtemplate"
                   Fixtures.empty_world _ Fixtures.test_catalog
                   ["goodone"; "badhelpername"] _ eq_refl)
            eq_refl).
  vm_compute. reflexivity.
Defined.

(** C3 as stated fails: "badhelpername" is in the catalog entry of
    "resume", yet loading it raises, because its helper module has no
    class of the expected name. *)
Lemma C3_counterexample :
  fst (TemplateManager.get_available_templates Fixtures.test_store
         "test_templates_dir" (Some (plain "resume")) Fixtures.empty_world)
  = Ok (TemplateManager.CategoryTemplates ["goodone"; "badhelpername"])
  /\ Py.list_contains "badhelpername" ["goodone"; "badhelpername"] = true
  /\ fst (TemplateManager.load_template Fixtures.test_store Fixtures.test_manager
            "resume" "badhelpername" Fixtures.empty_world)
     = Raise (ValueError
                ("Helper class 'BadhelpernameResumeHelper' not found in module "
                 +:+ "test_templates_dir/resume/badhelpername/helper.py. "
                 +:+ "Ensure the class is defined in the helper file and matches this naming convention. "
                 +:+ "Available attributes in module: ['BadNameResume']")).
Proof. repeat split; vm_compute; reflexivity. Qed.

Section Naming.

Lemma is_ascii_rev (s acc : string) :
  PyStr.is_ascii (PyStr.rev_str acc s) = PyStr.is_ascii s && PyStr.is_ascii acc.
Proof.
  revert acc. induction s as [|c s IH]; intros acc; [reflexivity |].
  cbn [PyStr.rev_str PyStr.is_ascii]. rewrite IH. cbn [PyStr.is_ascii].
  destruct (Nat.ltb _ 128), (PyStr.is_ascii s), (PyStr.is_ascii acc); reflexivity.
Qed.

(** The pieces of an ASCII text are ASCII. *)
Lemma is_ascii_split_go (sep : ascii) (s cur : string) :
  PyStr.is_ascii s = true -> PyStr.is_ascii cur = true ->
  Forall (fun piece => PyStr.is_ascii piece = true) (PyStr.split_go sep cur s).
Proof.
  revert cur. induction s as [|c s IH]; intros cur Hs Hcur.
  - cbn [PyStr.split_go]. constructor; [| constructor].
    rewrite is_ascii_rev, Hcur. reflexivity.
  - cbn [PyStr.is_ascii] in Hs. apply andb_true_iff in Hs as [Hc Hs].
    cbn [PyStr.split_go]. destruct (Ascii.eqb c sep).
    + constructor; [| now apply IH].
      rewrite is_ascii_rev, Hcur. reflexivity.
    + apply IH; [exact Hs |]. cbn [PyStr.is_ascii]. now rewrite Hc, Hcur.
Qed.

(** For ASCII names the expected class name is made with the ASCII
    case conversion. *)
Lemma expected_class_name_ascii (st : Store) (category template_name : string) :
  capitalize_on_ascii st ->
  PyStr.is_ascii category = true ->
  PyStr.is_ascii template_name = true ->
  TemplateManager.expected_class_name (str_capitalize st) category template_name
  = TemplateManager.expected_class_name PyStr.capitalize category template_name.
Proof.
  intros Hcap Hc Ht.
  unfold TemplateManager.expected_class_name, TemplateManager.category_camel_case.
  rewrite (Hcap _ Ht), (Hcap _ Hc).
  replace (map (str_capitalize st) (PyStr.split category "_"))
    with (map PyStr.capitalize (PyStr.split category "_")); [reflexivity |].
  apply map_ext_Forall.
  eapply Forall_impl; [apply is_ascii_split_go; [exact Hc | reflexivity] |].
  intros piece Hp. symmetry. apply Hcap, Hp.
Qed.

End Naming.

(** C4, as the code has it: for ASCII names, on which [capitalize]
    upper-cases the first letter and lower-cases the others, the class
    is looked up under the name made of the capitalized template name,
    the category with each of its underscore-separated parts
    capitalized, and the suffix "Helper". When the module has no
    attribute of that name, the error message ends with the list of the
    module's attributes that do not start with an underscore, and every
    such attribute is in that list. *)
Theorem C4_binding_by_helper_name
    (st : Store) (self : TemplateManager.t) (category template_name : string)
    (w w1 : World) (c : catalog) (names : list string) (module : pymodule) :
  capitalize_on_ascii st ->
  PyStr.is_ascii category = true ->
  PyStr.is_ascii template_name = true ->
  TemplateManager.get_available_templates st
    (TemplateManager.templates_dir self) None w
  = (Ok (TemplateManager.AllTemplates c), w1) ->
  Py.dict_get category c = Some names ->
  Py.list_contains template_name names = true ->
  import_module st (category +:+ "_" +:+ template_name)
    (TemplateManager.helper_path_of self category template_name) = Ok module ->
  let expected :=
    PyStr.capitalize template_name
    +:+ (if PyStr.str_contains "_" category
         then PyStr.join "" (map PyStr.capitalize (PyStr.split category "_"))
         else PyStr.capitalize category)
    +:+ "Helper" in
  TemplateManager.load_template st self category template_name w
  = (match Py.dict_get expected module with
     | Some cls => Ok cls
     | None =>
         Raise (ValueError
                  ("Helper class '" +:+ expected +:+ "' not found in module "
                   +:+ TemplateManager.helper_path_of self category template_name
                   +:+ ". "
                   +:+ "Ensure the class is defined in the helper file and matches this naming convention. "
                   +:+ "Available attributes in module: "
                   +:+ Py.repr (PList (map PStr
                                         (TemplateManager.module_attributes module)))))
     end, w1)
  /\ (forall n, In n (Py.dict_keys module) -> PyStr.startswith n "_" = false ->
        In n (TemplateManager.module_attributes module))
  /\ TemplateManager.expected_class_name PyStr.capitalize "cover_letter" "classic"
     = "ClassicCoverLetterHelper".
Proof.
  intros Hcap Hascii_c Hascii_t H Hcat Hin Hmod expected.
  rewrite (load_template_unfold st self category template_name w w1 c H).
  cbn [str_value str_written plain]. rewrite Hcat, Hin, Hmod. cbn [negb].
  rewrite (expected_class_name_ascii st _ _ Hcap Hascii_c Hascii_t).
  split; [| split].
  - reflexivity.
  - intros n. apply module_attributes_complete.
  - reflexivity.
Qed.

Lemma C4_witness :
  TemplateManager.load_template Fixtures.test_store Fixtures.test_manager
    "cover_letter" "clgood" Fixtures.empty_world
  = (Ok (Fixtures.writing_class "ClgoodCoverLetterHelper"),
     snd (TemplateManager.get_available_templates Fixtures.test_store
            "test_templates_dir" None Fixtures.empty_world)).
Proof.
  refine (proj1 (C4_binding_by_helper_name Fixtures.test_store
                   Fixtures.test_manager "cover_letter" "clgood"
                   Fixtures.empty_world _ Fixtures.test_catalog ["clgood"]
                   [("ClgoodCoverLetterHelper",
                     Fixtures.writing_class "ClgoodCoverLetterHelper")]
                   _ eq_refl eq_refl _ eq_refl eq_refl eq_refl)).
  - intros s _. reflexivity.
  - vm_compute. reflexivity.
Defined.

(** C4 as stated fails: a class named with the suffix "Renderer" is not
    bound. The name looked up ends in "Helper", and the names reported
    are the public ones. *)
Lemma C4_counterexample :
  fst (TemplateManager.load_template Fixtures.renderer_store
         Fixtures.renderer_manager "cover_letter" "classic" Fixtures.empty_world)
  = Raise (ValueError
             ("Helper class 'ClassicCoverLetterHelper' not found in module "
              +:+ "templates/cover_letter/classic/helper.py. "
              +:+ "Ensure the class is defined in the helper file and matches this naming convention. "
              +:+ "Available attributes in module: ['ClassicCoverLetterRenderer', 'os']")).
Proof. vm_compute. reflexivity. Qed.

(** ** PDF export *)

Section ExportFacts.

Lemma ensure_output_dir_ok (output_path : string) (w : World) :
  fst (ensure_output_dir output_path w) = Ok tt
  /\ next_tmp (snd (ensure_output_dir output_path w)) = next_tmp w
  /\ files (snd (ensure_output_dir output_path w)) = files w.
Proof.
  unfold ensure_output_dir.
  destruct (negb _ && negb _); cbn; auto.
Qed.

(** The export, step by step: prepare, run the passes, handle their
    outcome, and remove the scratch directory whatever happened. *)
Lemma export_unfold (shutil_bound : bool) (cc : Compiler)
    (latex output_path : string) (w : World) :
  export_to_pdf_body shutil_bound cc (Ok latex) output_path w
  = let tmpdir := export_tmpdir w in
    let '(raised, w1) :=
      two_passes cc (compile_cmd tmpdir) (export_start latex output_path w) in
    let '(r, w2) := after_passes shutil_bound output_path tmpdir raised w1 in
    (match r with Ok _ => Ok output_path | Raise e => Raise e end,
     OS.rmtree tmpdir w2).
Proof.
  unfold export_to_pdf_body, export_start, export_tmpdir.
  destruct (ensure_output_dir_ok output_path w) as (Hr & Hn & _).
  unfold bindM at 1. unfold liftM. unfold bindM at 1.
  destruct (ensure_output_dir output_path w) as [r0 w0]. cbn in Hr, Hn |- *.
  subst r0. rewrite <- Hn.
  unfold bindM, OS.TemporaryDirectory, finallyM, compile_in, bindM,
    OS.mkdtemp, OS.write_file, modifyM, retM. cbn.
  destruct (two_passes cc _ _) as [raised w1].
  destruct (after_passes shutil_bound output_path _ raised w1) as [[[]|e] w2];
    reflexivity.
Qed.




Lemma rmtree_keeps_absent (d p : string) (w : World) :
  files w !! p = None -> files (OS.rmtree d w) !! p = None.
Proof.
  intros H. unfold OS.rmtree. cbn.
  apply map_lookup_filter_None. left. exact H.
Qed.

End ExportFacts.




(** A non-zero exit, for comparison: the log is in the message. *)
Example export_nonzero_exit :
  fst (export_to_pdf_body true Fixtures.bad_compiler
         (Ok "\documentclass{article}") "/out/resume.pdf" Fixtures.empty_world)
  = Raise (RuntimeError
             ("PDF compilation failed with pdflatex." +:+ PyStr.nl
              +:+ "Command: pdflatex -interaction=nonstopmode -output-directory=/tmp/tmp0 /tmp/tmp0/resume.tex"
              +:+ PyStr.nl
              +:+ "Return Code: 1" +:+ PyStr.nl
              +:+ "Stdout: out" +:+ PyStr.nl
              +:+ "Stderr: err" +:+ PyStr.nl
              +:+ "LaTeX Log (if available from /tmp/tmp0/resume.log):" +:+ PyStr.nl
              +:+ "! Undefined control sequence.")).
Proof. vm_compute. reflexivity. Qed.

Example export_no_pdf :
  fst (export_to_pdf_body true Fixtures.silent_compiler
         (Ok "\documentclass{article}") "/out/resume.pdf" Fixtures.empty_world)
  = Raise (FileNotFoundError
             ("PDF output file not found at /tmp/tmp0/resume.pdf after compilation. "
              +:+ "Check LaTeX logs for errors. Log content (if available):"
              +:+ PyStr.nl +:+ "no pages of output")).
Proof. vm_compute. reflexivity. Qed.

(** Loaded by the template manager, the minimalist helper has no
    [shutil]: with the PDF compiled, the move raises. *)
Example minimalist_export_has_no_shutil :
  (match Fixtures.minimalist_of Fixtures.jane with
   | Ok self =>
       fst (Minimalist_export_to_pdf false Fixtures.good_compiler self
              "/out/resume.pdf" Fixtures.empty_world)
   | Raise e => Raise e
   end)
  = Raise (NameError "name 'shutil' is not defined").
Proof. vm_compute. reflexivity. Qed.

Example twocolumn_export_moves :
  (match Fixtures.twocolumn_of Fixtures.jane with
   | Ok self =>
       fst (Twocolumn_export_to_pdf false Fixtures.good_compiler self
              "/out/resume.pdf" Fixtures.empty_world)
   | Raise e => Raise e
   end)
  = Ok "/out/resume.pdf".
Proof. vm_compute. reflexivity. Qed.

(** ** The /generate pipeline *)

Section Pipeline.

Import TemplateManager App.

Lemma same_scratch_refl (w : World) : same_scratch w w.
Proof. unfold same_scratch. auto. Qed.

Lemma same_state_scratch (w w' : World) : same_state w w' -> same_scratch w w'.
Proof. unfold same_state, same_scratch. tauto. Qed.

(** Looking the catalog up, with or without a scan, ending well or not,
    leaves the scratch area as it was. *)
Lemma discover_scratch (st : Store) (dir : string) (w w' : World)
    (r : result catalog) :
  _discover_templates st dir w = (r, w') -> same_scratch w w'.
Proof.
  intros H. unfold _discover_templates in H.
  destruct (cached_templates w) as [c|].
  - injection H as _ <-. apply same_scratch_refl.
  - rewrite bind_logged_exists in H.
    destruct (negb (path_exists st dir)).
    + injection H as _ <-. apply same_state_scratch, same_state_event.
    + rewrite bind_logged_listdir in H.
      destruct (listdir st dir) as [cats | e].
      * unfold bindM at 1 in H.
        destruct (scan_categories st dir cats [] _) as [[found | e] w2] eqn:Hs;
          apply scan_categories_state in Hs as (_ & Hf & Hd & Hn & _);
          cbn in H; injection H as _ <-; unfold same_scratch; cbn; auto.
      * injection H as _ <-. unfold same_scratch. cbn. auto.
Qed.

Lemma get_scratch (st : Store) (dir : string) (category : option pystr)
    (w w' : World) (r : result templates) :
  get_available_templates st dir category w = (r, w') -> same_scratch w w'.
Proof.
  intros H. unfold get_available_templates, bindM in H.
  destruct (_discover_templates st dir w) as [[c | e] w1] eqn:Hd;
    apply discover_scratch in Hd.
  - destruct category as [cat|].
    + destruct (negb (String.eqb (str_value cat) "")).
      * destruct (Py.dict_get (str_value cat) c); injection H as _ <-; exact Hd.
      * injection H as _ <-. exact Hd.
    + injection H as _ <-. exact Hd.
  - injection H as _ <-. exact Hd.
Qed.

(** The first two statements of the outer [try]: either the catalog
    cannot be had, or the rest runs with it in a world whose scratch
    area is untouched. *)
Lemma body_cases (py : python) (st : Store) (sv : Docx.Saver) (request : DocumentRequest)
    (w : World) :
  (exists e w1,
      get_available_templates st "templates" None w = (Raise e, w1)
      /\ generate_document_body py st sv request w = (Raise e, w1)
      /\ same_scratch w w1)
  \/ (exists c w1,
         get_available_templates st "templates" None w = (Ok (AllTemplates c), w1)
         /\ generate_document_body py st sv request w
            = generate_with_catalog py st sv request (mk "templates" c) c w1
         /\ same_scratch w w1).
Proof.
  unfold generate_document_body, __init__.
  destruct (get_available_templates st "templates" None w) as [[r | e] w1] eqn:Hg.
  - right. destruct (get_fills_cache _ _ _ _ _ _ Hg) as (c & Hc & Ha).
    cbn in Ha. injection Ha as <-.
    exists c, w1. split; [reflexivity |]. split.
    + unfold bindM at 1. unfold bindM at 1. rewrite Hg. cbn [retM templates_dir].
      unfold bindM at 1. rewrite (get_cached st "templates" None w1 c Hc).
      reflexivity.
    + eapply get_scratch, Hg.
  - left. exists e, w1. split; [reflexivity |]. split.
    + unfold bindM. rewrite Hg. reflexivity.
    + eapply get_scratch, Hg.
Qed.

Lemma check_catalog_pure (py : python) (suffix : string) (request : DocumentRequest)
    (c : catalog) (w : World) :
  snd (check_catalog py suffix request c w) = w
  /\ (fst (check_catalog py suffix request c w) = Ok tt
      \/ exists detail,
           fst (check_catalog py suffix request c w)
           = Raise (HTTPException 404 detail)).
Proof.
  unfold check_catalog, type_not_supported, template_not_found.
  destruct (Py.dict_get _ c) as [names|]; cbn; [| eauto].
  destruct (negb _); cbn; eauto.
Qed.

Lemma check_catalog_passes (py : python) (suffix : string) (request : DocumentRequest)
    (c : catalog) (names : list string) (w : World) :
  Py.dict_get (value (document_type request)) c = Some names ->
  Py.list_contains (template request) names = true ->
  check_catalog py suffix request c w = (Ok tt, w).
Proof.
  intros H1 H2. unfold check_catalog. rewrite H1, H2. reflexivity.
Qed.

(** The handler of the inner [try] leaves no file at the scratch path. *)
Lemma cleanup_removes {A : Type} (label output_path : string) (e : exn)
    (w : World) :
  exists e' w',
    cleanup_and_raise (A := A) label output_path e w = (Raise e', w')
    /\ files w' !! output_path = None
    /\ (is_Some (files w !! output_path) ->
        e' = HTTPException 500 (label +:+ exn_str e)).
Proof.
  unfold cleanup_and_raise, bindM, OS.exists_, OS.remove, raiseM.
  destruct (files w !! output_path) as [content|] eqn:Hf.
  - rewrite bool_decide_eq_true_2 by eauto. cbn [orb].
    eexists _, _. split; [reflexivity |]. split; [| reflexivity].
    cbn. apply lookup_delete_eq.
  - rewrite bool_decide_eq_false_2 by (intros [x Hx]; discriminate Hx).
    cbn [orb].
    destruct (bool_decide (output_path ∈ dirs w));
      eexists _, _; (split; [reflexivity |]); (split; [exact Hf |]);
      intros [x Hx]; discriminate Hx.
Qed.

(** An inner [try] whose body raises ends with the handler's error and
    with no file at the scratch path. *)
Lemma guarded_render_raises (render : M unit) (label output_path : string)
    (w w2 : World) (e : exn) :
  render w = (Raise e, w2) ->
  exists e' w3,
    try_except render (cleanup_and_raise label output_path) w = (Raise e', w3)
    /\ files w3 !! output_path = None
    /\ (is_Some (files w2 !! output_path) ->
        e' = HTTPException 500 (label +:+ exn_str e)).
Proof.
  intros H. unfold try_except. rewrite H.
  apply (cleanup_removes (A := unit)).
Qed.

Lemma pdf_branch_raises (py : python) (st : Store) (tm : TemplateManager.t)
    (request : DocumentRequest) (c : catalog) (person_name : string)
    (w w' : World) (e : exn) :
  pdf_branch py st tm request c person_name w = (Raise e, w') ->
  files w !! OS.tmp_name (next_tmp w) ".pdf" = None ->
  files w' !! OS.tmp_name (next_tmp w) ".pdf" = None.
Proof.
  intros H Hfresh. unfold pdf_branch in H. unfold bindM at 1 in H.
  destruct (check_catalog_pure py " for PDF" request c w) as (Hw & _).
  destruct (check_catalog py " for PDF" request c w) as [[[]|e0] w0];
    cbn in Hw; subst w0.
  - unfold bindM at 1 in H. unfold OS.NamedTemporaryFile at 1 in H.
    set (p := OS.tmp_name (next_tmp w) ".pdf") in *.
    set (w1 := bump_tmp _) in H.
    unfold bindM at 1 in H.
    destruct (try_except (render_pdf py st tm request p) _ w1)
      as [[[]|e1] w2] eqn:Ht; [discriminate H |].
    injection H as _ <-.
    unfold try_except in Ht.
    destruct (render_pdf py st tm request p w1) as [[[]|e2] w3];
      [discriminate Ht |].
    destruct (cleanup_removes (A := unit) "PDF Generation Error: " p e2 w3)
      as (e' & w4 & Hc & Hnone & _).
    rewrite Hc in Ht. injection Ht as _ <-. exact Hnone.
  - injection H as _ <-. exact Hfresh.
Qed.

Lemma docx_branch_raises (sv : Docx.Saver) (request : DocumentRequest)
    (person_name : string) (w w' : World) (e : exn) :
  docx_branch sv request person_name w = (Raise e, w') ->
  files w !! OS.tmp_name (next_tmp w) ".docx" = None ->
  files w' !! OS.tmp_name (next_tmp w) ".docx" = None.
Proof.
  intros H Hfresh. unfold docx_branch in H.
  destruct (document_type request).
  - unfold bindM at 1 in H. unfold OS.NamedTemporaryFile at 1 in H.
    set (p := OS.tmp_name (next_tmp w) ".docx") in *.
    set (w1 := bump_tmp _) in H.
    unfold bindM at 1 in H.
    destruct (try_except (render_docx sv request p) _ w1)
      as [[[]|e1] w2] eqn:Ht; [discriminate H |].
    injection H as _ <-.
    unfold try_except in Ht.
    destruct (render_docx sv request p w1) as [[[]|e2] w3];
      [discriminate Ht |].
    destruct (cleanup_removes (A := unit) "DOCX Generation Error: " p e2 w3)
      as (e' & w4 & Hc & Hnone & _).
    rewrite Hc in Ht. injection Ht as _ <-. exact Hnone.
  - injection H as _ <-. exact Hfresh.
Qed.

Lemma to_http_is_http (e : exn) :
  exists code detail, to_http e = HTTPException code detail.
Proof. destruct e; cbn; eauto. Qed.

End Pipeline.

(** C6, as the code has it: a request for a cover letter in DOCX
    always ends in an HTTP error, and the scratch area is as it was: no
    file is created and no name is drawn from [tempfile]. Which error
    it is, is settled by the catalog lookup that comes first. When the
    catalog cannot be had, it is that failure, turned into an HTTP
    error. When the catalog has no entry "cover_letter", it is the 404
    for the document type; when the entry does not list the template,
    the 404 for the template. Only when the template is listed is it
    the 400 "only supported for resumes". *)
Theorem C6_cover_letter_docx_rejected
    (py : App.python) (st : Store) (sv : Docx.Saver)
    (request : App.DocumentRequest) (w : World) :
  App.document_type request = App.COVER_LETTER ->
  App.format request = App.DOCX ->
  let lookup := TemplateManager.get_available_templates st "templates" None w in
  App.generate_document py st sv request w
  = (Raise
       (match fst lookup with
        | Raise e => App.to_http e
        | Ok r =>
            let c := match r with
                     | TemplateManager.AllTemplates c => c
                     | TemplateManager.CategoryTemplates _ => []
                     end in
            match Py.dict_get "cover_letter" c with
            | None => App.type_not_supported py "" App.COVER_LETTER c
            | Some names =>
                if Py.list_contains (App.template request) names
                then HTTPException 400
                       "DOCX format is currently only supported for resumes."
                else App.template_not_found py (App.template request)
                       App.COVER_LETTER names
            end
        end),
     snd lookup)
  /\ same_scratch w (snd lookup)
  /\ exists code detail,
       fst (App.generate_document py st sv request w)
       = Raise (HTTPException code detail).
Proof.
  intros Hty Hfmt lookup.
  assert (App.generate_document py st sv request w
          = (Raise
               (match fst lookup with
                | Raise e => App.to_http e
                | Ok r =>
                    let c := match r with
                             | TemplateManager.AllTemplates c => c
                             | TemplateManager.CategoryTemplates _ => []
                             end in
                    match Py.dict_get "cover_letter" c with
                    | None => App.type_not_supported py "" App.COVER_LETTER c
                    | Some names =>
                        if Py.list_contains (App.template request) names
                        then HTTPException 400
                               "DOCX format is currently only supported for resumes."
                        else App.template_not_found py (App.template request)
                               App.COVER_LETTER names
                    end
                end),
             snd lookup)
          /\ same_scratch w (snd lookup)) as [Hrun Hs].
  { subst lookup. unfold App.generate_document, try_except.
    destruct (body_cases py st sv request w)
      as [(e & w1 & Hg & Hb & Hs) | (c & w1 & Hg & Hb & Hs)];
      rewrite Hb, Hg; cbn [fst snd]; (split; [| exact Hs]).
    - reflexivity.
    - unfold App.generate_with_catalog, App.check_catalog. rewrite Hty, Hfmt.
      cbn [App.value]. unfold bindM at 1.
      destruct (Py.dict_get "cover_letter" c) as [names|]; [| reflexivity].
      destruct (Py.list_contains (App.template request) names);
        cbn [negb]; [| reflexivity].
      unfold retM. unfold bindM at 1. unfold App.docx_branch. rewrite Hty.
      reflexivity. }
  split; [exact Hrun |]. split; [exact Hs |].
  rewrite Hrun. cbn [fst].
  destruct (fst lookup) as [r | e].
  - cbn zeta. destruct (Py.dict_get "cover_letter" _) as [names|].
    + destruct (Py.list_contains _ names); eexists _, _; reflexivity.
    + eexists _, _; reflexivity.
  - destruct (to_http_is_http e) as (code & detail & ->). eauto.
Qed.

Lemma C6_witness :
  App.generate_document App.Python311 Fixtures.letters_store Fixtures.good_saver
    Fixtures.cover_letter_docx Fixtures.empty_world
  = (Raise (HTTPException 400
              "DOCX format is currently only supported for resumes."),
     snd (TemplateManager.get_available_templates Fixtures.letters_store
            "templates" None Fixtures.empty_world))
  /\ files (snd (TemplateManager.get_available_templates Fixtures.letters_store
                   "templates" None Fixtures.empty_world))
     = files Fixtures.empty_world.
Proof.
  destruct (C6_cover_letter_docx_rejected App.Python311 Fixtures.letters_store
              Fixtures.good_saver Fixtures.cover_letter_docx Fixtures.empty_world
              eq_refl eq_refl)
    as (Hrun & (Hfiles & _ & _) & _).
  split; [| exact Hfiles].
  rewrite Hrun. vm_compute. reflexivity.
Defined.

(** C6 as stated fails: with the two resume templates of the
    repository as the only ones installed, the same request ends in the
    404 of the catalog check, not in the unsupported-combination
    error. *)
Lemma C6_counterexample :
  fst (App.generate_document App.Python311 Fixtures.app_store
         Fixtures.good_saver Fixtures.cover_letter_docx Fixtures.empty_world)
  = Raise (HTTPException 404
             "Document type 'DocumentType.COVER_LETTER' not supported. Available types: ['resume']")
  /\ fst (App.generate_document App.Python310 Fixtures.app_store
            Fixtures.good_saver Fixtures.cover_letter_docx Fixtures.empty_world)
     = Raise (HTTPException 404
                "Document type 'cover_letter' not supported. Available types: ['resume']").
Proof. split; vm_compute; reflexivity. Qed.

(** C7: when the renderer raises inside the inner [try], PDF or DOCX
    alike, the handler leaves no file at the scratch path and raises;
    if the file was still there it raises the 500 error that carries
    the renderer's message. For the pipeline as a whole: whenever the
    request ends in an error, that error is an HTTP error and no file
    is left at the path [tempfile] had to offer (which, as [tempfile]
    guarantees, named no file before). *)
Theorem C7_failed_render_leaves_no_scratch_file
    (py : App.python) (st : Store) (sv : Docx.Saver) (request : App.DocumentRequest)
    (w w' : World) (e : exn) :
  files w !! App.scratch_path request w = None ->
  App.generate_document py st sv request w = (Raise e, w') ->
  files w' !! App.scratch_path request w = None
  /\ (exists code detail, e = HTTPException code detail)
  /\ (forall tm output_path w1 w2 e1,
        App.render_pdf py st tm request output_path w1 = (Raise e1, w2) ->
        exists e' w3,
          try_except (App.render_pdf py st tm request output_path)
            (App.cleanup_and_raise "PDF Generation Error: " output_path) w1
          = (Raise e', w3)
          /\ files w3 !! output_path = None
          /\ (is_Some (files w2 !! output_path) ->
              e' = HTTPException 500 ("PDF Generation Error: " +:+ exn_str e1)))
  /\ (forall output_path w1 w2 e1,
        App.render_docx sv request output_path w1 = (Raise e1, w2) ->
        exists e' w3,
          try_except (App.render_docx sv request output_path)
            (App.cleanup_and_raise "DOCX Generation Error: " output_path) w1
          = (Raise e', w3)
          /\ files w3 !! output_path = None
          /\ (is_Some (files w2 !! output_path) ->
              e' = HTTPException 500 ("DOCX Generation Error: " +:+ exn_str e1))).
Proof.
  intros Hfresh H.
  split; [| split; [| split]].
  3: { intros tm p w1 w2 e1. apply guarded_render_raises. }
  3: { intros p w1 w2 e1. apply guarded_render_raises. }
  - unfold App.generate_document, try_except in H.
    destruct (body_cases py st sv request w)
      as [(e0 & w1 & _ & Hb & Hs) | (c & w1 & _ & Hb & Hs)]; rewrite Hb in H.
    + injection H as _ <-. destruct Hs as (Hf & _). now rewrite Hf.
    + destruct Hs as (Hf & _ & Hn).
      assert (files w1 !! App.scratch_path request w = None) as Hfresh1
        by now rewrite Hf.
      unfold App.scratch_path in *. rewrite <- Hn in *.
      unfold App.generate_with_catalog in H. unfold bindM at 1 in H.
      destruct (check_catalog_pure py "" request c w1) as (Hw & _).
      destruct (App.check_catalog py "" request c w1) as [[[]|e0] w0];
        cbn in Hw; subst w0.
      2: { injection H as _ <-. exact Hfresh1. }
      unfold bindM at 1 in H.
      destruct (App.format request).
      * destruct (App.pdf_branch py st _ request c _ w1) as [[out|e1] w2] eqn:Hp.
        -- destruct out as [[p n] m]. discriminate H.
        -- injection H as _ <-.
           eapply pdf_branch_raises; [exact Hp | exact Hfresh1].
      * destruct (App.docx_branch sv request _ w1) as [[out|e1] w2] eqn:Hp.
        -- destruct out as [[p n] m]. discriminate H.
        -- injection H as _ <-.
           eapply docx_branch_raises; [exact Hp | exact Hfresh1].
  - unfold App.generate_document, try_except in H.
    destruct (App.generate_document_body py st sv request w) as [[r|e0] w1];
      [discriminate H |].
    injection H as <- _. apply to_http_is_http.
Qed.

Lemma C7_witness :
  files Fixtures.empty_world
    !! App.scratch_path Fixtures.broken_pdf Fixtures.empty_world = None
  /\ fst (App.generate_document App.Python311 Fixtures.app_store Fixtures.good_saver
            Fixtures.broken_pdf Fixtures.empty_world)
     = Raise (HTTPException 500 "PDF Generation Error: boom")
  /\ files (snd (App.generate_document App.Python311 Fixtures.app_store Fixtures.good_saver
                   Fixtures.broken_pdf Fixtures.empty_world))
       !! App.scratch_path Fixtures.broken_pdf Fixtures.empty_world = None.
Proof.
  split; [reflexivity |]. split; [vm_compute; reflexivity |].
  refine (proj1 (C7_failed_render_leaves_no_scratch_file App.Python311 Fixtures.app_store
                   Fixtures.good_saver Fixtures.broken_pdf Fixtures.empty_world _
                   (HTTPException 500 "PDF Generation Error: boom")
                   eq_refl _)).
  vm_compute. reflexivity.
Defined.

(** The scratch file was there, half written, when the renderer raised. *)
Example broken_render_leaves_partial_file :
  let alloc := OS.NamedTemporaryFile ".pdf" Fixtures.empty_world in
  fst alloc = Ok "/tmp/tmp0.pdf"
  /\ (let out :=
        App.render_pdf App.Python311 Fixtures.app_store
          (TemplateManager.mk "templates" [("resume", ["minimalist"; "twocolumn"; "broken"])])
          Fixtures.broken_pdf "/tmp/tmp0.pdf" (snd alloc) in
      fst out = Raise (RuntimeError "boom")
      /\ files (snd out) !! "/tmp/tmp0.pdf" = Some "%PDF-partial").
Proof. repeat split; vm_compute; reflexivity. Qed.

Example failing_save_is_cleaned_up :
  let out := App.generate_document App.Python311 Fixtures.app_store Fixtures.failing_saver
               Fixtures.resume_docx Fixtures.empty_world in
  fst out
  = Raise (HTTPException 500
             "DOCX Generation Error: Error saving DOCX document to /tmp/tmp0.docx: Simulated save error")
  /\ files (snd out) !! "/tmp/tmp0.docx" = None.
Proof. split; vm_compute; reflexivity. Qed.

(** * Further properties of the code *)

(** ** Escaper *)

Section EscaperMore.

Import Escaper.

(** Induction on data trees, with the hypothesis for every item of a
    list and every value of a dictionary. *)
Lemma pyval_induction (P : pyval -> Prop) :
  P PNone -> (forall b, P (PBool b)) -> (forall z, P (PInt z)) ->
  (forall s, P (PStr s)) ->
  (forall l, Forall P l -> P (PList l)) ->
  (forall d, Forall (fun kv => P (snd kv)) d -> P (PDict d)) ->
  forall v, P v.
Proof.
  intros HN HB HI HS HL HD. fix IH 1. intros [ | b | z | s | l | d].
  - exact HN.
  - apply HB.
  - apply HI.
  - apply HS.
  - apply HL. induction l as [|x l IHl]; constructor; [apply IH | exact IHl].
  - apply HD. induction d as [|[k x] d IHd]; constructor; [apply IH | exact IHd].
Qed.

Lemma has_char_before_backslash (s : string) :
  contains_before_backslash s = true
  <-> exists c, In c ["&"; "%"; "$"; "#"; "_"; "{"; "}"; "~"; "^"]%char
                /\ PyStr.has_char c s = true.
Proof.
  induction s as [|a s IH].
  - split; [discriminate |]. intros (c & _ & H). discriminate H.
  - cbn [contains_before_backslash PyStr.has_char]. rewrite orb_true_iff, IH.
    split.
    + intros [H | (c & Hin & Hc)].
      * unfold before_backslash in H.
        apply existsb_exists in H as (c & Hin & Heq).
        exists c. split; [exact Hin |].
        rewrite Ascii.eqb_sym, Heq. reflexivity.
      * exists c. split; [exact Hin |]. rewrite Hc. apply orb_true_r.
    + intros (c & Hin & Hc). apply orb_true_iff in Hc as [Hc | Hc].
      * left. apply existsb_exists. exists c. split; [exact Hin |].
        now rewrite Ascii.eqb_sym.
      * right. eauto.
Qed.

Lemma escape_str_plain (s : string) :
  contains_special s = false -> escape_str s = s.
Proof.
  induction s as [|a s IH]; [reflexivity |].
  cbn [contains_special]. intros H. apply orb_false_iff in H as [Ha Hs].
  rewrite escape_str_cons, (escape_str_plain_char a Ha), (IH Hs). reflexivity.
Qed.

End EscaperMore.

(** X1: the text the escaper returns holds a raw special character
    exactly when the text it was given holds one of the nine characters
    & % $ # _ { } ~ ^ ; a text whose only special characters are
    backslash and angle brackets comes out clean. *)
Theorem X1_escaper_raw_exactly_for_nine (s : string) :
  Escaper.has_raw_special (Escaper.escape_str s) = true
  <-> exists c, In c ["&"; "%"; "$"; "#"; "_"; "{"; "}"; "~"; "^"]%char
                /\ PyStr.has_char c s = true.
Proof. rewrite escape_str_raw_iff. apply has_char_before_backslash. Qed.

(** X2: a tree none of whose string leaves has a special character is
    returned as it is by the recursive escaper. *)
Theorem X2_escaper_keeps_plain_tree (v : pyval) :
  plain_tree v -> Escaper._escape_latex_special_chars_recursive v = v.
Proof.
  induction v as [ | b | z | s | l IH | d IH] using pyval_induction;
    intros Hp; try reflexivity.
  - inversion Hp as [ | | | s' Hs | | ]; subst.
    rewrite escape_recursive_str, (escape_str_plain s Hs). reflexivity.
  - inversion Hp as [ | | | | l' Hl | ]; subst. clear Hp.
    rewrite escape_recursive_list. f_equal.
    induction l as [|x l IHl]; [reflexivity |].
    apply Forall_cons_iff in IH as [Hx IH].
    apply Forall_cons_iff in Hl as [Px Hl].
    cbn [map]. rewrite (Hx Px), (IHl IH Hl). reflexivity.
  - inversion Hp as [ | | | | | d' Hd]; subst. clear Hp.
    rewrite escape_recursive_dict. f_equal.
    induction d as [|[k x] d IHd]; [reflexivity |].
    apply Forall_cons_iff in IH as [Hx IH].
    apply Forall_cons_iff in Hd as [Px Hd].
    cbn [map fst snd] in *. rewrite (Hx Px), (IHd IH Hd). reflexivity.
Qed.

Lemma X2_witness :
  Escaper._escape_latex_special_chars_recursive
    (PDict [("name", PStr "Jane Roe"); ("tags", PList [PStr "a"; PInt 3; PNone])])
  = PDict [("name", PStr "Jane Roe"); ("tags", PList [PStr "a"; PInt 3; PNone])].
Proof.
  apply X2_escaper_keeps_plain_tree.
  repeat (constructor; cbn [snd]); reflexivity.
Defined.

(** X3: the escaper works piece by piece: escaping a concatenation
    gives the concatenation of the escaped pieces. *)
Theorem X3_escaper_distributes_over_append (a b : string) :
  Escaper.escape_str (a +:+ b)
  = Escaper.escape_str a +:+ Escaper.escape_str b.
Proof. apply (escape_loop_app Escaper.chars chars_one_char_keys). Qed.

(** X4: the recursive escaper keeps the shape of the tree: lists keep
    their length and order, dictionaries their keys (which are not
    escaped) and order, and every leaf that is not a string is
    unchanged. *)
Theorem X4_escaper_keeps_shape (v : pyval) :
  same_shape v (Escaper._escape_latex_special_chars_recursive v).
Proof.
  induction v as [ | b | z | s | l IH | d IH] using pyval_induction.
  - constructor.
  - constructor.
  - constructor.
  - rewrite escape_recursive_str. constructor.
  - rewrite escape_recursive_list. constructor.
    induction IH as [|x l Hx _ IHl]; constructor; assumption.
  - rewrite escape_recursive_dict. constructor.
    induction IH as [|[k x] d Hx _ IHd]; constructor; [split |]; auto.
Qed.

(** ** The LaTeX renderers *)

Section RendererMore.

Import Escaper.



(** A text in which [old] does not occur is left as it is by
    [replace]. *)
Lemma replace_go_absent (old new s : string) :
  PyStr.str_contains old s = false -> PyStr.replace_go old new 0 s = s.
Proof.
  induction s as [|c s IH]; [reflexivity |].
  cbn [PyStr.str_contains PyStr.replace_go].
  destruct (PyStr.startswith (String c s) old); [discriminate |].
  intros H. now rewrite (IH H).
Qed.

Lemma replace_absent (s old new : string) :
  old <> "" -> PyStr.str_contains old s = false -> PyStr.replace s old new = s.
Proof.
  intros Hne H. unfold PyStr.replace.
  destruct old as [|c old]; [contradiction |].
  now apply replace_go_absent.
Qed.

End RendererMore.

Section SectionsMore.

Import Escaper.





Lemma dict_get_remove (k k' : string) (d : list (string * pyval)) :
  Py.dict_get k' (dict_remove k d)
  = if String.eqb k' k then None else Py.dict_get k' d.
Proof.
  induction d as [|[k0 v] d IH].
  - cbn. now destruct (String.eqb k' k).
  - unfold dict_remove in *. cbn [List.filter fst].
    destruct (String.eqb k0 k) eqn:E0; cbn [negb].
    + apply String.eqb_eq in E0. subst k0. cbn [Py.dict_get].
      destruct (String.eqb k' k); [exact IH | exact IH].
    + cbn [Py.dict_get]. destruct (String.eqb k' k0) eqn:E1; [| exact IH].
      apply String.eqb_eq in E1. subst k0. now rewrite E0.
Qed.

(** What is read under a key whose value is false as a condition is
    false as a condition, and so is what is read when the key is
    gone, if the default is. *)
Lemma get_falsy (k : string) (d : list (string * pyval)) (default : pyval) :
  falsy_at k d -> Py.truthy default = false ->
  Py.truthy (match Py.dict_get k d with Some x => x | None => default end)
  = false.
Proof.
  intros Hf Hd. destruct (Py.dict_get k d) as [v|] eqn:E; [apply Hf, E | exact Hd].
Qed.

End SectionsMore.

(** Rewrites the test of a value read under a key that [H] says is
    missing or empty. *)
Ltac falsy_section H :=
  match goal with
  | |- context [Py.truthy (match Py.dict_get ?k ?d with
                           | Some x => x
                           | None => ?dflt
                           end)] =>
      rewrite (get_falsy k d dflt H eq_refl)
  end.



(** X6: a section whose value is missing or empty gives no text at
    all, not even its heading, whatever the other sections hold. In the
    minimalist renderer each of the summary, experience, education,
    skills and projects sections is the empty string as soon as its own
    value is missing or empty. In the twocolumn renderer a column is
    what it is without that key, and the right column is empty when its
    three sections are. *)
Theorem X6_empty_sections_give_no_text (self : helper) (d : list (string * pyval)) :
  data self = PDict d ->
  (falsy_at "professional_summary" d -> Minimalist._generate_summary self = Ok "")
  /\ (falsy_at "experience" d ->
      Minimalist._generate_experience_section self = Ok "")
  /\ (falsy_at "education" d ->
      Minimalist._generate_education_section self = Ok "")
  /\ (falsy_at "technologies_and_skills" d ->
      Minimalist._generate_skills_section self = Ok "")
  /\ (falsy_at "projects" d ->
      Minimalist._generate_projects_section self = Ok "")
  /\ (forall k, In k ["professional_summary"; "experience"; "projects"] ->
        falsy_at k d ->
        Twocolumn._generate_right_column_content self
        = Twocolumn._generate_right_column_content
            (with_data self (PDict (dict_remove k d))))
  /\ (forall k, In k ["technologies_and_skills"; "education"] ->
        falsy_at k d ->
        Twocolumn._generate_left_column_content self
        = Twocolumn._generate_left_column_content
            (with_data self (PDict (dict_remove k d))))
  /\ (falsy_at "professional_summary" d -> falsy_at "experience" d ->
      falsy_at "projects" d ->
      Twocolumn._generate_right_column_content self = Ok "").
Proof.
  intros Hd.
  unfold Minimalist._generate_summary, Minimalist._generate_experience_section,
    Minimalist._generate_education_section, Minimalist._generate_skills_section,
    Minimalist._generate_projects_section,
    Twocolumn._generate_right_column_content,
    Twocolumn._generate_left_column_content, with_data.
  cbn [data]. rewrite Hd. cbn [Py.get mbind result_bind].
  repeat split.
  - intros H. falsy_section H. reflexivity.
  - intros H. falsy_section H. reflexivity.
  - intros H. falsy_section H. reflexivity.
  - intros H. falsy_section H. reflexivity.
  - intros H. falsy_section H. reflexivity.
  - intros k Hin H. cbn [In] in Hin.
    destruct Hin as [<- | [<- | [<- | []]]];
      rewrite !dict_get_remove; cbn [String.eqb Ascii.eqb Bool.eqb];
      falsy_section H; reflexivity.
  - intros k Hin H. cbn [In] in Hin.
    destruct Hin as [<- | [<- | []]];
      rewrite !dict_get_remove; cbn [String.eqb Ascii.eqb Bool.eqb];
      falsy_section H; reflexivity.
  - intros H1 H2 H3. falsy_section H1. falsy_section H2. falsy_section H3.
    reflexivity.
Qed.

Lemma X6_witness :
  Minimalist._generate_experience_section
    (mk_helper (PDict [("personalInfo", PDict [("name", PStr "Jane Roe")]);
                       ("professional_summary", PStr "Engineer.");
                       ("experience", PList [])])
       "template.tex" Fixtures.skeleton)
  = Ok "".
Proof.
  refine (proj1 (proj2 (X6_empty_sections_give_no_text
                          (mk_helper
                             (PDict [("personalInfo", PDict [("name", PStr "Jane Roe")]);
                                     ("professional_summary", PStr "Engineer.");
                                     ("experience", PList [])])
                             "template.tex" Fixtures.skeleton)
                          [("personalInfo", PDict [("name", PStr "Jane Roe")]);
                           ("professional_summary", PStr "Engineer.");
                           ("experience", PList [])]
                          eq_refl)) _).
  intros v Hv. vm_compute in Hv. injection Hv as <-. reflexivity.
Defined.

(** X7: placeholder substitution is plain text replacement, and a
    token that does not occur in the skeleton is no error: when none of
    the tokens occurs, the skeleton is returned as it is. *)
Theorem X7_unmatched_placeholders_leave_skeleton
    (template : string) (replacements : list (string * string)) :
  Forall (fun pc => fst pc <> ""
                    /\ PyStr.str_contains (fst pc) template = false)
         replacements ->
  populate template replacements = template.
Proof.
  unfold populate. induction 1 as [|[token content] rest [Hne Habs] _ IH];
    [reflexivity |].
  cbn [fold_left fst snd] in *. rewrite (replace_absent _ _ _ Hne Habs).
  exact IH.
Qed.

Lemma X7_witness :
  populate "\documentclass{article}\begin{document}\end{document}"
    [("\newcommand{\nameplaceholder}{}", "\nameheader{Jane}");
     ("\newcommand{\leftcolumncontent}{}", "")]
  = "\documentclass{article}\begin{document}\end{document}".
Proof.
  apply X7_unmatched_placeholders_leave_skeleton.
  repeat (constructor; [split; [discriminate | reflexivity] |]).
  constructor.
Defined.

(** X8: constructing a helper from a dictionary succeeds exactly when
    the skeleton can be read and the dictionary has the key
    "personalInfo"; the helper then holds the escaped tree. When the
    skeleton cannot be read, the error is the IO error, whether the key
    is there or not. *)
Theorem X8_helper_construction
    (tpath : string) (template_file : result string) (d : list (string * pyval)) :
  (forall self,
      helper_init tpath template_file (PDict d) = Ok self
      <-> template_file = Ok (latex_template_string self)
          /\ Py.dict_contains "personalInfo" d = true
          /\ self = mk_helper
                      (Escaper._escape_latex_special_chars_recursive (PDict d))
                      tpath (latex_template_string self))
  /\ (forall e,
        template_file = Raise e ->
        helper_init tpath template_file (PDict d)
        = Raise (OSError ("Error reading template file " +:+ tpath +:+ ": "
                          +:+ exn_str e)))
  /\ (forall tpl,
        template_file = Ok tpl ->
        Py.dict_contains "personalInfo" d = false ->
        helper_init tpath template_file (PDict d)
        = Raise (ValueError "Missing required section: personalInfo")).
Proof.
  assert (Py.dict_contains "personalInfo"
            (map (fun kv => (fst kv,
                             Escaper._escape_latex_special_chars_recursive (snd kv))) d)
          = Py.dict_contains "personalInfo" d) as Hkey.
  { unfold Py.dict_contains. rewrite dict_get_escaped.
    destruct (Py.dict_get "personalInfo" d); reflexivity. }
  unfold helper_init. rewrite escape_recursive_dict.
  cbn [Py.contains_key mbind result_bind]. rewrite Hkey.
  split; [| split].
  - intros self. destruct template_file as [tpl | e].
    + destruct (Py.dict_contains "personalInfo" d); cbn [negb].
      * split.
        -- intros [= <-]. cbn. auto.
        -- intros ([= <-] & _ & ->). reflexivity.
      * split; [discriminate |]. intros (_ & H & _). discriminate H.
    + split; [discriminate |]. intros (H & _). discriminate H.
  - intros e ->. reflexivity.
  - intros tpl -> ->. reflexivity.
Qed.

Lemma X8_witness :
  helper_init "template.tex" (Raise (FileNotFoundError "no such file"))
    (PDict [("summary", PStr "x")])
  = Raise (OSError "Error reading template file template.tex: no such file")
  /\ helper_init "template.tex" (Ok "skeleton") (PDict [("summary", PStr "x")])
     = Raise (ValueError "Missing required section: personalInfo").
Proof.
  split.
  - exact (proj1 (proj2 (X8_helper_construction "template.tex"
                           (Raise (FileNotFoundError "no such file"))
                           [("summary", PStr "x")]))
             (FileNotFoundError "no such file") eq_refl).
  - exact (proj2 (proj2 (X8_helper_construction "template.tex" (Ok "skeleton")
                           [("summary", PStr "x")]))
             "skeleton" eq_refl eq_refl).
Defined.

(** ** PDF export *)

(** X9: however the export ends, with whatever compiler, nothing is
    left in its scratch directory: no file under it remains and the
    directory itself is gone. *)
Theorem X9_export_leaves_no_scratch
    (shutil_bound : bool) (cc : Compiler) (latex output_path : string)
    (w : World) (p : string) :
  OS.under (export_tmpdir w) p = true ->
  files (snd (export_to_pdf_body shutil_bound cc (Ok latex) output_path w)) !! p
  = None
  /\ export_tmpdir w
     ∉ dirs (snd (export_to_pdf_body shutil_bound cc (Ok latex) output_path w)).
Proof.
  intros Hu. rewrite export_unfold. cbv zeta.
  destruct (two_passes cc _ _) as [raised w1].
  destruct (after_passes shutil_bound output_path _ raised w1) as [r w2].
  cbn [snd]. unfold OS.rmtree. cbn [files dirs set_dirs set_files]. split.
  - apply map_lookup_filter_None. right. intros x _ Hkeep.
    cbn [fst] in Hkeep. congruence.
  - intros Hin. apply elem_of_filter in Hin as [[Hne _] _]. congruence.
Qed.

Lemma X9_witness :
  files (snd (export_to_pdf_body true Fixtures.bad_compiler
                (Ok "\documentclass{article}") "/out/resume.pdf"
                Fixtures.empty_world)) !! "/tmp/tmp0/resume.log"
  = None.
Proof.
  refine (proj1 (X9_export_leaves_no_scratch true Fixtures.bad_compiler
                   "\documentclass{article}" "/out/resume.pdf"
                   Fixtures.empty_world "/tmp/tmp0/resume.log" _)).
  vm_compute. reflexivity.
Defined.

(** X10: when the first compiler pass exits with a non-zero code or
    times out, the second pass is not run: the error is the first
    pass's and the files are those the first pass left. *)
Theorem X10_second_pass_only_after_first
    (cc : Compiler) (cmd : list string) (w : World) :
  (forall rc out err,
      fst (cc cmd (files w)) = Exited rc out err -> rc <> 0%Z ->
      two_passes cc cmd w
      = (Some (CalledProcessError cmd rc out err),
         set_files (snd (cc cmd (files w))) w))
  /\ (fst (cc cmd (files w)) = TimedOut ->
      two_passes cc cmd w
      = (Some (TimeoutExpired cmd 30), set_files (snd (cc cmd (files w))) w))
  /\ (forall out err,
        fst (cc cmd (files w)) = Exited 0 out err ->
        two_passes cc cmd w
        = subprocess_run cc cmd 30 (set_files (snd (cc cmd (files w))) w)).
Proof.
  unfold two_passes, subprocess_run.
  destruct (cc cmd (files w)) as [st fs1]. cbn [fst snd].
  split; [| split].
  - intros rc out err -> Hrc.
    destruct (Z.eqb rc 0) eqn:E; [apply Z.eqb_eq in E; contradiction |].
    reflexivity.
  - intros ->. reflexivity.
  - intros out err ->. reflexivity.
Qed.

Lemma X10_witness :
  two_passes Fixtures.bad_compiler ["pdflatex"; "-i"; "-o"; "/tmp/t/resume.tex"]
    Fixtures.empty_world
  = (Some (CalledProcessError ["pdflatex"; "-i"; "-o"; "/tmp/t/resume.tex"]
             1 "out" "err"),
     set_files
       (snd (Fixtures.bad_compiler ["pdflatex"; "-i"; "-o"; "/tmp/t/resume.tex"]
               (files Fixtures.empty_world)))
       Fixtures.empty_world).
Proof.
  apply (proj1 (X10_second_pass_only_after_first Fixtures.bad_compiler
                  ["pdflatex"; "-i"; "-o"; "/tmp/t/resume.tex"]
                  Fixtures.empty_world) 1%Z "out" "err");
    [reflexivity | discriminate].
Defined.

(** ** Template manager *)

Section DiscoveryMore.

Import TemplateManager.

Lemma dict_get_set {V : Type} (k k' : string) (v : V) (d : list (string * V)) :
  Py.dict_get k (Py.dict_set k' v d)
  = if String.eqb k k' then Some v else Py.dict_get k d.
Proof.
  induction d as [|[k0 v0] d IH]; cbn [Py.dict_set Py.dict_get].
  - reflexivity.
  - destruct (String.eqb k' k0) eqn:E0; cbn [Py.dict_get].
    + apply String.eqb_eq in E0. subst k0.
      destruct (String.eqb k k'); reflexivity.
    + destruct (String.eqb k k0) eqn:E1.
      * apply String.eqb_eq in E1. subst k0.
        rewrite String.eqb_sym, E0. reflexivity.
      * exact IH.
Qed.

Lemma sound_empty (st : Store) (dir : string) : sound_catalog st dir [].
Proof. intros category names H. discriminate H. Qed.

Lemma sound_set_empty (st : Store) (dir category : string) (c : catalog) :
  sound_catalog st dir c ->
  PyStr.startswith category "__" = false ->
  path_isdir st (OS.path_join dir category) = true ->
  sound_catalog st dir (Py.dict_set category [] c).
Proof.
  intros Hs H1 H2 k names Hk. rewrite dict_get_set in Hk.
  destruct (String.eqb k category) eqn:E.
  - apply String.eqb_eq in E. subst k. injection Hk as <-.
    split; [assumption |]. split; [assumption |]. intros n [].
  - now apply Hs.
Qed.

Lemma sound_append (st : Store) (dir category name : string) (c : catalog) :
  sound_catalog st dir c ->
  qualifies st (OS.path_join dir category) name ->
  sound_catalog st dir (dict_append category name c).
Proof.
  intros Hs Hq k names Hk. unfold dict_append in Hk.
  destruct (Py.dict_get category c) as [old|] eqn:Hc; [| now apply Hs].
  rewrite dict_get_set in Hk.
  destruct (String.eqb k category) eqn:E; [| now apply Hs].
  apply String.eqb_eq in E. subst k. injection Hk as <-.
  destruct (Hs category old Hc) as (H1 & H2 & H3).
  split; [assumption |]. split; [assumption |].
  intros n Hin. apply in_app_or in Hin as [Hin | [<- | []]]; auto.
Qed.

Lemma scan_templates_sound (st : Store) (dir category : string)
    (names : list string) :
  forall acc w r w',
    scan_templates st category (OS.path_join dir category) names acc w
    = (Ok r, w') ->
    sound_catalog st dir acc -> sound_catalog st dir r.
Proof.
  induction names as [|n names IH]; intros acc w r w' H Hs.
  - injection H as <- _. exact Hs.
  - cbn [scan_templates] in H. rewrite bind_logged_isdir in H.
    destruct (path_isdir st _) eqn:Hdir; cbn [negb orb] in H;
      [| eapply IH; eassumption].
    destruct (PyStr.startswith n "__") eqn:Hres; [eapply IH; eassumption |].
    rewrite bind_logged_listdir in H.
    destruct (listdir st _) as [entries | e] eqn:Hls; [| discriminate H].
    rewrite bind_logged_exists in H.
    destruct (path_exists st _) eqn:Hhelper; cbn [andb] in H;
      [| eapply IH; eassumption].
    destruct (filter _ entries) as [|f fs] eqn:Htex;
      [eapply IH; eassumption |].
    eapply IH; [exact H |].
    apply sound_append; [exact Hs |].
    unfold qualifies. repeat split; try assumption.
    exists entries, f. split; [exact Hls |].
    assert (f ∈ filter (fun f => PyStr.endswith f ".tex" = true) entries) as Hf
      by (rewrite Htex; left).
    apply list_elem_of_filter in Hf as [Hend Hin].
    split; [now apply list_elem_of_In | exact Hend].
Qed.

Lemma scan_categories_sound (st : Store) (dir : string) (cats : list string) :
  forall acc w r w',
    scan_categories st dir cats acc w = (Ok r, w') ->
    sound_catalog st dir acc -> sound_catalog st dir r.
Proof.
  induction cats as [|cat cats IH]; intros acc w r w' H Hs.
  - injection H as <- _. exact Hs.
  - cbn [scan_categories] in H. rewrite bind_logged_isdir in H.
    destruct (path_isdir st _) eqn:Hdir; cbn [negb orb] in H;
      [| eapply IH; eassumption].
    destruct (PyStr.startswith cat "__") eqn:Hres; [eapply IH; eassumption |].
    rewrite bind_logged_listdir in H.
    destruct (listdir st _) as [names | e]; [| discriminate H].
    unfold bindM at 1 in H.
    destruct (scan_templates _ _ _ _ _ _) as [[acc2 | e] w3] eqn:Hst;
      [| discriminate H].
    eapply IH; [exact H |].
    eapply scan_templates_sound; [exact Hst |].
    now apply sound_set_empty.
Qed.

End DiscoveryMore.

(** X11: every name a scan puts in the catalog qualifies: each
    category is a directory of the templates directory whose name does
    not start with two underscores, and each template listed under it
    is such a directory too, has a helper.py and has at least one file
    ending in .tex. A directory that lacks its helper or its skeleton
    is never listed. *)
Theorem X11_discovered_templates_qualify
    (st : Store) (dir : string) (w w1 : World) (c : catalog) :
  cached_templates w = None ->
  TemplateManager._discover_templates st dir w = (Ok c, w1) ->
  sound_catalog st dir c.
Proof.
  intros Hc H. unfold TemplateManager._discover_templates in H. rewrite Hc in H.
  rewrite bind_logged_exists in H.
  destruct (negb (path_exists st dir)); [discriminate H |].
  rewrite bind_logged_listdir in H.
  destruct (listdir st dir) as [cats | e]; [| discriminate H].
  unfold bindM at 1 in H.
  destruct (TemplateManager.scan_categories st dir cats [] _)
    as [[found | e] w2] eqn:Hs; [| discriminate H].
  cbn in H. injection H as <- _.
  eapply scan_categories_sound; [exact Hs | apply sound_empty].
Qed.

Lemma X11_witness :
  TemplateManager._discover_templates Fixtures.test_store "test_templates_dir"
    Fixtures.empty_world
  = (Ok Fixtures.test_catalog,
     snd (TemplateManager._discover_templates Fixtures.test_store
            "test_templates_dir" Fixtures.empty_world))
  /\ qualifies Fixtures.test_store
       (OS.path_join "test_templates_dir" "resume") "goodone".
Proof.
  assert (TemplateManager._discover_templates Fixtures.test_store
            "test_templates_dir" Fixtures.empty_world
          = (Ok Fixtures.test_catalog,
             snd (TemplateManager._discover_templates Fixtures.test_store
                    "test_templates_dir" Fixtures.empty_world))) as H
    by (vm_compute; reflexivity).
  split; [exact H |].
  destruct (X11_discovered_templates_qualify Fixtures.test_store
              "test_templates_dir" Fixtures.empty_world _ Fixtures.test_catalog
              eq_refl H "resume" ["goodone"; "badhelpername"] eq_refl)
    as (_ & _ & Hq).
  apply Hq. cbn. tauto.
Defined.

(** X12: a scan that fails leaves the cache empty, so the next call
    scans again; in particular, while the templates directory does not
    exist every call raises the file-not-found error after checking the
    directory and nothing else. *)
Theorem X12_failed_scan_leaves_cache_empty
    (st : Store) (dir : string) (w w1 : World) (e : exn) :
  cached_templates w = None ->
  TemplateManager._discover_templates st dir w = (Raise e, w1) ->
  cached_templates w1 = None
  /\ (path_exists st dir = false ->
      e = FileNotFoundError ("Templates directory not found: " +:+ dir)
      /\ w1 = log_event (EvExists dir) w).
Proof.
  intros Hc H. unfold TemplateManager._discover_templates in H. rewrite Hc in H.
  rewrite bind_logged_exists in H.
  destruct (path_exists st dir) eqn:Hex; cbn [negb] in H.
  - split; [| discriminate].
    rewrite bind_logged_listdir in H.
    destruct (listdir st dir) as [cats | e0].
    + unfold bindM at 1 in H.
      destruct (TemplateManager.scan_categories st dir cats [] _)
        as [[found | e1] w2] eqn:Hs; [discriminate H |].
      injection H as _ <-.
      apply scan_categories_state in Hs as (Hcache & _). rewrite Hcache.
      exact Hc.
    + injection H as _ <-. exact Hc.
  - injection H as <- <-. split; [exact Hc |]. intros _. split; reflexivity.
Qed.

Lemma X12_witness :
  cached_templates
    (snd (TemplateManager._discover_templates Fixtures.test_store "no/such/dir"
            Fixtures.empty_world)) = None.
Proof.
  refine (proj1 (X12_failed_scan_leaves_cache_empty Fixtures.test_store
                   "no/such/dir" Fixtures.empty_world _
                   (FileNotFoundError "Templates directory not found: no/such/dir")
                   eq_refl _)).
  vm_compute. reflexivity.
Defined.

(** X13: [generate_pdf] validates before it does anything else. For a
    category that is not in the catalog, or a template name that is not
    in the category's entry, it raises the matching value error and the
    scratch area is as it was. *)
Theorem X13_generate_pdf_validates_first
    (st : Store) (self : TemplateManager.t) (category template_name : string)
    (data : pyval) (output_path : option string) (w w1 : World) (c : catalog) :
  TemplateManager.get_available_templates st
    (TemplateManager.templates_dir self) None w
  = (Ok (TemplateManager.AllTemplates c), w1) ->
  (Py.dict_get category c = None ->
   TemplateManager.generate_pdf st self category template_name data output_path w
   = (Raise (ValueError ("Category not found: " +:+ category)), w1))
  /\ (forall names,
        Py.dict_get category c = Some names ->
        Py.list_contains template_name names = false ->
        TemplateManager.generate_pdf st self category template_name data
          output_path w
        = (Raise (ValueError ("Template not found: " +:+ template_name)), w1))
  /\ same_scratch w w1.
Proof.
  intros H.
  pose proof (load_template_unfold st self category template_name w w1 c H) as Hl.
  cbn [str_value str_written plain] in Hl.
  unfold TemplateManager.generate_pdf, TemplateManager.create_template.
  split; [| split].
  - intros Hc. rewrite Hc in Hl. unfold bindM. rewrite Hl. reflexivity.
  - intros names Hc Hn. rewrite Hc, Hn in Hl. cbn [negb] in Hl.
    unfold bindM. rewrite Hl. reflexivity.
  - eapply get_scratch, H.
Qed.

Lemma X13_witness :
  TemplateManager.generate_pdf Fixtures.test_store Fixtures.test_manager
    "resume" "nosuchtemplate" Fixtures.jane None Fixtures.empty_world
  = (Raise (ValueError "Template not found: nosuchtemplate"),
     snd (TemplateManager.get_available_templates Fixtures.test_store
            "test_templates_dir" None Fixtures.empty_world)).
Proof.
  refine (proj1 (proj2 (X13_generate_pdf_validates_first Fixtures.test_store
                          Fixtures.test_manager "resume" "nosuchtemplate"
                          Fixtures.jane None Fixtures.empty_world _
                          Fixtures.test_catalog _))
            ["goodone"; "badhelpername"] eq_refl eq_refl).
  vm_compute. reflexivity.
Defined.

Section NamingMore.

Lemma split_go_no_separator (sep : ascii) (s cur : string) :
  PyStr.has_char sep s = false ->
  PyStr.split_go sep cur s = [PyStr.rev_str s cur].
Proof.
  revert cur. induction s as [|c s IH]; intros cur H; [reflexivity |].
  cbn [PyStr.has_char] in H. apply orb_false_iff in H as [Hc Hs].
  cbn [PyStr.split_go]. rewrite Ascii.eqb_sym, Hc. rewrite (IH _ Hs).
  reflexivity.
Qed.

Lemma str_contains_char (c : ascii) (s : string) :
  PyStr.str_contains (String c "") s = PyStr.has_char c s.
Proof.
  induction s as [|a s IH]; [reflexivity |].
  cbn [PyStr.str_contains PyStr.startswith PyStr.has_char].
  destruct (Ascii.eqb c a); [reflexivity | exact IH].
Qed.

End NamingMore.

(** X14: the test for an underscore in [load_template] changes
    nothing: for every category the camel-case form is the
    concatenation of the capitalized parts between underscores, so a
    category without underscore is simply capitalized and the expected
    class name is always the capitalized template name, that form and
    "Helper". This holds whatever [capitalize] does. *)
Theorem X14_camel_case_is_uniform
    (capitalize : string -> string) (category template_name : string) :
  TemplateManager.category_camel_case capitalize category
  = PyStr.join "" (map capitalize (PyStr.split category "_"))
  /\ TemplateManager.expected_class_name capitalize category template_name
     = capitalize template_name
       +:+ PyStr.join "" (map capitalize (PyStr.split category "_"))
       +:+ "Helper".
Proof.
  assert (TemplateManager.category_camel_case capitalize category
          = PyStr.join "" (map capitalize (PyStr.split category "_"))) as H.
  { unfold TemplateManager.category_camel_case.
    destruct (PyStr.str_contains "_" category) eqn:E; [reflexivity |].
    rewrite str_contains_char in E.
    unfold PyStr.split. rewrite (split_go_no_separator _ _ _ E). reflexivity. }
  split; [exact H |].
  unfold TemplateManager.expected_class_name. now rewrite H.
Qed.

(** ** The /generate pipeline *)

Section PipelineMore.

Import App.

Lemma has_char_append (c : ascii) (a b : string) :
  PyStr.has_char c (a +:+ b) = PyStr.has_char c a || PyStr.has_char c b.
Proof.
  induction a as [|x a IH]; [reflexivity |].
  rewrite append_cons. cbn [PyStr.has_char]. rewrite IH. apply orb_assoc.
Qed.

(** After [s.replace(c, new)] no [c] is left, if [new] has none. *)
Lemma replace_char_removes (c : ascii) (new s : string) :
  PyStr.has_char c new = false ->
  PyStr.has_char c (PyStr.replace s (String c "") new) = false.
Proof.
  intros Hnew. induction s as [|a s IH]; [reflexivity |].
  rewrite replace_char_cons, has_char_append, IH, orb_false_r.
  destruct (Ascii.eqb c a) eqn:E; [exact Hnew |].
  cbn [PyStr.has_char]. now rewrite E.
Qed.

(** The DOCX generator removes no file: whatever the data and however
    the save ends, a file that was there is still there. *)
Lemma generate_resume_docx_keeps_file (sv : Docx.Saver) (d : pyval) (p : string)
    (w w' : World) (r : result string) :
  Docx.generate_resume_docx sv d p w = (r, w') ->
  forall q, is_Some (files w !! q) -> is_Some (files w' !! q).
Proof.
  unfold Docx.generate_resume_docx, bindM, liftM, try_except, Docx.save, raiseM,
    retM.
  destruct (Docx.build_document d) as [doc | e]; [| intros [= _ <-]; auto].
  destruct (sv doc p (files w)) as [[[] | e] written]; intros [= _ <-] q Hq;
    cbn; apply lookup_union_is_Some; auto.
Qed.

End PipelineMore.

(** X15: the person's part of the suggested file name never has a
    blank: blanks of the name are replaced by underscores, and the
    fallback is "output". *)
Theorem X15_person_name_has_no_blank (d : pyval) :
  PyStr.has_char " " (App.person_name_of d) = false.
Proof.
  unfold App.person_name_of.
  destruct d as [ | | | | | top]; try reflexivity.
  destruct (Py.dict_get "personalInfo" top) as [[ | | | | | pi]|]; try reflexivity.
  destruct (Py.dict_get "name" pi) as [[ | | | name | | ]|]; try reflexivity.
  destruct (negb (String.eqb name "")); [| reflexivity].
  now apply replace_char_removes.
Qed.

(** X16: a request whose document type is not in the catalog, or whose
    template is not listed under its type, gets the 404 error whatever
    the format, and the scratch area is as it was. *)
Theorem X16_unknown_template_is_404
    (py : App.python) (st : Store) (sv : Docx.Saver) (request : App.DocumentRequest)
    (w w1 : World) (c : catalog) :
  TemplateManager.get_available_templates st "templates" None w
  = (Ok (TemplateManager.AllTemplates c), w1) ->
  (Py.dict_get (App.value (App.document_type request)) c = None
   \/ exists names,
        Py.dict_get (App.value (App.document_type request)) c = Some names
        /\ Py.list_contains (App.template request) names = false) ->
  (exists detail,
      App.generate_document py st sv request w
      = (Raise (HTTPException 404 detail), w1))
  /\ same_scratch w w1.
Proof.
  intros Hg Hbad. split; [| eapply get_scratch, Hg].
  unfold App.generate_document, try_except.
  destruct (body_cases py st sv request w)
    as [(e & w2 & Hg' & _) | (c' & w2 & Hg' & Hb & _)];
    rewrite Hg in Hg'; [discriminate Hg' |].
  injection Hg' as <- <-. rewrite Hb.
  unfold App.generate_with_catalog. unfold bindM at 1.
  unfold App.check_catalog, App.type_not_supported, App.template_not_found.
  destruct Hbad as [-> | (names & -> & ->)]; cbn [negb raiseM App.to_http];
    eexists; reflexivity.
Qed.

Lemma X16_witness :
  exists detail,
    App.generate_document App.Python311 Fixtures.app_store Fixtures.good_saver
      (App.mk_request App.RESUME "classic" App.PDF Fixtures.jane true)
      Fixtures.empty_world
    = (Raise (HTTPException 404 detail),
       snd (TemplateManager.get_available_templates Fixtures.app_store
              "templates" None Fixtures.empty_world)).
Proof.
  refine (proj1 (X16_unknown_template_is_404 App.Python311 Fixtures.app_store
                   Fixtures.good_saver
                   (App.mk_request App.RESUME "classic" App.PDF Fixtures.jane true)
                   Fixtures.empty_world _
                   [("resume", ["minimalist"; "twocolumn"; "broken"])] _ _)).
  - vm_compute. reflexivity.
  - right. exists ["minimalist"; "twocolumn"; "broken"]. split; reflexivity.
Defined.

Section ResponseMore.

Import App.

Lemma pdf_branch_ok (py : python) (st : Store) (tm : TemplateManager.t)
    (request : DocumentRequest) (c : catalog) (person_name : string)
    (w w' : World) (p n m : string) :
  pdf_branch py st tm request c person_name w = (Ok (p, n, m), w') ->
  p = OS.tmp_name (next_tmp w) ".pdf"
  /\ n = value (document_type request) +:+ "_" +:+ person_name +:+ ".pdf"
  /\ m = "application/pdf".
Proof.
  intros H. unfold pdf_branch in H. unfold bindM at 1 in H.
  destruct (check_catalog_pure py " for PDF" request c w) as (Hw & _).
  destruct (check_catalog py " for PDF" request c w) as [[[]|e0] w0];
    cbn in Hw; subst w0; [| discriminate H].
  unfold bindM at 1 in H. unfold OS.NamedTemporaryFile at 1 in H.
  unfold bindM at 1 in H.
  destruct (try_except _ _ _) as [[[]|e1] w2]; [| discriminate H].
  cbn in H. injection H as <- <- <- _. auto.
Qed.

Lemma docx_branch_ok (sv : Docx.Saver) (request : DocumentRequest)
    (person_name : string) (w w' : World) (p n m : string) :
  docx_branch sv request person_name w = (Ok (p, n, m), w') ->
  document_type request = RESUME
  /\ p = OS.tmp_name (next_tmp w) ".docx"
  /\ n = "resume_" +:+ person_name +:+ ".docx"
  /\ m = docx_media_type
  /\ is_Some (files w' !! p).
Proof.
  intros H. unfold docx_branch in H.
  destruct (document_type request); [| discriminate H].
  unfold bindM at 1 in H. unfold OS.NamedTemporaryFile at 1 in H.
  set (path := OS.tmp_name (next_tmp w) ".docx") in *.
  set (w1 := bump_tmp _) in H.
  unfold bindM at 1 in H.
  destruct (try_except _ _ w1) as [[[]|e1] w2] eqn:Ht; [| discriminate H].
  cbn in H. injection H as <- <- <- <-.
  repeat split.
  unfold try_except in Ht.
  destruct (render_docx sv request path w1) as [[[]|e2] w3] eqn:Hr.
  - injection Ht as <-. unfold render_docx, bindM in Hr.
    destruct (Docx.generate_resume_docx sv (data request) path w1)
      as [[x|e3] w4] eqn:Hd; [| discriminate Hr].
    injection Hr as <-.
    eapply generate_resume_docx_keeps_file; [exact Hd |].
    subst w1. cbn. rewrite lookup_insert_eq. eauto.
  - destruct (cleanup_removes (A := unit) "DOCX Generation Error: " path e2 w3)
      as (e' & w4 & Hc & _).
    rewrite Hc in Ht. discriminate Ht.
Qed.

End ResponseMore.

(** X17: a request that succeeds answers with the scratch path that
    [tempfile] handed out, and the removal of that file is scheduled
    exactly when the request asks for the clean-up. For PDF the media
    type is application/pdf and the file name is the document type, an
    underscore, the person's name and ".pdf". A DOCX answer is only
    ever given for a resume; its file name starts with "resume_", and
    the file is on disk at the returned path. *)
Theorem X17_successful_response
    (py : App.python) (st : Store) (sv : Docx.Saver) (request : App.DocumentRequest)
    (w w' : World) (response : App.Response) :
  App.generate_document py st sv request w = (Ok response, w') ->
  App.path response = App.scratch_path request w
  /\ App.background_remove response
     = (if App.clean_up request then Some (App.path response) else None)
  /\ match App.format request with
     | App.PDF =>
         App.media_type response = "application/pdf"
         /\ App.filename response
            = App.value (App.document_type request) +:+ "_"
              +:+ App.person_name_of (App.data request) +:+ ".pdf"
     | App.DOCX =>
         App.document_type request = App.RESUME
         /\ App.media_type response = App.docx_media_type
         /\ App.filename response
            = "resume_" +:+ App.person_name_of (App.data request) +:+ ".docx"
         /\ is_Some (files w' !! App.path response)
     end.
Proof.
  intros H. unfold App.generate_document, try_except in H.
  destruct (body_cases py st sv request w)
    as [(e & w1 & _ & Hb & _) | (c & w1 & _ & Hb & Hs)]; rewrite Hb in H;
    [discriminate H |].
  destruct Hs as (_ & _ & Hn).
  unfold App.scratch_path. rewrite <- Hn.
  destruct (App.generate_with_catalog py st sv request _ c w1)
    as [[resp|e] w2] eqn:Hgen; [| discriminate H].
  injection H as <- <-.
  unfold App.generate_with_catalog in Hgen. unfold bindM at 1 in Hgen.
  destruct (check_catalog_pure py "" request c w1) as (Hw & _).
  destruct (App.check_catalog py "" request c w1) as [[[]|e0] w0];
    cbn in Hw; subst w0; [| discriminate Hgen].
  unfold bindM at 1 in Hgen.
  destruct (App.format request).
  - destruct (App.pdf_branch py st _ request c _ w1) as [[[[p n] m]|e1] w3] eqn:Hp;
      [| discriminate Hgen].
    apply pdf_branch_ok in Hp as (-> & -> & ->).
    cbn in Hgen. injection Hgen as <- <-. cbn. repeat split; reflexivity.
  - destruct (App.docx_branch sv request _ w1) as [[[[p n] m]|e1] w3] eqn:Hp;
      [| discriminate Hgen].
    apply docx_branch_ok in Hp as (Hty & -> & -> & -> & Hfile).
    cbn in Hgen. injection Hgen as <- <-. cbn.
    repeat split; try reflexivity; assumption.
Qed.

Lemma X17_witness :
  exists response,
    App.generate_document App.Python311 Fixtures.app_store Fixtures.good_saver
      Fixtures.resume_docx Fixtures.empty_world
    = (Ok response,
       snd (App.generate_document App.Python311 Fixtures.app_store Fixtures.good_saver
              Fixtures.resume_docx Fixtures.empty_world))
    /\ App.path response = "/tmp/tmp0.docx"
    /\ App.background_remove response = Some "/tmp/tmp0.docx".
Proof.
  eexists. split; [vm_compute; reflexivity |].
  destruct (X17_successful_response App.Python311 Fixtures.app_store Fixtures.good_saver
              Fixtures.resume_docx Fixtures.empty_world
              (snd (App.generate_document App.Python311 Fixtures.app_store
                      Fixtures.good_saver Fixtures.resume_docx
                      Fixtures.empty_world))
              {| App.path := "/tmp/tmp0.docx";
                 App.media_type := App.docx_media_type;
                 App.filename := "resume_Jane_Roe.docx";
                 App.background_remove := Some "/tmp/tmp0.docx" |})
    as (Hpath & Hremove & _); [vm_compute; reflexivity |].
  split; [reflexivity | exact Hremove].
Defined.

(** ** DOCX generator *)

Section DocxMore.

Import Docx.

Lemma level_one_app (a b : list docx_call) :
  level_one_headings (a ++ b) = level_one_headings a ++ level_one_headings b.
Proof. apply omap_app. Qed.

Lemma level_one_cons (c : docx_call) (l : list docx_call) :
  level_one_headings (c :: l)
  = match c with add_heading t 1 => [t] | _ => [] end ++ level_one_headings l.
Proof. destruct c as [ | t [|[|n]] | | | | | | | ]; reflexivity. Qed.

Lemma level_one_nil : level_one_headings [] = [].
Proof. reflexivity. Qed.

Lemma level_one_bullets (details : pyval) :
  level_one_headings (detail_bullets details) = [].
Proof.
  destruct details as [ | | | s | l | d]; try reflexivity.
  cbn [detail_bullets]. induction l as [|x l IH]; [reflexivity | exact IH].
Qed.

End DocxMore.

(** Splits the level-one headings of a list along its pieces. *)
Ltac split_headings :=
  repeat (rewrite level_one_cons || rewrite level_one_app
          || rewrite level_one_nil);
  cbv beta iota delta [Docx.blank]; cbn [app].

(** The same, by cases on the conditions that guard a piece. *)
Ltac split_guarded_headings :=
  split_headings;
  repeat (match goal with
          | |- context [level_one_headings (if ?b then _ else _)] => destruct b
          end; split_headings).

(** Takes the next statement of a body that ended well: its outcome is
    a value. *)
Ltac next_statement H :=
  match type of H with
  | mbind _ ?m = Ok _ =>
      let E := fresh "E" in
      destruct m eqn:E; cbn [mbind result_bind] in H; [| discriminate H]
  end.

Ltac next_statement_as H x E :=
  match type of H with
  | mbind _ ?m = Ok _ =>
      destruct m as [x|] eqn:E; cbn [mbind result_bind] in H; [| discriminate H]
  end.

Section DocxItems.

Import Docx.

Lemma level_one_experience_item (exp : pyval) (calls : list docx_call) :
  _format_experience_item exp = Ok calls -> level_one_headings calls = [].
Proof.
  intros H. unfold _format_experience_item in H.
  repeat next_statement H. injection H as <-.
  split_headings. rewrite level_one_bullets.
  split_guarded_headings; reflexivity.
Qed.

Lemma level_one_education_item (edu : pyval) (calls : list docx_call) :
  _format_education_item edu = Ok calls -> level_one_headings calls = [].
Proof.
  intros H. unfold _format_education_item in H.
  repeat next_statement H. injection H as <-.
  split_headings. rewrite level_one_bullets.
  split_guarded_headings; reflexivity.
Qed.

Lemma level_one_project_item (proj : pyval) (calls : list docx_call) :
  _format_project_item proj = Ok calls -> level_one_headings calls = [].
Proof.
  intros H. unfold _format_project_item in H.
  next_statement_as H name E1. next_statement_as H technologies E2.
  next_statement_as H tech E3.
  assert (level_one_headings tech = []) as Htech.
  { destruct technologies as [ | | | | [|x xs] | ];
      try (injection E3 as <-; reflexivity).
    destruct (Py.join _ _); [| discriminate E3].
    cbn [mbind result_bind] in E3. injection E3 as <-. reflexivity. }
  repeat next_statement H. injection H as <-.
  split_headings. rewrite level_one_bullets, Htech.
  split_guarded_headings; reflexivity.
Qed.

Lemma level_one_titled_entry (title_key default_title url_label : string)
    (details_keys : list string) (item : pyval) (calls : list docx_call) :
  titled_entry title_key default_title url_label details_keys item = Ok calls ->
  level_one_headings calls = [].
Proof.
  intros H. unfold titled_entry in H.
  next_statement_as H title E1. next_statement_as H details E2.
  next_statement_as H details_run E3.
  assert (level_one_headings details_run = []) as Hrun.
  { destruct (Py.truthy (PList details)); [| injection E3 as <-; reflexivity].
    destruct (Py.join _ _); [| discriminate E3].
    cbn [mbind result_bind] in E3. injection E3 as <-. reflexivity. }
  repeat next_statement H. injection H as <-.
  split_headings. rewrite Hrun.
  split_guarded_headings; reflexivity.
Qed.

(** The items of a section bring no level-one heading. *)
Lemma level_one_items (f : pyval -> result (list docx_call)) (items : list pyval) :
  (forall x calls, f x = Ok calls -> level_one_headings calls = []) ->
  forall formatted,
    mapM f items = Ok formatted -> level_one_headings (concat formatted) = [].
Proof.
  intros Hf. induction items as [|x items IH]; intros formatted H.
  - injection H as <-. reflexivity.
  - cbn [mapM] in H. next_statement_as H y Ey. next_statement_as H ys Eys.
    injection H as <-.
    cbn [concat]. rewrite level_one_app, (Hf _ _ Ey), (IH _ eq_refl). reflexivity.
Qed.

Lemma level_one_optional_section (title : string) (v : pyval)
    (f : pyval -> result (list docx_call)) (calls : list docx_call) :
  (forall x l, f x = Ok l -> level_one_headings l = []) ->
  _add_optional_section title v f = Ok calls ->
  level_one_headings calls = if Py.truthy v then [PStr title] else [].
Proof.
  intros Hf H. unfold _add_optional_section in H.
  destruct (Py.truthy v); [| injection H as <-; reflexivity].
  next_statement_as H items Ei. next_statement_as H formatted Ef.
  injection H as <-.
  split_headings. rewrite (level_one_items f _ Hf _ Ef). reflexivity.
Qed.

Lemma level_one_titled_section (heading : string) (v : pyval)
    (f : pyval -> result (list docx_call)) (calls : list docx_call) :
  (forall x l, f x = Ok l -> level_one_headings l = []) ->
  titled_section heading v f = Ok calls ->
  level_one_headings calls = if Py.truthy v then [PStr heading] else [].
Proof.
  intros Hf H. unfold titled_section in H.
  destruct (Py.truthy v); [| injection H as <-; reflexivity].
  next_statement_as H items Ei. next_statement_as H formatted Ef.
  injection H as <-.
  split_headings. rewrite (level_one_items f _ Hf _ Ef). reflexivity.
Qed.

(** The paragraphs of the skills section. *)
Lemma level_one_skills (skills_data : pyval) :
  level_one_headings
    match skills_data with
    | PList l =>
        map (fun skill_item =>
               add_paragraph (PStr (Py.str skill_item)) ListBullet) l
    | PDict d => map skills_category d
    | _ => []
    end = [].
Proof.
  destruct skills_data as [ | | | | l | d]; try reflexivity.
  - induction l as [|x l IH]; [reflexivity | exact IH].
  - induction d as [|[k v] d IH]; [reflexivity |].
    cbn [map]. rewrite level_one_cons, IH. unfold skills_category. cbn [snd].
    destruct v; reflexivity.
Qed.

Lemma truthy_read (k : string) (d : list (string * pyval)) (default : pyval) :
  Py.truthy default = false ->
  Py.truthy (match Py.dict_get k d with Some x => x | None => default end)
  = truthy_at k d.
Proof.
  intros H. unfold truthy_at. destruct (Py.dict_get k d); [reflexivity | exact H].
Qed.

End DocxItems.

(** X19: in the DOCX a section has its heading exactly when its value
    is there and not empty, whatever the other sections hold: the
    level-one headings of the document that is built are the titles of
    the sections whose value is true as a condition, in the order of
    the sections, and nothing else. The entries of a section never add
    one. *)
Theorem X19_docx_headings_follow_sections
    (d : list (string * pyval)) (calls : list docx_call) :
  Docx.build_document (PDict d) = Ok calls ->
  level_one_headings calls
  = omap (fun section =>
            if truthy_at (fst section) d then Some (PStr (snd section)) else None)
         docx_sections.
Proof.
  intros H. unfold Docx.build_document in H.
  cbn [Py.get mbind result_bind] in H.
  next_statement_as H name Ename.
  next_statement_as H contact_lines Elines.
  next_statement_as H contact Econtact.
  assert (level_one_headings contact = []) as Hcontact.
  { destruct (Py.truthy (PList contact_lines));
      [| injection Econtact as <-; reflexivity].
    destruct (Py.join _ _); [| discriminate Econtact].
    cbn [mbind result_bind] in Econtact. injection Econtact as <-. reflexivity. }
  next_statement_as H experience Eexp.
  apply (level_one_optional_section _ _ _ _ level_one_experience_item) in Eexp.
  next_statement_as H education Eedu.
  apply (level_one_optional_section _ _ _ _ level_one_education_item) in Eedu.
  next_statement_as H projects Eproj.
  apply (level_one_optional_section _ _ _ _ level_one_project_item) in Eproj.
  next_statement_as H publications Epub.
  apply (level_one_titled_section _ _ _ _
           (level_one_titled_entry "title" "N/A Title" " - Available at: "
              ["publisher"; "date"])) in Epub.
  next_statement_as H certifications Ecert.
  apply (level_one_titled_section _ _ _ _
           (level_one_titled_entry "name" "N/A Certification" " - Verify at: "
              ["issuer"; "date"])) in Ecert.
  injection H as <-.
  rewrite !truthy_read in Eexp, Eedu, Eproj, Epub, Ecert by reflexivity.
  rewrite !truthy_read by reflexivity.
  split_headings. rewrite Hcontact, Eexp, Eedu, Eproj, Epub, Ecert.
  cbn [omap list_omap docx_sections fst snd].
  destruct (Py.truthy name), (truthy_at "professional_summary" d),
    (truthy_at "experience" d), (truthy_at "education" d),
    (truthy_at "projects" d), (truthy_at "technologies_and_skills" d),
    (truthy_at "articles_and_publications" d), (truthy_at "certifications" d);
    split_headings; rewrite ?level_one_skills; reflexivity.
Qed.

Lemma X19_witness :
  level_one_headings
    [ set_normal_font "Calibri" 11; Docx.blank; set_alignment_center;
      add_run (PStr "Jane Roe"); set_font_size 24; set_bold;
      add_paragraph (PStr "jane@example.com") None; set_alignment_center;
      set_space_after 18;
      add_heading (PStr "Skills") 1; Docx.blank ]
  = [PStr "Skills"].
Proof.
  apply (X19_docx_headings_follow_sections
           [("personalInfo",
             PDict [("name", PStr "Jane Roe"); ("email", PStr "jane@example.com")]);
            ("experience", PList []);
            ("technologies_and_skills", PStr "x")]).
  vm_compute. reflexivity.
Defined.

(** ** Date validation *)

Section DatesMore.

Import Dates.

Variable u : Unicode.

Lemma days_in_month_pos (y m : nat) : 1 <= days_in_month y m.
Proof.
  unfold days_in_month.
  do 12 (destruct m as [|m]; [try destruct (is_leap y); lia |]). lia.
Qed.

Lemma make_date_first (y m : nat) :
  y <> 0 -> make_date y m 1 = Done tt.
Proof.
  intros Hy. unfold make_date.
  destruct (Nat.eqb y 0) eqn:E; [apply Nat.eqb_eq in E; contradiction |].
  pose proof (days_in_month_pos y m) as Hd.
  apply Nat.leb_le in Hd. rewrite Hd. reflexivity.
Qed.

Lemma body_done (s r : text) :
  check_date_format_body u s = Done r ->
  r = s
  /\ ((length s = 7 /\ strptime_ym u s = Done tt)
      \/ (length s = 10 /\ strptime_ymd u s = Done tt)).
Proof.
  unfold check_date_format_body.
  destruct (Nat.eqb (length s) 7) eqn:E7.
  - apply Nat.eqb_eq in E7.
    destruct (strptime_ym u s) as [[]|f]; [| discriminate].
    intros [= <-]. auto.
  - destruct (Nat.eqb (length s) 10) eqn:E10; [| discriminate].
    apply Nat.eqb_eq in E10.
    destruct (strptime_ymd u s) as [[]|f]; [| discriminate].
    intros [= <-]. auto.
Qed.

Lemma check_accepts_iff_body (s r : text) :
  check_date_format u s = Accepted r <-> check_date_format_body u s = Done r.
Proof.
  unfold check_date_format.
  destruct (check_date_format_body u s) as [d|f].
  - split; intros [= <-]; reflexivity.
  - split; discriminate.
Qed.

(** A text from which a year and the hyphen can be read starts with
    four decimal digits and has the hyphen as its fifth character. *)
Lemma parse_year_hyphen (s : text) (y : nat) (r0 r1 : text) :
  parse_year u s = Some (y, r0) -> dash r0 = Some r1 ->
  Forall (fun c => is_Some (u c)) (firstn 4 s)
  /\ nth_error s 4 = Some (N_of_ascii "-").
Proof.
  unfold parse_year, dash.
  destruct s as [|a [|b [|c [|d s]]]]; try discriminate.
  destruct (u a) as [da|] eqn:Ha; [| discriminate].
  destruct (u b) as [db|] eqn:Hb; [| discriminate].
  destruct (u c) as [dc|] eqn:Hc; [| discriminate].
  destruct (u d) as [dd|] eqn:Hd; [| discriminate].
  intros [= _ <-].
  destruct s as [|e s]; [discriminate |].
  unfold is_char. destruct (N.eqb e _) eqn:E; [| discriminate].
  apply N.eqb_eq in E. subst e. intros _. split; [| reflexivity].
  cbn [firstn]. repeat constructor; rewrite ?Ha, ?Hb, ?Hc, ?Hd; eauto.
Qed.

End DatesMore.

(** Dates of two scripts: a year in fullwidth digits passes, a month
    in fullwidth digits does not; a day written as a blank and a digit
    passes after a two-digit month; the 30th of February does not
    exist, and the 29th does in a leap year. *)
Example dates_of_two_scripts :
  Dates.check_date_format Dates.two_scripts Dates.fullwidth_2022_01
  = Dates.Accepted Dates.fullwidth_2022_01
  /\ Dates.check_date_format Dates.two_scripts [50; 48; 50; 50; 45; 65296; 49]%N
     = Dates.Rejected
         (Dates.invalid_date_format [50; 48; 50; 50; 45; 65296; 49]%N)
  /\ Dates.check_date_format Dates.two_scripts (Dates.lit "2022-12- 1")
     = Dates.Accepted (Dates.lit "2022-12- 1")
  /\ Dates.check_date_format Dates.two_scripts (Dates.lit "2022-02-30")
     = Dates.Rejected (Dates.invalid_date_format (Dates.lit "2022-02-30"))
  /\ Dates.check_date_format Dates.two_scripts (Dates.lit "2024-02-29")
     = Dates.Accepted (Dates.lit "2024-02-29").
Proof. repeat split; vm_compute; reflexivity. Qed.

(** X20: whatever is wrong with a date, the error is the same value
    error, which quotes the text and names the two accepted forms; and
    a text that is neither 7 nor 10 characters long is always
    rejected. Characters are counted as code points. *)
Theorem X20_date_rejections_are_uniform (u : Dates.Unicode) (date_str : Dates.text) :
  (forall message,
      Dates.check_date_format u date_str = Dates.Rejected message ->
      message = Dates.lit "Invalid date format: " ++ date_str
                ++ Dates.lit ". Use YYYY-MM or YYYY-MM-DD")
  /\ (length date_str <> 7 -> length date_str <> 10 ->
      Dates.check_date_format u date_str
      = Dates.Rejected (Dates.lit "Invalid date format: " ++ date_str
                        ++ Dates.lit ". Use YYYY-MM or YYYY-MM-DD")).
Proof.
  split.
  - intros message. unfold Dates.check_date_format.
    destruct (Dates.check_date_format_body u date_str); [discriminate |].
    intros [= <-]. reflexivity.
  - intros H7 H10. unfold Dates.check_date_format, Dates.check_date_format_body.
    apply Nat.eqb_neq in H7, H10. rewrite H7, H10. reflexivity.
Qed.

Lemma X20_witness :
  Dates.check_date_format Dates.two_scripts (Dates.lit "2022-1-1")
  = Dates.Rejected
      (Dates.lit "Invalid date format: 2022-1-1. Use YYYY-MM or YYYY-MM-DD").
Proof.
  apply (proj2 (X20_date_rejections_are_uniform Dates.two_scripts
                  (Dates.lit "2022-1-1"))); discriminate.
Defined.

(** X21: a date that is accepted is returned unchanged, is 7 or 10
    characters long, starts with four decimal digits and has a hyphen
    as its fifth character; so a date written with any other separator
    is rejected. *)
Theorem X21_accepted_dates (u : Dates.Unicode) (date_str r : Dates.text) :
  Dates.check_date_format u date_str = Dates.Accepted r ->
  r = date_str
  /\ (length date_str = 7 \/ length date_str = 10)
  /\ Forall (fun c => is_Some (u c)) (firstn 4 date_str)
  /\ nth_error date_str 4 = Some (N_of_ascii "-").
Proof.
  intros H. apply check_accepts_iff_body, body_done in H as (-> & Hform).
  split; [reflexivity |].
  destruct Hform as [[Hlen H] | [Hlen H]].
  - split; [auto |]. unfold Dates.strptime_ym in H.
    destruct (Dates.parse_year u date_str) as [[y r0]|] eqn:Hy; [| discriminate H].
    destruct (Dates.dash r0) as [r1|] eqn:Hd; [| discriminate H].
    apply (parse_year_hyphen u _ _ _ _ Hy Hd).
  - split; [auto |]. unfold Dates.strptime_ymd in H.
    destruct (Dates.parse_year u date_str) as [[y r0]|] eqn:Hy; [| discriminate H].
    destruct (Dates.dash r0) as [r1|] eqn:Hd; [| discriminate H].
    apply (parse_year_hyphen u _ _ _ _ Hy Hd).
Qed.

Lemma X21_witness :
  nth_error Dates.fullwidth_2022_01 4 = Some (N_of_ascii "-").
Proof.
  exact (proj2 (proj2 (proj2 (X21_accepted_dates Dates.two_scripts
                                Dates.fullwidth_2022_01 Dates.fullwidth_2022_01
                                eq_refl)))).
Defined.

(** The end date accepts what the start date accepts and, besides, the
    word "Present", which the start date rejects. *)
Lemma end_date_adds_present (u : Dates.Unicode) (value : Dates.text) :
  (Dates.validate_end_date u value = Dates.Accepted value
   <-> value = Dates.lit "Present"
       \/ Dates.validate_start_date u value = Dates.Accepted value)
  /\ Dates.validate_start_date Dates.two_scripts (Dates.lit "Present")
     = Dates.Rejected
         (Dates.lit "Invalid date format: Present. Use YYYY-MM or YYYY-MM-DD").
Proof.
  split; [| reflexivity].
  unfold Dates.validate_end_date, Dates.validate_start_date.
  destruct (bool_decide (value = Dates.lit "Present")) eqn:E.
  - apply bool_decide_eq_true in E. tauto.
  - apply bool_decide_eq_false in E. tauto.
Qed.

(** X22: the accepted dates of seven characters are exactly the texts
    made of four decimal digits, of whatever script, that are not all
    zero, a hyphen, and a two-digit month from 01 to 12 in ASCII
    digits. *)
Theorem X22_year_month_dates (u : Dates.Unicode) (a b c d e m1 m2 : N) :
  Dates.check_date_format u [a; b; c; d; e; m1; m2]
  = Dates.Accepted [a; b; c; d; e; m1; m2]
  <-> (exists da db dc dd,
         u a = Some da /\ u b = Some db /\ u c = Some dc /\ u d = Some dd
         /\ 1000 * Dates.digit_value da + 100 * Dates.digit_value db
            + 10 * Dates.digit_value dc + Dates.digit_value dd <> 0)
      /\ e = N_of_ascii "-"
      /\ ((m1 = N_of_ascii "1"
           /\ (N_of_ascii "0" <= m2 <= N_of_ascii "2")%N)
          \/ (m1 = N_of_ascii "0"
              /\ (N_of_ascii "1" <= m2 <= N_of_ascii "9")%N)).
Proof.
  rewrite check_accepts_iff_body.
  unfold Dates.check_date_format_body.
  cbn [length Nat.eqb].
  unfold Dates.strptime_ym, Dates.parse_year, Dates.dash.
  destruct (u a) as [da|]; [| split; [discriminate | intros ((? & ? & ? & ? & [=] & _) & _)]].
  destruct (u b) as [db|]; [| split; [discriminate | intros ((? & ? & ? & ? & _ & [=] & _) & _)]].
  destruct (u c) as [dc|]; [| split; [discriminate | intros ((? & ? & ? & ? & _ & _ & [=] & _) & _)]].
  destruct (u d) as [dd|]; [| split; [discriminate | intros ((? & ? & ? & ? & _ & _ & _ & [=] & _) & _)]].
  set (y := 1000 * Dates.digit_value da + 100 * Dates.digit_value db
            + 10 * Dates.digit_value dc + Dates.digit_value dd).
  assert ((exists da' db' dc' dd',
              Some da = Some da' /\ Some db = Some db' /\ Some dc = Some dc'
              /\ Some dd = Some dd'
              /\ 1000 * Dates.digit_value da' + 100 * Dates.digit_value db'
                 + 10 * Dates.digit_value dc' + Dates.digit_value dd' <> 0)
          <-> y <> 0) as Hyear.
  { split.
    - intros (? & ? & ? & ? & [= <-] & [= <-] & [= <-] & [= <-] & H). exact H.
    - intros H. exists da, db, dc, dd. auto. }
  rewrite Hyear. clear Hyear.
  unfold Dates.is_char.
  destruct (N.eqb e (N_of_ascii "-")) eqn:Ee.
  2: { apply N.eqb_neq in Ee. split; [discriminate | tauto]. }
  apply N.eqb_eq in Ee.
  unfold Dates.month_alternatives, Dates.is_char, Dates.between.
  assert (forall m (s : Dates.text),
             match Dates.make_date y m 1 return Dates.attempt Dates.text with
             | Dates.Done _ => Dates.Done s
             | Dates.Fails f => Dates.Fails f
             end = Dates.Done s <-> y <> 0) as Hdate.
  { intros m s. destruct (Nat.eqb y 0) eqn:E.
    - unfold Dates.make_date. rewrite E. apply Nat.eqb_eq in E.
      split; [discriminate | contradiction].
    - apply Nat.eqb_neq in E. rewrite (make_date_first y m E). tauto. }
  destruct (N.eqb m1 (N_of_ascii "1")) eqn:E1;
    destruct (N.eqb m1 (N_of_ascii "0")) eqn:E0;
    destruct (N.leb (N_of_ascii "0") m2) eqn:L0;
    destruct (N.leb m2 (N_of_ascii "2")) eqn:L2;
    destruct (N.leb (N_of_ascii "1") m2) eqn:L1;
    destruct (N.leb m2 (N_of_ascii "9")) eqn:L9;
    destruct (N.leb (N_of_ascii "1") m1 && N.leb m1 (N_of_ascii "9")) eqn:L19;
    cbn [andb app];
    rewrite ?N.eqb_eq, ?N.eqb_neq, ?N.leb_le, ?N.leb_gt in *;
    rewrite ?Hdate;
    try (split; [intros Hy; repeat split; auto; lia
                | intros (Hy & _ & _); exact Hy]);
    try (split; [discriminate | intros (_ & _ & [[? ?] | [? ?]]); lia]).
Qed.

(** ** The catalog endpoints *)

Section EndpointsMore.

Import Endpoints.

Lemma init_then (st : Store) (w w1 : World) (c : catalog) :
  TemplateManager.get_available_templates st "templates" None w
  = (Ok (TemplateManager.AllTemplates c), w1) ->
  TemplateManager.__init__ st "templates" w
  = (Ok (TemplateManager.mk "templates" c), w1)
  /\ cached_templates w1 = Some c.
Proof.
  intros H. unfold TemplateManager.__init__, bindM. rewrite H.
  split; [reflexivity |].
  destruct (get_fills_cache _ _ _ _ _ _ H) as (c' & Hc & Ha).
  cbn in Ha. injection Ha as <-. exact Hc.
Qed.

(** The preview loop finds the first extension whose file exists. *)
Lemma find_preview_spec (st : Store) (dir base : string) (exts : list string) :
  forall w,
  exists r w',
    find_preview st dir base exts w = (Ok r, w')
    /\ same_scratch w w'
    /\ match r with
       | None =>
           forall ext, In ext exts ->
                       path_exists st (OS.path_join dir ("preview" +:+ ext)) = false
       | Some url =>
           exists before ext after,
             exts = before ++ ext :: after
             /\ url = base +:+ "/preview" +:+ ext
             /\ path_exists st (OS.path_join dir ("preview" +:+ ext)) = true
             /\ forall x, In x before ->
                          path_exists st (OS.path_join dir ("preview" +:+ x)) = false
       end.
Proof.
  induction exts as [|ext exts IH]; intros w.
  - exists None, w. split; [reflexivity |]. split; [apply same_scratch_refl |].
    intros ext [].
  - cbn [find_preview]. rewrite bind_logged_exists.
    destruct (path_exists st _) eqn:Hex.
    + eexists (Some _), _. split; [reflexivity |].
      split; [apply same_state_scratch, same_state_event |].
      exists [], ext, exts. repeat split; try assumption. intros x [].
    + destruct (IH (log_event (EvExists (OS.path_join dir ("preview" +:+ ext))) w))
        as (r & w' & Hr & (Hf & Hd & Hn) & Hspec).
      exists r, w'. split; [exact Hr |].
      split; [unfold same_scratch; cbn in *; auto |].
      destruct r as [url|].
      * destruct Hspec as (before & ext' & after & -> & -> & Hthere & Hnone).
        exists (ext :: before), ext', after. repeat split; try assumption.
        intros x [<- | Hin]; auto.
      * intros x [<- | Hin]; auto.
Qed.

Lemma find_preview_cache (st : Store) (dir base : string) (exts : list string) :
  forall w w' r,
    find_preview st dir base exts w = (r, w') ->
    cached_templates w' = cached_templates w.
Proof.
  induction exts as [|ext exts IH]; intros w w' r H.
  - injection H as _ <-. reflexivity.
  - cbn [find_preview] in H. rewrite bind_logged_exists in H.
    destruct (path_exists st _).
    + injection H as _ <-. reflexivity.
    + apply IH in H. exact H.
Qed.

End EndpointsMore.

(** X23: the listing of one document type answers from the catalog:
    the names under that type, or the 404 error "Category not found"
    when the catalog has no such type. The error names the type as an
    f-string writes the enumeration member: by its value up to Python
    3.10, by class and member name from 3.11 on. *)
Theorem X23_list_templates_by_type
    (py : App.python) (st : Store) (document_type : App.DocumentType)
    (w w1 : World) (c : catalog) :
  TemplateManager.get_available_templates st "templates" None w
  = (Ok (TemplateManager.AllTemplates c), w1) ->
  Endpoints.list_templates_by_type py st document_type w
  = (match Py.dict_get (App.value document_type) c with
     | Some names => Ok names
     | None =>
         Raise (HTTPException 404
                  ("Category not found: "
                   +:+ match py with
                       | App.Python310 => App.value document_type
                       | App.Python311 =>
                           "DocumentType." +:+ App.member_name document_type
                       end))
     end, w1).
Proof.
  intros H. destruct (init_then st w w1 c H) as (Hinit & Hc).
  unfold Endpoints.list_templates_by_type, try_except, bindM.
  rewrite Hinit. cbn [TemplateManager.templates_dir].
  rewrite (get_cached st "templates" (Some (App.as_str py document_type)) w1 c Hc).
  unfold TemplateManager.answer_from. cbn [str_value str_written App.as_str].
  replace (negb (String.eqb (App.value document_type) "")) with true
    by (destruct document_type; reflexivity).
  destruct (Py.dict_get (App.value document_type) c); [reflexivity |].
  destruct py; reflexivity.
Qed.

Lemma X23_witness :
  Endpoints.list_templates_by_type App.Python311 Fixtures.app_store
    App.COVER_LETTER Fixtures.empty_world
  = (Raise (HTTPException 404 "Category not found: DocumentType.COVER_LETTER"),
     snd (TemplateManager.get_available_templates Fixtures.app_store
            "templates" None Fixtures.empty_world)).
Proof.
  apply (X23_list_templates_by_type App.Python311 Fixtures.app_store
           App.COVER_LETTER Fixtures.empty_world _
           [("resume", ["minimalist"; "twocolumn"; "broken"])]).
  vm_compute. reflexivity.
Defined.

(** X24: the template information names the template asked for, which
    is in the catalog under its type, and its preview is the first of
    preview.png, preview.jpg and preview.jpeg that exists in the
    template's directory, with no preview when none of them exists. The
    directory is named with the value of the document type; the address
    of the preview has the document type as an f-string writes the
    member. *)
Theorem X24_template_info_preview
    (py : App.python) (st : Store) (document_type : App.DocumentType)
    (template_name : string) (w w' : World) (info : Endpoints.template_info) :
  Endpoints.get_template_info py st document_type template_name w
  = (Ok info, w') ->
  let template_dir :=
    OS.path_join_all "templates" [App.value document_type; template_name] in
  let shown :=
    match py with
    | App.Python310 => App.value document_type
    | App.Python311 => "DocumentType." +:+ App.member_name document_type
    end in
  Endpoints.info_name info = template_name
  /\ Endpoints.info_document_type info = document_type
  /\ (exists names,
        Py.dict_get (App.value document_type)
          (default [] (cached_templates w')) = Some names
        /\ Py.list_contains template_name names = true)
  /\ match Endpoints.preview_url info with
     | None =>
         forall ext, In ext [".png"; ".jpg"; ".jpeg"] ->
           path_exists st (OS.path_join template_dir ("preview" +:+ ext)) = false
     | Some url =>
         exists before ext after,
           [".png"; ".jpg"; ".jpeg"] = before ++ ext :: after
           /\ url = "/templates/" +:+ shown +:+ "/"
                    +:+ template_name +:+ "/preview" +:+ ext
           /\ path_exists st (OS.path_join template_dir ("preview" +:+ ext)) = true
           /\ forall x, In x before ->
                path_exists st (OS.path_join template_dir ("preview" +:+ x)) = false
     end.
Proof.
  intros H template_dir shown.
  assert (shown = App.written py document_type) as Hshown
    by (subst shown; destruct py; reflexivity).
  rewrite Hshown. clear Hshown shown.
  unfold Endpoints.get_template_info, try_except in H.
  match type of H with
  | match ?body w with _ => _ end = _ =>
      destruct (body w) as [[i|e] w2] eqn:Hb
  end.
  2: { destruct e; discriminate H. }
  injection H as <- <-.
  unfold bindM at 1 in Hb.
  destruct (TemplateManager.__init__ st "templates" w) as [[tm|e] w3] eqn:Hinit;
    [| discriminate Hb].
  unfold bindM at 1 in Hb.
  destruct (TemplateManager.get_available_templates st _ None w3)
    as [[r|e] w4] eqn:Hget; [| discriminate Hb].
  destruct (get_fills_cache _ _ _ _ _ _ Hget) as (c & Hc & Ha).
  cbn in Ha. injection Ha as <-.
  destruct (Py.dict_get (App.value document_type) c) as [names|] eqn:Hnames;
    [| discriminate Hb].
  destruct (Py.list_contains template_name names) eqn:Hin;
    [| discriminate Hb].
  cbn [negb] in Hb. unfold bindM at 1 in Hb.
  destruct (find_preview_spec st template_dir
              ("/templates/" +:+ App.written py document_type +:+ "/"
               +:+ template_name)
              [".png"; ".jpg"; ".jpeg"] w4)
    as (p & w5 & Hp & Hsame & Hspec).
  fold template_dir in Hb. rewrite Hp in Hb.
  cbn in Hb. injection Hb as <- <-.
  cbn [Endpoints.info_name Endpoints.info_document_type Endpoints.preview_url].
  split; [reflexivity |]. split; [reflexivity |]. split.
  - exists names. split; [| exact Hin].
    rewrite (find_preview_cache _ _ _ _ _ _ _ Hp), Hc. exact Hnames.
  - destruct p as [url|]; [| exact Hspec].
    destruct Hspec as (before & ext & after & Hl & -> & Hthere & Hnone).
    exists before, ext, after. rewrite !append_assoc. auto.
Qed.

Lemma X24_witness :
  Endpoints.get_template_info App.Python311 Fixtures.app_store App.RESUME
    "twocolumn" Fixtures.empty_world
  = (Ok (Endpoints.mk_info "twocolumn" App.RESUME None
           "Twocolumn template for resume"),
     snd (Endpoints.get_template_info App.Python311 Fixtures.app_store
            App.RESUME "twocolumn" Fixtures.empty_world))
  /\ path_exists Fixtures.app_store
       (OS.path_join
          (OS.path_join_all "templates" [App.value App.RESUME; "twocolumn"])
          ("preview" +:+ ".png")) = false.
Proof.
  assert (Endpoints.get_template_info App.Python311 Fixtures.app_store
            App.RESUME "twocolumn" Fixtures.empty_world
          = (Ok (Endpoints.mk_info "twocolumn" App.RESUME None
                   "Twocolumn template for resume"),
             snd (Endpoints.get_template_info App.Python311 Fixtures.app_store
                    App.RESUME "twocolumn" Fixtures.empty_world))) as H
    by (vm_compute; reflexivity).
  split; [exact H |].
  refine (proj2 (proj2 (proj2 (X24_template_info_preview App.Python311
                                 Fixtures.app_store App.RESUME
                                 "twocolumn" Fixtures.empty_world _ _ H)))
            ".png" _).
  cbn. tauto.
Defined.
